(** * The Mongo storage backend: client manager and session-request manager

    A shallow embedding of the [mongo] package of the storage backend (the
    client manager, the PKCE and OpenID Connect session storage of the
    request manager) together with the pieces of its collaborators the code
    relies on: the document engine (mgo), the secret hasher (fosite.Hasher),
    the clock, the UUID source, the logger and the tracing span.

    Go methods return [(result, err)]; they are embedded as state-passing
    functions over a [World] returning the same pair.  The per-call database
    session and the context that carries it are resource handles without an
    effect on results and are left out. *)

From Stdlib Require Import ZArith String List Bool Lia.
From stdpp Require Import base gmap strings list fin_maps pretty.

Local Open Scope string_scope.
Local Open Scope Z_scope.

(** ** Errors

    Go's [error] values that travel through the package: the engine's own
    (package mgo), the sentinels of fosite and of the storage package, and
    whatever the pluggable hasher reports. *)

Inductive error : Type :=
  | mgo_ErrNotFound
  | mgo_ErrDup (msg : string)
  | mgo_ErrOther (msg : string)
  | fosite_ErrNotFound
  | fosite_ErrAccessDenied
  | storage_ErrResourceExists
  | hasher_Err (msg : string).

Global Instance error_eq_dec : EqDecision error.
Proof. solve_decision. Defined.

(** [mgo.IsDup]: the error is a duplicate-key violation. *)
Definition IsDup (e : error) : bool :=
  match e with mgo_ErrDup _ => true | _ => false end.

Inductive result (A : Type) : Type :=
  | Ok (a : A)
  | Fail (e : error).
Arguments Ok {A} a.
Arguments Fail {A} e.

(** ** The client record *)

(** Modelled from the spec: the declaration of [storage.Client] is outside
    the source at hand.  The fields are the attributes the data model lists
    (identity, hashed secret, display and contact metadata, grant types,
    response types, redirect URIs, scopes, tenant access, the public and
    disabled flags, the two Unix timestamps), under the names the manager
    uses. *)
Record Client : Type := mkClient {
  ID : string;
  CreateTime : Z;
  UpdateTime : Z;
  AllowedTenantAccess : list string;
  GrantTypes : list string;
  ResponseTypes : list string;
  Scopes : list string;
  Public : bool;
  Disabled : bool;
  Name : string;
  Secret : string;
  RedirectURIs : list string;
  Contacts : list string
}.

Global Instance Client_eq_dec : EqDecision Client.
Proof. solve_decision. Defined.

(** Go's zero value [storage.Client{}], what a named result holds until it
    is assigned. *)
Definition zeroClient : Client :=
  mkClient "" 0 0 [] [] [] [] false false "" "" [] [].

Definition with_ID (v : string) (c : Client) : Client :=
  mkClient v (CreateTime c) (UpdateTime c) (AllowedTenantAccess c)
    (GrantTypes c) (ResponseTypes c) (Scopes c) (Public c) (Disabled c)
    (Name c) (Secret c) (RedirectURIs c) (Contacts c).

Definition with_CreateTime (v : Z) (c : Client) : Client :=
  mkClient (ID c) v (UpdateTime c) (AllowedTenantAccess c)
    (GrantTypes c) (ResponseTypes c) (Scopes c) (Public c) (Disabled c)
    (Name c) (Secret c) (RedirectURIs c) (Contacts c).

Definition with_UpdateTime (v : Z) (c : Client) : Client :=
  mkClient (ID c) (CreateTime c) v (AllowedTenantAccess c)
    (GrantTypes c) (ResponseTypes c) (Scopes c) (Public c) (Disabled c)
    (Name c) (Secret c) (RedirectURIs c) (Contacts c).

Definition with_Secret (v : string) (c : Client) : Client :=
  mkClient (ID c) (CreateTime c) (UpdateTime c) (AllowedTenantAccess c)
    (GrantTypes c) (ResponseTypes c) (Scopes c) (Public c) (Disabled c)
    (Name c) v (RedirectURIs c) (Contacts c).

(** Modelled from the spec: [Client.IsEmpty] is declared outside the source
    at hand; the migrator treats "empty record" as the record nothing was
    assigned to. *)
Definition IsEmpty (c : Client) : bool := bool_decide (c = zeroClient).

(** [Client.GetHashedSecret]: the stored secret, as bytes. *)
Definition GetHashedSecret (c : Client) : string := Secret c.

(** Modelled from the spec: [storage.ListClientsRequest] is declared outside
    the source at hand; the filter contract lists its fields and [List]
    fixes their types by how it tests them. *)
Record ListClientsRequest : Type := mkListClientsRequest {
  f_AllowedTenantAccess : string;
  f_RedirectURI : string;
  f_GrantType : string;
  f_ResponseType : string;
  f_ScopesIntersection : list string;
  f_ScopesUnion : list string;
  f_Contact : string;
  f_Public : bool;
  f_Disabled : bool
}.

(** ** BSON documents and queries

    A query ([bson.M]) is a map from field names to conditions; assigning a
    key twice keeps the last condition.  A stored document is a map from
    field names to values. *)

Inductive Value : Type :=
  | VString (s : string)
  | VBool (b : bool)
  | VInt (z : Z)
  | VArray (l : list string).

Global Instance Value_eq_dec : EqDecision Value.
Proof. solve_decision. Defined.

Inductive Cond : Type :=
  | QEq (v : Value)
  | QAll (l : list string)
  | QIn (l : list string).

Global Instance Cond_eq_dec : EqDecision Cond.
Proof. solve_decision. Defined.

Abbreviation bsonM := (gmap string Cond).
Abbreviation bsonD := (gmap string Value).

(** The engine's matching of one condition against one field of a document:
    equality against an array field holds when the array contains the value,
    [$all] when the array contains every listed value, [$in] when the field
    (or one element of an array field) is among the listed values; a field
    the document lacks matches none of them. *)
Definition sat (c : Cond) (f : option Value) : bool :=
  match c, f with
  | QEq (VString s), Some (VArray l) => bool_decide (s ∈ l)
  | QEq v, Some v' => bool_decide (v = v')
  | QAll l, Some (VArray l') => forallb (λ x, bool_decide (x ∈ l')) l
  | QIn l, Some (VArray l') => existsb (λ x, bool_decide (x ∈ l)) l'
  | QIn l, Some (VString s) => bool_decide (s ∈ l)
  | _, _ => false
  end.

(** A document matches a query when it satisfies every condition in it. *)
Definition matches (q : bsonM) (d : bsonD) : bool :=
  bool_decide (map_Forall (λ k c, sat c (d !! k) = true) q).

(** The document a client record is stored as.  The field names are those
    the manager's queries use. *)
Definition toBSON (c : Client) : bsonD :=
  list_to_map
    [ ("id", VString (ID c));
      ("createTime", VInt (CreateTime c));
      ("updateTime", VInt (UpdateTime c));
      ("allowedTenantAccess", VArray (AllowedTenantAccess c));
      ("grantTypes", VArray (GrantTypes c));
      ("responseTypes", VArray (ResponseTypes c));
      ("scopes", VArray (Scopes c));
      ("public", VBool (Public c));
      ("disabled", VBool (Disabled c));
      ("name", VString (Name c));
      ("secret", VString (Secret c));
      ("redirectUris", VArray (RedirectURIs c));
      ("contacts", VArray (Contacts c)) ].

(** ** The document engine

    A collection is the list of its documents in insertion order, with a
    unique index on one key.  These are the engine's operations as the
    package uses them: [One] yields the first match, [Insert] refuses a
    duplicate key, [Update] replaces the first match by the given document,
    [Upsert] replaces the first match or inserts, [Remove] deletes the first
    match. *)
Module mgo.
Section Collection.
Context {Doc : Type} (key : Doc → string).

Definition has_key (k : string) (d : Doc) : bool := bool_decide (key d = k).

Definition One (sel : Doc → bool) (docs : list Doc) : result Doc :=
  match List.find sel docs with
  | Some d => Ok d
  | None => Fail mgo_ErrNotFound
  end.

Definition All (sel : Doc → bool) (docs : list Doc) : list Doc :=
  List.filter sel docs.

Definition Insert (d : Doc) (docs : list Doc) : result (list Doc) :=
  if existsb (has_key (key d)) docs
  then Fail (mgo_ErrDup "E11000 duplicate key error")
  else Ok (docs ++ [d])%list.

Fixpoint remove_first (sel : Doc → bool) (docs : list Doc) : list Doc :=
  match docs with
  | [] => []
  | x :: rest => if sel x then rest else x :: remove_first sel rest
  end.

Fixpoint replace_first (sel : Doc → bool) (d : Doc) (docs : list Doc) : list Doc :=
  match docs with
  | [] => []
  | x :: rest => if sel x then d :: rest else x :: replace_first sel d rest
  end.

(** The index is consulted only when the replacement changes the key. *)
Definition Update (sel : Doc → bool) (d : Doc) (docs : list Doc) : result (list Doc) :=
  match List.find sel docs with
  | None => Fail mgo_ErrNotFound
  | Some old =>
      if negb (has_key (key old) d) && existsb (has_key (key d)) docs
      then Fail (mgo_ErrDup "E11000 duplicate key error")
      else Ok (replace_first sel d docs)
  end.

Definition Upsert (sel : Doc → bool) (d : Doc) (docs : list Doc) : result (list Doc) :=
  match List.find sel docs with
  | Some _ => Update sel d docs
  | None => Insert d docs
  end.

Definition Remove (sel : Doc → bool) (docs : list Doc) : result (list Doc) :=
  match List.find sel docs with
  | Some _ => Ok (remove_first sel docs)
  | None => Fail mgo_ErrNotFound
  end.
End Collection.
End mgo.

(** ** Session request records *)

(** The collections of the database ([storage.Entity...] names). *)
Inductive Entity : Type :=
  | EntityClients
  | EntityUsers
  | EntityAccessTokens
  | EntityAuthorizationCodes
  | EntityRefreshTokens
  | EntityOpenIDSessions
  | EntityPKCESessions.

Global Instance Entity_eq_dec : EqDecision Entity.
Proof. solve_decision. Defined.

(** The opaque session payload: the manager only carries it. *)
Definition Session : Type := string.

(** What the manager reads off a [fosite.Requester]. *)
Record Requester : Type := mkRequester {
  GetID : string;
  GetRequestedAt : Z;
  GetClient : Client;
  GetRequestedScopes : list string;
  GetGrantedScopes : list string;
  GetRequestedAudience : list string;
  GetGrantedAudience : list string;
  GetRequestForm : list (string * list string);
  GetSession : option Session
}.

(** Modelled from the spec: [storage.Request], the persisted grant artifact,
    is declared outside the source at hand.  One record shape for every
    grant kind: the signature it is looked up by, the owning client's ID,
    requested and granted scopes and audience, the form values, the session
    payload and the creation timestamp. *)
Record Request : Type := mkRequest {
  r_ID : string;
  r_RequestedAt : Z;
  r_Signature : string;
  r_ClientID : string;
  r_Scopes : list string;
  r_GrantedScopes : list string;
  r_Audience : list string;
  r_GrantedAudience : list string;
  r_Form : list (string * list string);
  r_Session : option Session
}.

Global Instance Request_eq_dec : EqDecision Request.
Proof. solve_decision. Defined.

(** ** The world a call runs in *)

Inductive Level : Type := LvlDebug | LvlWarn | LvlError.

(** The package's log messages; the texts of the named ones are constants
    of the package. *)
Inductive Msg : Type :=
  | logNotFound
  | logConflict
  | logError
  | logNotHashable
  | msgText (text : string).

(** What leaves the process for the logger and the tracing span: a log line
    with its fields (method, id, error), the opening of a span with the
    query or selector of the call, a document logged to the span
    ([otLogQuery]) and an error logged to the span ([otLogErr]). *)
Inductive Payload : Type :=
  | LogLine (lvl : Level) (method id : string) (err : option error) (msg : Msg)
  | SpanStart (manager method : string) (query : option bsonM)
  | SpanLogQuery (doc : Client)
  | SpanLogErr (err : error).

(** How a call to the engine goes wrong: the engine refuses the call, or
    never gets it, and nothing is done; or the engine does what it is asked
    and the reply is lost on the way back.  Either way the driver reports an
    error. *)
Inductive Fault : Type :=
  | Refused (err : error)
  | ReplyLost (err : error).

Definition fault_error (fault : Fault) : error :=
  match fault with
  | Refused err => err
  | ReplyLost err => err
  end.

(** What a call cannot control, indexed by the position of the effect in the
    run: the clock, the UUID source, the randomness the hasher draws on and
    the faults of the engine (connectivity loss and the like; [None] when
    the engine does what it is asked and says so). *)
Record Env : Type := mkEnv {
  clockAt : nat → Z;
  uuidAt : nat → string;
  entropyAt : nat → nat;
  faultAt : nat → option Fault
}.

Record World : Type := mkWorld {
  clients : list Client;
  requests : Entity → list Request;
  logs : list Payload;
  tick : nat;
  env : Env
}.

Definition set_clients (cs : list Client) (w : World) : World :=
  mkWorld cs (requests w) (logs w) (tick w) (env w).

Definition set_requests (rs : Entity → list Request) (w : World) : World :=
  mkWorld (clients w) rs (logs w) (tick w) (env w).

Definition set_logs (ls : list Payload) (w : World) : World :=
  mkWorld (clients w) (requests w) ls (tick w) (env w).

Definition next_tick (w : World) : World :=
  mkWorld (clients w) (requests w) (logs w) (S (tick w)) (env w).

(** ** The state monad of a call *)

Definition M (A : Type) : Type := World → A * World.

Definition ret {A : Type} (a : A) : M A := λ w, (a, w).

Definition bind {A B : Type} (m : M A) (k : A → M B) : M B :=
  λ w, let (a, w') := m w in k a w'.

Notation "x <~ m ;; k" := (bind m (λ x, k))
  (at level 100, m at next level, right associativity).
Notation "m ;;; k" := (bind m (λ _, k))
  (at level 100, right associativity).

Definition emit (p : Payload) : M unit :=
  λ w, (tt, set_logs (logs w ++ [p])%list w).

(** [time.Now().Unix()] *)
Definition time_Now : M Z :=
  λ w, (clockAt (env w) (tick w), next_tick w).

(** [uuid.New()] *)
Definition uuid_New : M string :=
  λ w, (uuidAt (env w) (tick w), next_tick w).

(** One round trip to the engine: the fault of this call, if any. *)
Definition roundtrip : M (option Fault) :=
  λ w, (faultAt (env w) (tick w), next_tick w).

(** ** The secret hasher ([fosite.Hasher]) *)

Record Hasher : Type := mkHasher {
  Hash : nat → string → result string;
  Compare : string → string → option error
}.

(** The contract the storage layer expects of a hasher: a digest verifies
    against the secret it was made from, against no other secret, and is
    never the secret itself. *)
Class HasherLaws (h : Hasher) : Prop := {
  Compare_Hash : ∀ salt s d, Hash h salt s = Ok d → Compare h d s = None;
  Compare_sound : ∀ salt s d s',
    Hash h salt s = Ok d → Compare h d s' = None → s' = s;
  Hash_not_plain : ∀ salt s d, Hash h salt s = Ok d → d ≠ s
}.

Definition hasher_Hash (h : Hasher) (secret : string) : M (result string) :=
  λ w, (Hash h (entropyAt (env w) (tick w)) secret, next_tick w).

(** ** The clients collection

    [c.db.C(storage.EntityClients)]: every call is one round trip.  A read
    that is faulted reports the fault.  A write that is refused reports the
    fault and leaves the collection as it is; a write whose reply is lost
    reports the fault too, with the collection written as far as the engine
    accepted the write.  The unique index is on the [id] field
    ([Configure]). *)
Module collection.
Definition sel (query : bsonM) (d : Client) : bool := matches query (toBSON d).

Definition read {A : Type} (f : list Client → result A) : M (result A) :=
  fault <~ roundtrip ;;
  match fault with
  | Some fault => ret (Fail (fault_error fault))
  | None => λ w, (f (clients w), w)
  end.

Definition write (f : list Client → result (list Client)) : M (option error) :=
  fault <~ roundtrip ;;
  match fault with
  | Some (Refused e) => ret (Some e)
  | Some (ReplyLost e) => λ w,
      match f (clients w) with
      | Ok cs => (Some e, set_clients cs w)
      | Fail _ => (Some e, w)
      end
  | None => λ w,
      match f (clients w) with
      | Ok cs => (None, set_clients cs w)
      | Fail e => (Some e, w)
      end
  end.

Definition Find_One (query : bsonM) : M (result Client) :=
  read (mgo.One (sel query)).
Definition Find_All (query : bsonM) : M (result (list Client)) :=
  read (λ cs, Ok (mgo.All (sel query) cs)).
Definition Insert (doc : Client) : M (option error) :=
  write (mgo.Insert ID doc).
Definition Update (selector : bsonM) (doc : Client) : M (option error) :=
  write (mgo.Update ID (sel selector) doc).
Definition Upsert (selector : bsonM) (doc : Client) : M (option error) :=
  write (mgo.Upsert ID (sel selector) doc).
Definition Remove (query : bsonM) : M (option error) :=
  write (mgo.Remove (sel query)).
End collection.

(** [storage.AuthClientFunc]: the caller's legacy authentication, a
    zero-argument function yielding the candidate record and whether the
    secret authenticated against it. *)
Definition AuthClientFunc : Type := M (Client * bool).

(** ** The client manager *)
Module clientMongoManager.

Record t : Type := mk { hasher : Hasher }.

Definition manager : string := "clientMongoManager".

(** getConcrete returns an OAuth 2.0 Client resource. *)
Definition getConcrete (c : t) (clientID : string) : M (Client * option error) :=
  let query : bsonM := {[ "id" := QEq (VString clientID) ]} in
  emit (SpanStart manager "getConcrete" (Some query)) ;;;
  r <~ collection.Find_One query ;;
  match r with
  | Fail err =>
      if bool_decide (err = mgo_ErrNotFound) then
        emit (LogLine LvlDebug "getConcrete" clientID (Some err) logNotFound) ;;;
        ret (zeroClient, Some fosite_ErrNotFound)
      else
        emit (LogLine LvlError "getConcrete" clientID (Some err) logError) ;;;
        emit (SpanLogErr err) ;;;
        ret (zeroClient, Some err)
  | Ok storageClient => ret (storageClient, None)
  end.

(** The query [List] builds from a filter. *)
Definition List_query (filter : ListClientsRequest) : bsonM :=
  let query : bsonM := ∅ in
  let query :=
    if bool_decide (f_AllowedTenantAccess filter ≠ "")
    then <["allowedTenantAccess" := QEq (VString (f_AllowedTenantAccess filter))]> query
    else query in
  let query :=
    if bool_decide (f_RedirectURI filter ≠ "")
    then <["redirectUris" := QEq (VString (f_RedirectURI filter))]> query
    else query in
  let query :=
    if bool_decide (f_GrantType filter ≠ "")
    then <["grantTypes" := QEq (VString (f_GrantType filter))]> query
    else query in
  let query :=
    if bool_decide (f_ResponseType filter ≠ "")
    then <["responseTypes" := QEq (VString (f_ResponseType filter))]> query
    else query in
  let query :=
    if bool_decide (0 < length (f_ScopesIntersection filter))%nat
    then <["scopes" := QAll (f_ScopesIntersection filter)]> query
    else query in
  let query :=
    if bool_decide (0 < length (f_ScopesUnion filter))%nat
    then <["scopes" := QIn (f_ScopesUnion filter)]> query
    else query in
  let query :=
    if bool_decide (f_Contact filter ≠ "")
    then <["contacts" := QEq (VString (f_Contact filter))]> query
    else query in
  let query :=
    if f_Public filter
    then <["public" := QEq (VBool (f_Public filter))]> query
    else query in
  let query :=
    if f_Disabled filter
    then <["disabled" := QEq (VBool (f_Disabled filter))]> query
    else query in
  query.

(** List filters resources to return a list of OAuth 2.0 client resources. *)
Definition List (c : t) (filter : ListClientsRequest) : M (list Client * option error) :=
  let query := List_query filter in
  emit (SpanStart manager "List" (Some query)) ;;;
  r <~ collection.Find_All query ;;
  match r with
  | Fail err =>
      emit (LogLine LvlError "List" "" (Some err) logError) ;;;
      emit (SpanLogErr err) ;;;
      ret ([], Some err)
  | Ok clients => ret (clients, None)
  end.

(** Create stores a new OAuth2.0 Client resource. *)
Definition Create (c : t) (client : Client) : M (Client * option error) :=
  client <~ (if bool_decide (ID client = "")
             then id <~ uuid_New ;; ret (with_ID id client)
             else ret client) ;;
  client <~ (if bool_decide (CreateTime client = 0)
             then now <~ time_Now ;; ret (with_CreateTime now client)
             else ret client) ;;
  h <~ hasher_Hash (hasher c) (Secret client) ;;
  match h with
  | Fail err =>
      emit (LogLine LvlError "Create" "" (Some err) logNotHashable) ;;;
      ret (zeroClient, Some err)
  | Ok hash =>
      let client := with_Secret hash client in
      emit (SpanStart manager "Create" None) ;;;
      err <~ collection.Insert client ;;
      match err with
      | Some err =>
          if IsDup err then
            emit (LogLine LvlDebug "Create" "" (Some err) logConflict) ;;;
            emit (SpanLogErr err) ;;;
            ret (zeroClient, Some storage_ErrResourceExists)
          else
            emit (LogLine LvlError "Create" "" (Some err) logError) ;;;
            let client := with_Secret "REDACTED" client in
            emit (SpanLogQuery client) ;;;
            emit (SpanLogErr err) ;;;
            ret (zeroClient, Some err)
      | None => ret (client, None)
      end
  end.

(** Get finds and returns an OAuth 2.0 client resource. *)
Definition Get (c : t) (clientID : string) : M (Client * option error) :=
  getConcrete c clientID.

(** GetClient finds and returns an OAuth 2.0 client resource. *)
Definition GetClient (c : t) (clientID : string) : M (option Client * option error) :=
  r <~ getConcrete c clientID ;;
  let (client, err) := r in
  match err with
  | Some err => ret (None, Some err)
  | None => ret (Some client, None)
  end.

(** Update updates an OAuth 2.0 client resource. *)
Definition Update (c : t) (clientID : string) (updatedClient : Client)
  : M (Client * option error) :=
  r <~ getConcrete c clientID ;;
  let (currentResource, err) := r in
  match err with
  | Some err =>
      if bool_decide (err = fosite_ErrNotFound) then
        emit (LogLine LvlDebug "Update" clientID None logNotFound) ;;;
        ret (zeroClient, Some err)
      else
        emit (LogLine LvlError "Update" clientID (Some err) logError) ;;;
        ret (zeroClient, Some err)
  | None =>
      (* Deny updating the entity Id *)
      let updatedClient := with_ID clientID updatedClient in
      (* Update modified time *)
      now <~ time_Now ;;
      let updatedClient := with_UpdateTime now updatedClient in
      let store (updatedClient : Client) : M (Client * option error) :=
        let selector : bsonM := {[ "id" := QEq (VString clientID) ]} in
        emit (SpanStart manager "Update" (Some selector)) ;;;
        err <~ collection.Update selector updatedClient ;;
        match err with
        | Some err =>
            if bool_decide (err = mgo_ErrNotFound) then
              emit (LogLine LvlDebug "Update" clientID (Some err) logNotFound) ;;;
              emit (SpanLogErr err) ;;;
              ret (zeroClient, Some fosite_ErrNotFound)
            else
              emit (LogLine LvlError "Update" clientID (Some err) logError) ;;;
              emit (SpanLogQuery updatedClient) ;;;
              emit (SpanLogErr err) ;;;
              ret (zeroClient, Some err)
        | None => ret (updatedClient, None)
        end in
      if bool_decide (Secret currentResource = Secret updatedClient)
         || bool_decide (Secret updatedClient = "")
      then
        (* If the password/hash is blank or hash matches, set using old hash. *)
        store (with_Secret (Secret currentResource) updatedClient)
      else
        h <~ hasher_Hash (hasher c) (Secret updatedClient) ;;
        match h with
        | Fail err =>
            emit (LogLine LvlError "Update" clientID (Some err) logNotHashable) ;;;
            ret (zeroClient, Some err)
        | Ok newHash => store (with_Secret newHash updatedClient)
        end
  end.

(** Migrate performs an upsert, either creating or overwriting the record
    with the newly provided full record. *)
Definition Migrate (u : t) (migratedClient : Client) : M (Client * option error) :=
  (* Generate a unique ID if not supplied *)
  migratedClient <~ (if bool_decide (ID migratedClient = "")
                     then id <~ uuid_New ;; ret (with_ID id migratedClient)
                     else ret migratedClient) ;;
  migratedClient <~ (if bool_decide (CreateTime migratedClient = 0)
                     then (* Update create time *)
                       now <~ time_Now ;; ret (with_CreateTime now migratedClient)
                     else (* Update modified time *)
                       now <~ time_Now ;; ret (with_UpdateTime now migratedClient)) ;;
  let selector : bsonM := {[ "id" := QEq (VString (ID migratedClient)) ]} in
  emit (SpanStart manager "Migrate" (Some selector)) ;;;
  err <~ collection.Upsert selector migratedClient ;;
  match err with
  | Some err =>
      if bool_decide (err = mgo_ErrNotFound) then
        emit (LogLine LvlDebug "Migrate" "" (Some err) logNotFound) ;;;
        emit (SpanLogErr err) ;;;
        ret (zeroClient, Some fosite_ErrNotFound)
      else if IsDup err then
        emit (LogLine LvlDebug "Migrate" "" (Some err) logConflict) ;;;
        emit (SpanLogErr err) ;;;
        ret (zeroClient, Some storage_ErrResourceExists)
      else
        emit (LogLine LvlError "Migrate" "" (Some err) logError) ;;;
        emit (SpanLogQuery migratedClient) ;;;
        emit (SpanLogErr err) ;;;
        ret (zeroClient, Some err)
  | None => ret (migratedClient, None)
  end.

(** Delete removes an OAuth 2.0 Client resource. *)
Definition Delete (c : t) (clientID : string) : M (option error) :=
  let query : bsonM := {[ "id" := QEq (VString clientID) ]} in
  emit (SpanStart manager "Delete" (Some query)) ;;;
  err <~ collection.Remove query ;;
  match err with
  | Some err =>
      if bool_decide (err = mgo_ErrNotFound) then
        emit (LogLine LvlDebug "Delete" clientID (Some err) logNotFound) ;;;
        emit (SpanLogErr err) ;;;
        ret (Some fosite_ErrNotFound)
      else
        emit (LogLine LvlError "Delete" clientID (Some err) logError) ;;;
        emit (SpanLogErr err) ;;;
        ret (Some err)
  | None => ret None
  end.

(** Authenticate verifies the identity of a client resource. *)
Definition Authenticate (c : t) (clientID : string) (secret : string)
  : M (Client * option error) :=
  emit (SpanStart manager "Authenticate" None) ;;;
  r <~ getConcrete c clientID ;;
  let (client, err) := r in
  match err with
  | Some err =>
      if bool_decide (err = fosite_ErrNotFound) then
        emit (LogLine LvlDebug "Authenticate" clientID None logNotFound) ;;;
        ret (zeroClient, Some err)
      else
        emit (LogLine LvlError "Authenticate" clientID (Some err) logError) ;;;
        ret (zeroClient, Some err)
  | None =>
      if Public client then
        (* The client doesn't have a secret, therefore is authenticated
           implicitly. *)
        emit (LogLine LvlDebug "Authenticate" clientID None
                (msgText "public client allowed access")) ;;;
        ret (client, None)
      else if Disabled client then
        emit (LogLine LvlDebug "Authenticate" clientID None
                (msgText "disabled client denied access")) ;;;
        ret (zeroClient, Some fosite_ErrAccessDenied)
      else
        match Compare (hasher c) (GetHashedSecret client) secret with
        | Some err =>
            emit (LogLine LvlWarn "Authenticate" clientID (Some err)
                    (msgText "failed to authenticate client secret")) ;;;
            ret (zeroClient, Some err)
        | None => ret (client, None)
        end
  end.

Definition AuthenticateMigration (c : t) (currentAuth : AuthClientFunc)
    (clientID : string) (secret : string) : M (Client * option error) :=
  emit (SpanStart manager "AuthenticateMigration" None) ;;;
  (* Authenticate with old hasher *)
  r <~ currentAuth ;;
  let (client, authenticated) := r in
  (* Check for client not found *)
  if IsEmpty client && negb authenticated then
    emit (LogLine LvlDebug "AuthenticateMigration" clientID None logNotFound) ;;;
    ret (zeroClient, Some fosite_ErrNotFound)
  else if Public client then
    emit (LogLine LvlDebug "AuthenticateMigration" clientID None
            (msgText "public client allowed access")) ;;;
    ret (client, None)
  else if Disabled client then
    emit (LogLine LvlDebug "AuthenticateMigration" clientID None
            (msgText "disabled client denied access")) ;;;
    ret (zeroClient, Some fosite_ErrAccessDenied)
  else if negb authenticated then
    (* If client isn't authenticated, try authenticating with new hasher. *)
    match Compare (hasher c) (GetHashedSecret client) secret with
    | Some err =>
        emit (LogLine LvlWarn "AuthenticateMigration" clientID (Some err)
                (msgText "failed to authenticate client secret")) ;;;
        ret (zeroClient, Some err)
    | None => ret (client, None)
    end
  else
    (* If the client is found and authenticated, create a new hash using the
       new hasher, update the database record and return the record with no
       error. *)
    h <~ hasher_Hash (hasher c) secret ;;
    match h with
    | Fail err =>
        emit (LogLine LvlError "AuthenticateMigration" clientID (Some err)
                logNotHashable) ;;;
        ret (zeroClient, Some err)
    | Ok newHash =>
        (* Save the new hash *)
        let client := with_Secret newHash client in
        Update c clientID client
    end.

End clientMongoManager.

(** ** The session-request manager *)
Module requestMongoManager.

Record t : Type := mk { Clients : clientMongoManager.t }.

Definition manager : string := "requestMongoManager".

Definition zeroRequest : Request :=
  mkRequest "" 0 "" "" [] [] [] [] [] None.

Definition has_signature (signature : string) : Request → bool :=
  mgo.has_key r_Signature signature.

Definition set_collection (entityName : Entity) (rs : list Request) (w : World) : World :=
  set_requests (λ e, if bool_decide (e = entityName) then rs else requests w e) w.

(** Modelled from the spec: [toMongo] is declared outside the source at
    hand.  It serializes the requester's client ID, scopes, granted scopes,
    audience, granted audience, form and session payload into a session
    request record keyed by the signature. *)
Definition toMongo (signature : string) (r : Requester) : Request :=
  mkRequest (GetID r) (GetRequestedAt r) signature (ID (GetClient r))
    (GetRequestedScopes r) (GetGrantedScopes r)
    (GetRequestedAudience r) (GetGrantedAudience r)
    (GetRequestForm r) (GetSession r).

(** Modelled from the spec: [requestMongoManager.Create] is declared outside
    the source at hand.  It stores the record in the collection of the given
    grant kind and fails with Conflict if a record with that signature
    already exists in that collection. *)
Definition Create (r : t) (entityName : Entity) (request : Request)
  : M (Request * option error) :=
  emit (SpanStart manager "Create" None) ;;;
  fault <~ roundtrip ;;
  match fault with
  | Some (Refused err) =>
      if IsDup err then ret (zeroRequest, Some storage_ErrResourceExists)
      else ret (zeroRequest, Some err)
  | Some (ReplyLost err) => λ w,
      let failed :=
        (zeroRequest,
         Some (if IsDup err then storage_ErrResourceExists else err)) in
      match mgo.Insert r_Signature request (requests w entityName) with
      | Ok rs => (failed, set_collection entityName rs w)
      | Fail _ => (failed, w)
      end
  | None => λ w,
      match mgo.Insert r_Signature request (requests w entityName) with
      | Ok rs => ((request, None), set_collection entityName rs w)
      | Fail err =>
          if IsDup err then ((zeroRequest, Some storage_ErrResourceExists), w)
          else ((zeroRequest, Some err), w)
      end
  end.

(** Modelled from the spec: [requestMongoManager.GetBySignature] is declared
    outside the source at hand.  It fetches the record by signature and
    fails with NotFound if absent. *)
Definition GetBySignature (r : t) (entityName : Entity) (signature : string)
  : M (Request * option error) :=
  emit (SpanStart manager "GetBySignature" None) ;;;
  fault <~ roundtrip ;;
  match fault with
  | Some fault =>
      let err := fault_error fault in
      if bool_decide (err = mgo_ErrNotFound) then ret (zeroRequest, Some fosite_ErrNotFound)
      else ret (zeroRequest, Some err)
  | None => λ w,
      match mgo.One (has_signature signature) (requests w entityName) with
      | Ok req => ((req, None), w)
      | Fail err =>
          if bool_decide (err = mgo_ErrNotFound) then ((zeroRequest, Some fosite_ErrNotFound), w)
          else ((zeroRequest, Some err), w)
      end
  end.

(** Modelled from the spec: [requestMongoManager.DeleteBySignature] is
    declared outside the source at hand.  It removes the record by signature
    and fails with NotFound if absent. *)
Definition DeleteBySignature (r : t) (entityName : Entity) (signature : string)
  : M (option error) :=
  emit (SpanStart manager "DeleteBySignature" None) ;;;
  fault <~ roundtrip ;;
  match fault with
  | Some (Refused err) =>
      if bool_decide (err = mgo_ErrNotFound) then ret (Some fosite_ErrNotFound)
      else ret (Some err)
  | Some (ReplyLost err) => λ w,
      let failed :=
        Some (if bool_decide (err = mgo_ErrNotFound) then fosite_ErrNotFound else err) in
      match mgo.Remove (has_signature signature) (requests w entityName) with
      | Ok rs => (failed, set_collection entityName rs w)
      | Fail _ => (failed, w)
      end
  | None => λ w,
      match mgo.Remove (has_signature signature) (requests w entityName) with
      | Ok rs => (None, set_collection entityName rs w)
      | Fail err =>
          if bool_decide (err = mgo_ErrNotFound) then (Some fosite_ErrNotFound, w)
          else (Some err, w)
      end
  end.

(** Modelled from the spec: [Request.ToRequest] is declared outside the
    source at hand.  It resolves the owning client through the client
    manager, propagating NotFound if the client has since been deleted, and
    reassembles the requester: scopes, granted scopes, audience, granted
    audience, form values, request timestamp, client, and the session
    payload read into the destination the caller supplied. *)
Definition ToRequest (req : Request) (session : option Session)
    (cm : clientMongoManager.t) : M (option Requester * option error) :=
  r <~ clientMongoManager.GetClient cm (r_ClientID req) ;;
  match r with
  | (Some client, None) =>
      ret (Some (mkRequester (r_ID req) (r_RequestedAt req) client
                   (r_Scopes req) (r_GrantedScopes req)
                   (r_Audience req) (r_GrantedAudience req) (r_Form req)
                   (match session with
                    | Some _ => r_Session req
                    | None => None
                    end)), None)
  | (_, Some err) => ret (None, Some err)
  | (None, None) => ret (None, Some fosite_ErrNotFound)
  end.

Definition CreatePKCERequestSession (r : t) (signature : string) (request : Requester)
  : M (option error) :=
  emit (SpanStart manager "CreatePKCERequestSession" None) ;;;
  (* Store session request *)
  res <~ Create r EntityPKCESessions (toMongo signature request) ;;
  match snd res with
  | Some err =>
      if bool_decide (err = storage_ErrResourceExists) then
        emit (LogLine LvlDebug "CreatePKCERequestSession" "" (Some err) logConflict) ;;;
        ret (Some err)
      else
        emit (LogLine LvlError "CreatePKCERequestSession" "" (Some err) logError) ;;;
        ret (Some err)
  | None => ret None
  end.

Definition GetPKCERequestSession (r : t) (signature : string) (session : option Session)
  : M (option Requester * option error) :=
  emit (SpanStart manager "GetPKCERequestSession" None) ;;;
  (* Get the stored request *)
  res <~ GetBySignature r EntityPKCESessions signature ;;
  let (req, err) := res in
  match err with
  | Some err =>
      if bool_decide (err = fosite_ErrNotFound) then
        emit (LogLine LvlDebug "GetPKCERequestSession" "" (Some err) logNotFound) ;;;
        ret (None, Some err)
      else
        emit (LogLine LvlError "GetPKCERequestSession" "" (Some err) logError) ;;;
        ret (None, Some err)
  | None =>
      (* Transform to a fosite.Request *)
      res <~ ToRequest req session (Clients r) ;;
      let (request, err) := res in
      match err with
      | Some err =>
          if bool_decide (err = fosite_ErrNotFound) then
            emit (LogLine LvlDebug "GetPKCERequestSession" "" (Some err) logNotFound) ;;;
            ret (None, Some err)
          else
            emit (LogLine LvlError "GetPKCERequestSession" "" (Some err) logError) ;;;
            ret (None, Some err)
      | None => ret (request, None)
      end
  end.

Definition DeletePKCERequestSession (r : t) (signature : string) : M (option error) :=
  emit (SpanStart manager "DeletePKCERequestSession" None) ;;;
  (* Remove session request *)
  err <~ DeleteBySignature r EntityPKCESessions signature ;;
  match err with
  | Some err =>
      if bool_decide (err = fosite_ErrNotFound) then
        emit (LogLine LvlDebug "DeletePKCERequestSession" "" (Some err) logNotFound) ;;;
        ret (Some err)
      else
        emit (LogLine LvlError "DeletePKCERequestSession" "" (Some err) logError) ;;;
        ret (Some err)
  | None => ret None
  end.

(** CreateOpenIDConnectSession creates an open id connect session resource
    for a given authorize code. *)
Definition CreateOpenIDConnectSession (r : t) (authorizeCode : string) (request : Requester)
  : M (option error) :=
  emit (SpanStart manager "CreateOpenIDConnectSession" None) ;;;
  (* Store session request *)
  res <~ Create r EntityOpenIDSessions (toMongo authorizeCode request) ;;
  match snd res with
  | Some err =>
      if bool_decide (err = storage_ErrResourceExists) then
        emit (LogLine LvlDebug "CreateOpenIDConnectSession" "" (Some err) logConflict) ;;;
        ret (Some err)
      else
        emit (LogLine LvlError "CreateOpenIDConnectSession" "" (Some err) logError) ;;;
        ret (Some err)
  | None => ret None
  end.

(** GetOpenIDConnectSession gets a session resource based off the Authorize
    Code and returns a fosite.Requester, or an error. *)
Definition GetOpenIDConnectSession (r : t) (authorizeCode : string) (requester : Requester)
  : M (option Requester * option error) :=
  emit (SpanStart manager "GetOpenIDConnectSession" None) ;;;
  (* Get the stored request *)
  res <~ GetBySignature r EntityOpenIDSessions authorizeCode ;;
  let (req, err) := res in
  match err with
  | Some err =>
      if bool_decide (err = fosite_ErrNotFound) then
        emit (LogLine LvlDebug "GetOpenIDConnectSession" "" (Some err) logNotFound) ;;;
        ret (None, Some err)
      else
        emit (LogLine LvlError "GetOpenIDConnectSession" "" (Some err) logError) ;;;
        ret (None, Some err)
  | None =>
      (* Transform to a fosite.Request *)
      match GetSession requester with
      | None => ret (None, Some fosite_ErrNotFound)
      | Some session =>
          res <~ ToRequest req (Some session) (Clients r) ;;
          let (request, err) := res in
          match err with
          | Some err =>
              if bool_decide (err = fosite_ErrNotFound) then
                emit (LogLine LvlDebug "GetOpenIDConnectSession" "" (Some err) logNotFound) ;;;
                ret (None, Some err)
              else
                emit (LogLine LvlError "GetOpenIDConnectSession" "" (Some err) logError) ;;;
                ret (None, Some err)
          | None => ret (request, None)
          end
      end
  end.

(** DeleteOpenIDConnectSession removes an open id connect session from mongo. *)
Definition DeleteOpenIDConnectSession (r : t) (authorizeCode : string) : M (option error) :=
  emit (SpanStart manager "DeleteOpenIDConnectSession" None) ;;;
  (* Remove session request *)
  err <~ DeleteBySignature r EntityOpenIDSessions authorizeCode ;;
  match err with
  | Some err =>
      if bool_decide (err = fosite_ErrNotFound) then
        emit (LogLine LvlDebug "DeleteOpenIDConnectSession" "" (Some err) logNotFound) ;;;
        ret (Some err)
      else
        emit (LogLine LvlError "DeleteOpenIDConnectSession" "" (Some err) logError) ;;;
        ret (Some err)
  | None => ret None
  end.

End requestMongoManager.

(** ** Conditions on worlds *)

(** The engine does what it is asked and says so: no call is faulted. *)
Definition healthy (w : World) : Prop := ∀ n, faultAt (env w) n = None.

(** Every reply of the engine arrives: a call may be refused, it is never
    done with its reply lost. *)
Definition replies_arrive (w : World) : Prop :=
  ∀ n err, faultAt (env w) n ≠ Some (ReplyLost err).

(** The unique index on [id] holds of the clients collection. *)
Definition unique_ids (w : World) : Prop := NoDup (ID <$> clients w).

(** The stored client with a given ID, if any. *)
Definition stored (clientID : string) (w : World) : option Client :=
  List.find (mgo.has_key ID clientID) (clients w).

(** The stored session record with a given signature, if any. *)
Definition stored_request (entityName : Entity) (signature : string) (w : World)
  : option Request :=
  List.find (requestMongoManager.has_signature signature) (requests w entityName).

(** The filter contract in the spec's words: each empty or false field is no
    constraint; the others must all hold. *)
Definition spec_matches (f : ListClientsRequest) (cl : Client) : bool :=
  (bool_decide (f_AllowedTenantAccess f = "")
   || bool_decide (f_AllowedTenantAccess f ∈ AllowedTenantAccess cl))
  && (bool_decide (f_RedirectURI f = "")
      || bool_decide (f_RedirectURI f ∈ RedirectURIs cl))
  && (bool_decide (f_GrantType f = "")
      || bool_decide (f_GrantType f ∈ GrantTypes cl))
  && (bool_decide (f_ResponseType f = "")
      || bool_decide (f_ResponseType f ∈ ResponseTypes cl))
  && match f_ScopesUnion f, f_ScopesIntersection f with
     | _ :: _, _ =>
         (* the record contains ANY listed scope; the intersection is dropped *)
         existsb (λ s, bool_decide (s ∈ Scopes cl)) (f_ScopesUnion f)
     | [], _ :: _ =>
         (* the record contains ALL listed scopes *)
         forallb (λ s, bool_decide (s ∈ Scopes cl)) (f_ScopesIntersection f)
     | [], [] => true
     end
  && (bool_decide (f_Contact f = "")
      || bool_decide (f_Contact f ∈ Contacts cl))
  && (negb (f_Public f) || Public cl)
  && (negb (f_Disabled f) || Disabled cl).

(** The conditional assignment [if b { query[k] = v }]. *)
Definition put (b : bool) (k : string) (v : Cond) (m : bsonM) : bsonM :=
  if b then <[k := v]> m else m.

(** The documents a run has logged to the tracing span. *)
Definition logged_documents (w : World) : list Client :=
  omap (λ p, match p with SpanLogQuery doc => Some doc | _ => None end) (logs w).

(** An operation keeps a property of the world. *)
Definition preserves {A : Type} (P : World → Prop) (m : M A) : Prop :=
  ∀ w, P w → P (snd (m w)).

(** ** A hasher and worlds to run the managers on *)
Module Sample.

(** A hasher that marks its digests: the digest of [s] is ["#"] followed by
    [s], whatever the salt. *)
Definition prefixHasher : Hasher :=
  mkHasher
    (λ _ s, Ok ("#" +:+ s))
    (λ d s, if bool_decide (d = "#" +:+ s) then None
            else Some (hasher_Err "hashedPassword is not the hash of the given password")).

Definition manager : clientMongoManager.t := clientMongoManager.mk prefixHasher.
Definition sessions : requestMongoManager.t := requestMongoManager.mk manager.

Definition quiet : Env :=
  mkEnv (λ _, 1700000000) (λ n, "uuid-" +:+ pretty n) (λ n, n) (λ _, None).

(** The engine cannot be reached on the call at position [k]. *)
Definition outage_at (k : nat) : Env :=
  mkEnv (λ _, 1700000000) (λ n, "uuid-" +:+ pretty n) (λ n, n)
    (λ n, if bool_decide (n = k)
          then Some (Refused (mgo_ErrOther "no reachable servers"))
          else None).

Definition empty (e : Env) : World := mkWorld [] (λ _, []) [] 0 e.

Definition c1 : Client :=
  mkClient "c1" 1600000000 0 ["tenant-a"] ["authorization_code"] ["code"]
    ["openid"; "profile"] false false "app one" "#s3cr3t"
    ["https://one.example/cb"] ["ops@one.example"].

Definition with_clients (cs : list Client) (e : Env) : World :=
  mkWorld cs (λ _, []) [] 0 e.

(** [c1] as the legacy system left it: its secret is still an MD5 digest. *)
Definition legacy1 : Client := with_Secret "5ebe2294ecd0e0f08eab7690d2a6ee69" c1.

(** The legacy check of that digest succeeded. *)
Definition legacyAuth : AuthClientFunc := ret (legacy1, true).

(** A client whose access was revoked. *)
Definition retired : Client :=
  mkClient "retired" 1600000000 1650000000 [] ["client_credentials"] ["token"]
    ["reports"] false true "old batch job" "#hunter2" [] [].

(** A public client that was disabled. *)
Definition kiosk : Client :=
  mkClient "kiosk" 1600000000 1650000000 [] ["implicit"] ["token"]
    ["openid"] true true "lobby kiosk" "" ["https://kiosk.example/cb"] [].

(** An authorize request of [c1], with and without a session to fill. *)
Definition request1 : Requester :=
  mkRequester "req-1" 1700000000 c1 ["openid"; "profile"] ["openid"] [] [] []
    (Some "{subject: alice}").

Definition request1_nil_session : Requester :=
  mkRequester "req-1" 1700000000 c1 ["openid"; "profile"] ["openid"] [] [] [] None.

(** A database holding [c1] and the OpenID Connect session of [request1]
    under the authorization code ["code-1"]. *)
Definition with_session (e : Env) : World :=
  mkWorld [c1]
    (λ entityName,
       if bool_decide (entityName = EntityOpenIDSessions)
       then [requestMongoManager.toMongo "code-1" request1]
       else [])
    [] 0 e.

Definition scoped (union intersection : list string) : ListClientsRequest :=
  mkListClientsRequest "" "" "" "" intersection union "" false false.

End Sample.


(** ** Scope grants of the client manager *)
Section Scopes.

(** [Client.EnableScopeAccess] and [Client.DisableScopeAccess] are declared
    outside the source at hand; the two scope edits are taken as they come. *)
Variable EnableScopeAccess : list string → Client → Client.
Variable DisableScopeAccess : list string → Client → Client.

Definition GrantScopes (c : clientMongoManager.t) (clientID : string)
    (scopes : list string) : M (Client * option error) :=
  emit (SpanStart clientMongoManager.manager "GrantScopes" None) ;;;
  r <~ clientMongoManager.getConcrete c clientID ;;
  let (client, err) := r in
  match err with
  | Some err =>
      if bool_decide (err = fosite_ErrNotFound) then
        emit (LogLine LvlDebug "GrantScopes" clientID None logNotFound) ;;;
        ret (zeroClient, Some err)
      else
        emit (LogLine LvlError "GrantScopes" clientID (Some err) logError) ;;;
        ret (zeroClient, Some err)
  | None =>
      let client := EnableScopeAccess scopes client in
      clientMongoManager.Update c (ID client) client
  end.

Definition RemoveScopes (c : clientMongoManager.t) (clientID : string)
    (scopes : list string) : M (Client * option error) :=
  emit (SpanStart clientMongoManager.manager "RemoveScopes" None) ;;;
  r <~ clientMongoManager.getConcrete c clientID ;;
  let (client, err) := r in
  match err with
  | Some err =>
      if bool_decide (err = fosite_ErrNotFound) then
        emit (LogLine LvlDebug "RemoveScopes" clientID None logNotFound) ;;;
        ret (zeroClient, Some err)
      else
        emit (LogLine LvlError "RemoveScopes" clientID (Some err) logError) ;;;
        ret (zeroClient, Some err)
  | None =>
      let client := DisableScopeAccess scopes client in
      clientMongoManager.Update c (ID client) client
  end.

End Scopes.

(** ** Connection settings

    [Config] is handed around by pointer and [ConnectionInfo] writes to it;
    its host names are a Go slice, which shares its backing array with every
    other slice made from it.  A slice is nil or refers to an array in a
    heap; the configuration is passed in and out. *)
Module config.

Definition slice : Type := option nat.

Abbreviation heap := (gmap nat (list string)).

(** The elements a slice holds. *)
Definition elements (s : slice) (h : heap) : list string :=
  match s with
  | Some l => default [] (h !! l)
  | None => []
  end.

Definition len (s : slice) (h : heap) : nat := length (elements s h).

(** [Config]; [Port] is a [uint16], [Timeout] a [uint], taken as 64 bits
    wide.  The [TLSConfig] pointer is only handed on to the TLS dialer and
    is left out. *)
Record Config : Type := mkConfig {
  Hostnames : slice;
  Port : N;
  AuthDB : string;
  Username : string;
  Password : string;
  DatabaseName : string;
  Replset : string;
  Timeout : Z;
  SSL : bool
}.

(** [mgo.DialInfo], as far as [ConnectionInfo] fills it in; [DialServer]
    tells whether the TLS dialer was installed. *)
Record DialInfo : Type := mkDialInfo {
  Addrs : slice;
  Database : string;
  d_Username : string;
  d_Password : string;
  Source : string;
  ReplicaSetName : string;
  d_Timeout : Z;
  DialServer : bool
}.

Definition defaultPort : N := 27017.
Definition defaultDatabaseName : string := "oauth2".

(** The package variable [defaultHosts]: a slice over the array at location
    0, which holds ["localhost"] when the package is loaded. *)
Definition defaultHosts : slice := Some 0%nat.
Definition loaded : heap := {[ 0%nat := ["localhost"] ]}.

(** DefaultConfig returns a configuration for a locally hosted,
    unauthenticated mongo. *)
Definition DefaultConfig : Config :=
  mkConfig defaultHosts defaultPort "" "" "" defaultDatabaseName "" 0 false.

(** [fmt.Sprintf("%s:%d", host, port)] *)
Definition Sprintf_host_port (host : string) (port : N) : string :=
  host +:+ ":" +:+ pretty port.

(** [for i := range s { s[i] = body(s[i]) }], from index [i] for [n] rounds. *)
Fixpoint range_assign (body : string → string) (i n : nat) (arr : list string)
  : list string :=
  match n with
  | O => arr
  | S n' =>
      range_assign body (S i) n'
        (match arr !! i with
         | Some x => <[i := body x]> arr
         | None => arr
         end)
  end.

(** Conversion to [int64] and the 64-bit product, as [time.Duration] has
    them. *)
Definition int64 (z : Z) : Z := (z + 2 ^ 63) mod 2 ^ 64 - 2 ^ 63.
Definition Second : Z := 1000000000.

(** ConnectionInfo configures options for establishing a session with a
    MongoDB cluster. *)
Definition ConnectionInfo (cfg : Config) (h : heap) : DialInfo * Config * heap :=
  let hostnames := if bool_decide (len (Hostnames cfg) h = 0%nat)
                   then defaultHosts else Hostnames cfg in
  let databaseName := if bool_decide (DatabaseName cfg = "")
                      then defaultDatabaseName else DatabaseName cfg in
  let h :=
    if bool_decide (0 < Port cfg)%N then
      match hostnames with
      | Some l =>
          <[l := range_assign (λ host, Sprintf_host_port host (Port cfg))
                   0 (len hostnames h) (elements hostnames h)]> h
      | None => h
      end
    else h in
  let timeout := if bool_decide (Timeout cfg = 0) then 10 else Timeout cfg in
  let cfg := mkConfig hostnames (Port cfg) (AuthDB cfg) (Username cfg) (Password cfg)
               databaseName (Replset cfg) timeout (SSL cfg) in
  let dialInfo :=
    mkDialInfo (Hostnames cfg) (DatabaseName cfg) (Username cfg) (Password cfg)
      (AuthDB cfg) (Replset cfg) (int64 (Second * int64 (Timeout cfg)))
      (SSL cfg) in
  (dialInfo, cfg, h).

End config.

(** ** Conditions on outcomes *)

(** Every outcome of an operation meets a condition, whatever the world. *)
Definition returns {A : Type} (Q : A → Prop) (m : M A) : Prop :=
  ∀ w, Q (fst (m w)).

(** An outcome that carries an error carries no record. *)
Definition no_record_on_error (r : Client * option error) : Prop :=
  match snd r with
  | Some _ => fst r = zeroClient
  | None => True
  end.

(** The database of a world: the stored clients and session records. *)
Definition same_database (w w' : World) : Prop :=
  clients w' = clients w ∧ requests w' = requests w.

(** A condition on the stored clients alone. *)
Definition on_clients (Q : list Client → Prop) (w : World) : Prop := Q (clients w).

(** ** More to run the code on *)
Module Fixtures.

(** A scope edit that adds the scopes at the end. *)
Definition appendScopes (scopes : list string) (c : Client) : Client :=
  mkClient (ID c) (CreateTime c) (UpdateTime c) (AllowedTenantAccess c)
    (GrantTypes c) (ResponseTypes c) (Scopes c ++ scopes)%list (Public c)
    (Disabled c) (Name c) (Secret c) (RedirectURIs c) (Contacts c).

(** A configuration with its own two hosts, in the array at location 1. *)
Definition cluster : config.Config :=
  config.mkConfig (Some 1%nat) 27018 "admin" "storage" "pa55" "" "rs0" 0 true.

Definition memory : config.heap :=
  {[ 0%nat := ["localhost"]; 1%nat := ["db1.example"; "db2.example"] ]}.

(** A configuration that names no host. *)
Definition bare : config.Config :=
  config.mkConfig None 27017 "" "" "" "audit" "" 30 false.

(** The configuration without hosts, with a timeout of so many seconds. *)
Definition patient (seconds : Z) : config.Config :=
  config.mkConfig None 27017 "" "" "" "audit" "" seconds false.

(** The engine does the call at position [k] and the connection drops
    before its reply arrives. *)
Definition reply_lost_at (k : nat) : Env :=
  mkEnv (λ _, 1700000000) (λ n, "uuid-" +:+ pretty n) (λ n, n)
    (λ n, if bool_decide (n = k) then Some (ReplyLost (mgo_ErrOther "EOF")) else None).

(** A database with [c1] and a PKCE session of [request1] under ["sig-1"]. *)
Definition with_pkce (e : Env) : World :=
  mkWorld [Sample.c1]
    (λ entityName,
       if bool_decide (entityName = EntityPKCESessions)
       then [requestMongoManager.toMongo "sig-1" Sample.request1]
       else [])
    [] 0 e.

End Fixtures.

(** * Properties *)

(** ** The engine's list operations *)
Section CollectionFacts.
Context {Doc : Type} (key : Doc → string).
Implicit Types (sel : Doc → bool) (d : Doc) (docs : list Doc) (k : string).

Lemma find_pointwise sel sel' docs :
  (∀ d, sel d = sel' d) → List.find sel docs = List.find sel' docs.
Proof.
  intros E. induction docs as [|x rest IH]; simpl; [done|].
  rewrite E, IH. done.
Qed.

Lemma filter_pointwise sel sel' docs :
  (∀ d, sel d = sel' d) → List.filter sel docs = List.filter sel' docs.
Proof.
  intros E. induction docs as [|x rest IH]; simpl; [done|].
  rewrite E, IH. done.
Qed.

Lemma remove_first_pointwise sel sel' docs :
  (∀ d, sel d = sel' d) → mgo.remove_first sel docs = mgo.remove_first sel' docs.
Proof.
  intros E. induction docs as [|x rest IH]; simpl; [done|].
  rewrite E, IH. done.
Qed.

Lemma replace_first_pointwise sel sel' d docs :
  (∀ x, sel x = sel' x) → mgo.replace_first sel d docs = mgo.replace_first sel' d docs.
Proof.
  intros E. induction docs as [|x rest IH]; simpl; [done|].
  rewrite E, IH. done.
Qed.

Lemma has_key_true k d : mgo.has_key key k d = true ↔ key d = k.
Proof. unfold mgo.has_key. apply bool_decide_eq_true. Qed.

Lemma has_key_false k d : mgo.has_key key k d = false ↔ key d ≠ k.
Proof. unfold mgo.has_key. apply bool_decide_eq_false. Qed.

Lemma find_has_key_Some k docs d :
  List.find (mgo.has_key key k) docs = Some d → key d = k ∧ d ∈ docs.
Proof.
  intros H. apply List.find_some in H as [Hin Hk].
  split; [by apply has_key_true | by apply list_elem_of_In].
Qed.

Lemma find_has_key_None k docs :
  List.find (mgo.has_key key k) docs = None ↔ k ∉ key <$> docs.
Proof.
  induction docs as [|x rest IH]; simpl.
  - split; [intros _; apply not_elem_of_nil | done].
  - destruct (mgo.has_key key k x) eqn:E.
    + apply has_key_true in E. split; [done|]. intros H. exfalso.
      apply H. rewrite E. apply list_elem_of_here.
    + apply has_key_false in E. rewrite IH, not_elem_of_cons.
      split; [intros H; split; [congruence | done] | by intros [_ H]].
Qed.

Lemma existsb_has_key k docs :
  existsb (mgo.has_key key k) docs = true ↔ k ∈ key <$> docs.
Proof.
  induction docs as [|x rest IH]; simpl.
  - split; [done | intros H; by apply elem_of_nil in H].
  - rewrite orb_true_iff, IH, has_key_true, elem_of_cons.
    split; (intros [H|H]; [left; congruence | by right]).
Qed.

(** Looking a key up after an insert of a document with that key. *)
Lemma find_app_fresh k docs d :
  k ∉ key <$> docs → key d = k →
  List.find (mgo.has_key key k) (docs ++ [d]) = Some d.
Proof.
  intros Hfresh Hk. induction docs as [|x rest IH]; simpl.
  - by rewrite (proj2 (has_key_true k d)).
  - rewrite fmap_cons, not_elem_of_cons in Hfresh. destruct Hfresh as [Hx Hrest].
    rewrite (proj2 (has_key_false k x)) by done. by apply IH.
Qed.

Lemma find_app_other k docs d :
  key d ≠ k →
  List.find (mgo.has_key key k) (docs ++ [d]) = List.find (mgo.has_key key k) docs.
Proof.
  intros Hk. induction docs as [|x rest IH]; simpl.
  - by rewrite (proj2 (has_key_false k d)).
  - destruct (mgo.has_key key k x); [done | apply IH].
Qed.

(** Looking a key up after the first document with key [k] was replaced. *)
Lemma find_replace_first_same k docs d :
  k ∈ key <$> docs → key d = k →
  List.find (mgo.has_key key k) (mgo.replace_first (mgo.has_key key k) d docs) = Some d.
Proof.
  intros Hin Hk. induction docs as [|x rest IH]; simpl.
  - by apply elem_of_nil in Hin.
  - destruct (mgo.has_key key k x) eqn:E; simpl.
    + by rewrite (proj2 (has_key_true k d)).
    + rewrite E. apply IH. rewrite fmap_cons, elem_of_cons in Hin.
      apply has_key_false in E. destruct Hin as [Hin|Hin]; [congruence | done].
Qed.

Lemma find_replace_first_other k k' docs d :
  key d = k → k' ≠ k →
  List.find (mgo.has_key key k') (mgo.replace_first (mgo.has_key key k) d docs)
  = List.find (mgo.has_key key k') docs.
Proof.
  intros Hk Hne. induction docs as [|x rest IH]; simpl; [done|].
  destruct (mgo.has_key key k x) eqn:E; simpl.
  - apply has_key_true in E.
    rewrite (proj2 (has_key_false k' d)) by congruence.
    rewrite (proj2 (has_key_false k' x)) by congruence. done.
  - destruct (mgo.has_key key k' x); [done | apply IH].
Qed.

Lemma length_replace_first sel d docs :
  length (mgo.replace_first sel d docs) = length docs.
Proof.
  induction docs as [|x rest IH]; simpl; [done|].
  destruct (sel x); simpl; [done | by rewrite IH].
Qed.

Lemma keys_replace_first k docs d :
  key d = k →
  key <$> mgo.replace_first (mgo.has_key key k) d docs = key <$> docs.
Proof.
  intros Hk. induction docs as [|x rest IH]; simpl; [done|].
  destruct (mgo.has_key key k x) eqn:E; simpl.
  - apply has_key_true in E. by rewrite Hk, E.
  - f_equal. exact IH.
Qed.

Lemma keys_remove_first_sublist sel docs :
  sublist (key <$> mgo.remove_first sel docs) (key <$> docs).
Proof.
  induction docs as [|x rest IH]; simpl; [done|].
  destruct (sel x); simpl.
  - by apply sublist_cons.
  - by apply sublist_skip.
Qed.

(** Under the unique index, the key is gone once its document is removed. *)
Lemma find_remove_first_same k docs :
  NoDup (key <$> docs) →
  List.find (mgo.has_key key k) (mgo.remove_first (mgo.has_key key k) docs) = None.
Proof.
  intros Hnd. induction docs as [|x rest IH]; simpl; [done|].
  rewrite fmap_cons in Hnd. apply NoDup_cons in Hnd as [Hx Hrest].
  destruct (mgo.has_key key k x) eqn:E; simpl.
  - apply has_key_true in E. apply find_has_key_None. by rewrite <- E.
  - rewrite E. by apply IH.
Qed.

Lemma find_remove_first_other k k' docs :
  k' ≠ k →
  List.find (mgo.has_key key k') (mgo.remove_first (mgo.has_key key k) docs)
  = List.find (mgo.has_key key k') docs.
Proof.
  intros Hne. induction docs as [|x rest IH]; simpl; [done|].
  destruct (mgo.has_key key k x) eqn:E; simpl.
  - apply has_key_true in E.
    by rewrite (proj2 (has_key_false k' x)) by congruence.
  - destruct (mgo.has_key key k' x); [done | apply IH].
Qed.
End CollectionFacts.

(** ** The clients collection on a healthy engine *)

Local Abbreviation by_id k := ({[ "id" := QEq (VString k) ]} : bsonM).

Lemma toBSON_id d : toBSON d !! "id" = Some (VString (ID d)).
Proof. reflexivity. Qed.

(** The selector [{"id": k}] picks the documents whose ID is [k]. *)
Lemma sel_id k d : collection.sel (by_id k) d = mgo.has_key ID k d.
Proof.
  unfold collection.sel, matches, mgo.has_key.
  apply bool_decide_ext. rewrite map_Forall_singleton, toBSON_id. simpl.
  rewrite bool_decide_eq_true. split; congruence.
Qed.

Lemma healthy_fault w : healthy w → faultAt (env w) (tick w) = None.
Proof. intros H. apply H. Qed.

Lemma Find_One_id w k :
  healthy w →
  collection.Find_One (by_id k) w =
    (match stored k w with
     | Some d => Ok d
     | None => Fail mgo_ErrNotFound
     end, next_tick w).
Proof.
  intros Hh. unfold collection.Find_One, collection.read, bind, roundtrip, ret.
  rewrite (healthy_fault w Hh). unfold mgo.One, stored. simpl.
  by rewrite (find_pointwise _ _ _ (sel_id k)).
Qed.

Lemma Find_All_healthy w q :
  healthy w →
  collection.Find_All q w = (Ok (List.filter (collection.sel q) (clients w)), next_tick w).
Proof.
  intros Hh. unfold collection.Find_All, collection.read, bind, roundtrip, ret.
  by rewrite (healthy_fault w Hh).
Qed.

Lemma Insert_healthy w doc :
  healthy w →
  collection.Insert doc w =
    match stored (ID doc) w with
    | Some _ => (Some (mgo_ErrDup "E11000 duplicate key error"), next_tick w)
    | None => (None, set_clients (clients w ++ [doc]) (next_tick w))
    end.
Proof.
  intros Hh. unfold collection.Insert, collection.write, bind, roundtrip, ret.
  rewrite (healthy_fault w Hh). unfold mgo.Insert, stored. simpl.
  destruct (List.find _ (clients w)) as [d|] eqn:E.
  - apply find_has_key_Some in E as [Hk Hin].
    rewrite (proj2 (existsb_has_key ID (ID doc) (clients w))); [done|].
    rewrite <- Hk. by apply list_elem_of_fmap_2.
  - apply find_has_key_None in E.
    destruct (existsb _ (clients w)) eqn:Ex; [|done].
    by apply existsb_has_key in Ex.
Qed.

Lemma Update_id w k doc :
  healthy w → ID doc = k →
  collection.Update (by_id k) doc w =
    match stored k w with
    | Some _ =>
        (None, set_clients (mgo.replace_first (mgo.has_key ID k) doc (clients w))
                 (next_tick w))
    | None => (Some mgo_ErrNotFound, next_tick w)
    end.
Proof.
  intros Hh Hk. unfold collection.Update, collection.write, bind, roundtrip, ret.
  rewrite (healthy_fault w Hh). unfold mgo.Update, stored. simpl.
  rewrite (find_pointwise _ _ _ (sel_id k)).
  destruct (List.find _ (clients w)) as [old|] eqn:E; [|done].
  apply find_has_key_Some in E as [Hold _].
  rewrite (proj2 (has_key_true ID (ID old) doc)) by congruence. simpl.
  by rewrite (replace_first_pointwise _ _ _ _ (sel_id k)).
Qed.

Lemma Upsert_id w k doc :
  healthy w → ID doc = k →
  collection.Upsert (by_id k) doc w =
    match stored k w with
    | Some _ =>
        (None, set_clients (mgo.replace_first (mgo.has_key ID k) doc (clients w))
                 (next_tick w))
    | None => (None, set_clients (clients w ++ [doc]) (next_tick w))
    end.
Proof.
  intros Hh Hk. unfold collection.Upsert, collection.write, bind, roundtrip, ret.
  rewrite (healthy_fault w Hh). unfold mgo.Upsert, mgo.Update, mgo.Insert, stored. simpl.
  rewrite (find_pointwise _ _ _ (sel_id k)).
  destruct (List.find _ (clients w)) as [old|] eqn:E.
  - apply find_has_key_Some in E as [Hold _].
    rewrite (proj2 (has_key_true ID (ID old) doc)) by congruence. simpl.
    by rewrite (replace_first_pointwise _ _ _ _ (sel_id k)).
  - apply find_has_key_None in E. rewrite Hk.
    destruct (existsb _ (clients w)) eqn:Ex; [|done].
    by apply existsb_has_key in Ex.
Qed.

Lemma Remove_id w k :
  healthy w →
  collection.Remove (by_id k) w =
    match stored k w with
    | Some _ =>
        (None, set_clients (mgo.remove_first (mgo.has_key ID k) (clients w)) (next_tick w))
    | None => (Some mgo_ErrNotFound, next_tick w)
    end.
Proof.
  intros Hh. unfold collection.Remove, collection.write, bind, roundtrip, ret.
  rewrite (healthy_fault w Hh). unfold mgo.Remove, stored. simpl.
  rewrite (find_pointwise _ _ _ (sel_id k)).
  destruct (List.find _ (clients w)) as [old|] eqn:E; [|done].
  by rewrite (remove_first_pointwise _ _ _ (sel_id k)).
Qed.

(** ** The client manager on a healthy engine *)

(** [getConcrete] yields the stored client or NotFound and leaves the
    database as it is. *)
Lemma getConcrete_healthy c k w :
  healthy w →
  let out := clientMongoManager.getConcrete c k w in
  fst out = match stored k w with
            | Some cl => (cl, None)
            | None => (zeroClient, Some fosite_ErrNotFound)
            end
  ∧ clients (snd out) = clients w
  ∧ requests (snd out) = requests w
  ∧ env (snd out) = env w
  ∧ tick (snd out) = S (tick w).
Proof.
  intros Hh. unfold clientMongoManager.getConcrete, bind, emit. simpl.
  rewrite Find_One_id by exact Hh.
  change (stored k (set_logs _ w)) with (stored k w).
  destruct (stored k w); simpl; done.
Qed.

Ltac step_getConcrete Hh :=
  match goal with
  | |- context [clientMongoManager.getConcrete ?c ?k ?w0] =>
      let H := fresh "Hget" in
      pose proof (getConcrete_healthy c k w0 Hh) as H; cbv zeta in H;
      destruct (clientMongoManager.getConcrete c k w0) as [[? ?] ?];
      simpl in H; destruct H as (H & ? & ? & ? & ?)
  end.

Lemma healthy_env w w' : env w' = env w → healthy w → healthy w'.
Proof. unfold healthy. by intros ->. Qed.

Lemma stored_clients w w' k : clients w' = clients w → stored k w' = stored k w.
Proof. unfold stored. by intros ->. Qed.

Lemma Delete_healthy c k w :
  healthy w →
  let out := clientMongoManager.Delete c k w in
  fst out = match stored k w with
            | Some _ => None
            | None => Some fosite_ErrNotFound
            end
  ∧ clients (snd out) = match stored k w with
                        | Some _ => mgo.remove_first (mgo.has_key ID k) (clients w)
                        | None => clients w
                        end
  ∧ env (snd out) = env w.
Proof.
  intros Hh. unfold clientMongoManager.Delete, bind, emit. simpl.
  rewrite Remove_id by exact Hh.
  change (stored k (set_logs _ w)) with (stored k w).
  destruct (stored k w); simpl; done.
Qed.

(** C8.  On a healthy engine with the unique index in place: deleting a
    stored client succeeds, after which [Get] of its ID fails with NotFound
    and a second [Delete] fails with NotFound; deleting an ID that is not
    stored fails with NotFound. *)
Theorem Delete_then_Get_NotFound c k w :
  healthy w → unique_ids w →
  let out := clientMongoManager.Delete c k w in
  match stored k w with
  | Some _ =>
      fst out = None
      ∧ fst (clientMongoManager.Get c k (snd out)) = (zeroClient, Some fosite_ErrNotFound)
      ∧ fst (clientMongoManager.Delete c k (snd out)) = Some fosite_ErrNotFound
  | None => fst out = Some fosite_ErrNotFound
  end.
Proof.
  intros Hh Hu out.
  destruct (Delete_healthy c k w Hh) as (Hres & Hcl & Henv). fold out in Hres, Hcl, Henv.
  destruct (stored k w) as [cl|] eqn:Hst; [|exact Hres].
  assert (Hh' : healthy (snd out)) by (by apply (healthy_env w)).
  assert (Hgone : stored k (snd out) = None).
  { unfold stored. rewrite Hcl. by apply find_remove_first_same. }
  split; [exact Hres|]. split.
  - unfold clientMongoManager.Get.
    destruct (getConcrete_healthy c k (snd out) Hh') as (Hget & _).
    by rewrite Hget, Hgone.
  - destruct (Delete_healthy c k (snd out) Hh') as (Hres' & _).
    by rewrite Hres', Hgone.
Qed.

(** C2, as the code has it.  On a healthy engine a stored client whose
    disabled flag is set is refused with AccessDenied whatever the secret,
    unless its public flag is set as well: a public client is let in before
    the disabled flag is looked at.  The database is left as it is. *)
Theorem Authenticate_disabled c k secret w cl :
  healthy w → stored k w = Some cl → Disabled cl = true →
  let out := clientMongoManager.Authenticate c k secret w in
  fst out = (if Public cl then (cl, None) else (zeroClient, Some fosite_ErrAccessDenied))
  ∧ clients (snd out) = clients w.
Proof.
  intros Hh Hst Hdis. unfold clientMongoManager.Authenticate, bind, emit. simpl.
  step_getConcrete Hh.
  change (stored k (set_logs _ w)) with (stored k w) in Hget.
  rewrite Hst in Hget. injection Hget as -> ->.
  destruct (Public cl); simpl; [done|].
  rewrite Hdis. simpl. done.
Qed.

Lemma stored_elem k w cl : stored k w = Some cl → ID cl = k ∧ k ∈ ID <$> clients w.
Proof.
  intros H. apply find_has_key_Some in H as [Hk Hin]. split; [done|].
  rewrite <- Hk. by apply list_elem_of_fmap_2.
Qed.

(** The stored clients after the document with ID [k] was replaced. *)
Lemma stored_replaced k doc w w' cur :
  stored k w = Some cur → ID doc = k →
  clients w' = mgo.replace_first (mgo.has_key ID k) doc (clients w) →
  stored k w' = Some doc ∧ ∀ k', k' ≠ k → stored k' w' = stored k' w.
Proof.
  intros Hst Hk Hcl. unfold stored. rewrite Hcl. split.
  - apply find_replace_first_same; [|done]. by apply stored_elem in Hst as [_ ?].
  - intros k' Hne. by apply find_replace_first_other.
Qed.

(** The stored clients after a document with a fresh ID was appended. *)
Lemma stored_appended doc w w' :
  stored (ID doc) w = None →
  clients w' = (clients w ++ [doc])%list →
  stored (ID doc) w' = Some doc ∧ ∀ k', k' ≠ ID doc → stored k' w' = stored k' w.
Proof.
  intros Hst Hcl. unfold stored. rewrite Hcl. split.
  - apply find_app_fresh; [|done]. by apply find_has_key_None.
  - intros k' Hne. apply find_app_other. congruence.
Qed.

(** [Update] on a healthy engine: the outcome, the record stored under the
    ID afterwards, and the other records. *)
Lemma Update_healthy c k u w :
  healthy w →
  let out := clientMongoManager.Update c k u w in
  env (snd out) = env w
  ∧ match stored k w with
    | None =>
        fst out = (zeroClient, Some fosite_ErrNotFound) ∧ clients (snd out) = clients w
    | Some cur =>
        let stamped := with_UpdateTime (clockAt (env w) (S (tick w))) (with_ID k u) in
        let stores r :=
          fst out = (r, None) ∧ stored k (snd out) = Some r
          ∧ ∀ k', k' ≠ k → stored k' (snd out) = stored k' w in
        if bool_decide (Secret cur = Secret u) || bool_decide (Secret u = "") then
          stores (with_Secret (Secret cur) stamped)
        else
          match Hash (clientMongoManager.hasher c)
                  (entropyAt (env w) (S (S (tick w)))) (Secret u) with
          | Fail e => fst out = (zeroClient, Some e) ∧ clients (snd out) = clients w
          | Ok h => stores (with_Secret h stamped)
          end
    end.
Proof.
  intros Hh. unfold clientMongoManager.Update, bind.
  step_getConcrete Hh.
  destruct (stored k w) as [cur|] eqn:Hst; injection Hget as -> ->.
  2:{ simpl. done. }
  simpl. rewrite H1, H2.
  destruct (bool_decide (Secret cur = Secret u) || bool_decide (Secret u = "")) eqn:Hkeep.
  - simpl. rewrite Update_id; [|by apply (healthy_env w)|done].
    change (stored k (set_logs _ (next_tick w0))) with (stored k w0).
    rewrite (stored_clients w w0 k H), Hst. simpl. split; [done|]. split; [done|].
    eapply stored_replaced; [exact Hst|done|]. simpl. by rewrite H.
  - unfold hasher_Hash. simpl. rewrite H1, H2.
    destruct (Hash _ _ (Secret u)) as [h|e] eqn:Hhash; simpl; [|done].
    rewrite Update_id; [|by apply (healthy_env w)|done].
    change (stored k (set_logs _ (next_tick (next_tick w0)))) with (stored k w0).
    rewrite (stored_clients w w0 k H), Hst. simpl. split; [done|]. split; [done|].
    eapply stored_replaced; [exact Hst|done|]. simpl. by rewrite H.
Qed.

(** C4.  On a healthy engine [Update] fails with NotFound when no client
    with the ID is stored.  Otherwise the record it stores and returns is
    the incoming one with its ID set to [clientID] and its update-time set
    to the clock's reading, and with this secret: the stored hash, when the
    incoming secret is blank or is that hash; else a fresh digest of the
    incoming secret, which verifies against it and against no other secret
    (in particular not against a different old one).  When the hasher
    fails, [Update] fails with its error and stores nothing. *)
Theorem Update_spec c `{!HasherLaws (clientMongoManager.hasher c)} k u w :
  healthy w →
  let out := clientMongoManager.Update c k u w in
  match stored k w with
  | None =>
      fst out = (zeroClient, Some fosite_ErrNotFound) ∧ clients (snd out) = clients w
  | Some cur =>
      let stamped := with_UpdateTime (clockAt (env w) (S (tick w))) (with_ID k u) in
      if bool_decide (Secret cur = Secret u) || bool_decide (Secret u = "") then
        let r := with_Secret (Secret cur) stamped in
        fst out = (r, None) ∧ stored k (snd out) = Some r
        ∧ ID r = k ∧ Secret r = Secret cur
      else
        match Hash (clientMongoManager.hasher c)
                (entropyAt (env w) (S (S (tick w)))) (Secret u) with
        | Fail e => fst out = (zeroClient, Some e) ∧ clients (snd out) = clients w
        | Ok h =>
            let r := with_Secret h stamped in
            fst out = (r, None) ∧ stored k (snd out) = Some r
            ∧ ID r = k
            ∧ Compare (clientMongoManager.hasher c) (Secret r) (Secret u) = None
            ∧ ∀ old, old ≠ Secret u →
                Compare (clientMongoManager.hasher c) (Secret r) old ≠ None
        end
  end.
Proof.
  intros Hh out. destruct (Update_healthy c k u w Hh) as [_ Hup]. fold out in Hup.
  destruct (stored k w) as [cur|]; [|exact Hup]. cbv zeta in Hup |- *.
  destruct (bool_decide (Secret cur = Secret u) || bool_decide (Secret u = "")).
  - destruct Hup as (Hres & Hst & _). done.
  - destruct (Hash _ _ (Secret u)) as [h|e] eqn:Hhash; [|exact Hup].
    destruct Hup as (Hres & Hst & _). repeat (split; [done|]). simpl. split.
    + by eapply Compare_Hash.
    + intros old Hne Hcmp. apply Hne. by eapply Compare_sound.
Qed.

Lemma with_ID_self c : with_ID (ID c) c = c.
Proof. by destruct c. Qed.

Lemma with_CreateTime_self c : with_CreateTime (CreateTime c) c = c.
Proof. by destruct c. Qed.

(** [Create] on a healthy engine. *)
Lemma Create_healthy c C w :
  healthy w →
  let out := clientMongoManager.Create c C w in
  let noID := bool_decide (ID C = "") in
  let noTime := bool_decide (CreateTime C = 0) in
  let id := if noID then uuidAt (env w) (tick w) else ID C in
  let t1 := if noID then S (tick w) else tick w in
  let created := if noTime then clockAt (env w) t1 else CreateTime C in
  let t2 := if noTime then S t1 else t1 in
  env (snd out) = env w
  ∧ match Hash (clientMongoManager.hasher c) (entropyAt (env w) t2) (Secret C) with
    | Fail e => fst out = (zeroClient, Some e) ∧ clients (snd out) = clients w
    | Ok h =>
        let r := with_Secret h (with_CreateTime created (with_ID id C)) in
        match stored id w with
        | Some _ =>
            fst out = (zeroClient, Some storage_ErrResourceExists)
            ∧ clients (snd out) = clients w
        | None => fst out = (r, None) ∧ clients (snd out) = (clients w ++ [r])%list
        end
    end.
Proof.
  intros Hh. unfold clientMongoManager.Create, bind, ret, uuid_New, time_Now, hasher_Hash.
  destruct (bool_decide (ID C = "")) eqn:EID;
    destruct (bool_decide (CreateTime C = 0)) eqn:ECT; simpl; rewrite ?ECT; simpl.
  all: rewrite ?with_ID_self, ?with_CreateTime_self.
  all: match goal with |- context [Hash ?h ?s ?x] => destruct (Hash h s x) as [hash|e] end;
    simpl; [|done].
  all: rewrite Insert_healthy by exact Hh; simpl.
  all: unfold stored; simpl; destruct (List.find _ (clients w)); simpl; done.
Qed.

(** C3.  On a healthy engine, when [Create] stores a client and returns the
    record [r], [Get] of [r]'s ID returns [r], field for field.  The secret
    of [r] is a digest of the plaintext supplied, which verifies against the
    plaintext and is not the plaintext; every other field is the one
    supplied, the ID and the create-time being filled in when left empty. *)
Theorem Create_then_Get c `{!HasherLaws (clientMongoManager.hasher c)} C w r w1 :
  healthy w →
  clientMongoManager.Create c C w = ((r, None), w1) →
  fst (clientMongoManager.Get c (ID r) w1) = (r, None)
  ∧ Secret r ≠ Secret C
  ∧ Compare (clientMongoManager.hasher c) (Secret r) (Secret C) = None
  ∧ with_Secret (Secret C) r = with_CreateTime (CreateTime r) (with_ID (ID r) C)
  ∧ (ID C ≠ "" → ID r = ID C)
  ∧ (CreateTime C ≠ 0 → CreateTime r = CreateTime C).
Proof.
  intros Hh Hcreate.
  destruct (Create_healthy c C w Hh) as [Henv Hout]. cbv zeta in Hout.
  rewrite Hcreate in Henv, Hout. simpl in Henv, Hout.
  destruct (Hash _ _ (Secret C)) as [h|e] eqn:Hhash; [|by destruct Hout].
  set (id := if bool_decide (ID C = "") then _ else _) in Hout.
  set (created := if bool_decide (CreateTime C = 0) then _ else _) in Hout.
  destruct (stored id w) eqn:Hst; [by destruct Hout|].
  destruct Hout as [Hr Hcl]. injection Hr as ->.
  set (r := with_Secret h _) in *.
  assert (Hnew : stored id w1 = Some r) by apply (stored_appended r w w1 Hst Hcl).
  split.
  { unfold clientMongoManager.Get.
    destruct (getConcrete_healthy c id w1 (healthy_env w w1 Henv Hh)) as (Hget & _).
    change (ID r) with id. by rewrite Hget, Hnew. }
  simpl. split; [by eapply Hash_not_plain|]. split; [by eapply Compare_Hash|].
  split; [by destruct C|]. subst id created. split.
  - intros Hne. by rewrite bool_decide_eq_false_2.
  - intros Hne. by rewrite bool_decide_eq_false_2.
Qed.

(** C5, as the code has it.  On a healthy engine [Migrate] is an upsert
    keyed by the client ID (a generated one when the incoming ID is empty):
    it returns and stores the incoming record under that ID, inserting it
    when no record has the ID and replacing the whole record when one has,
    and leaves every other record alone.  Which timestamp it sets depends on
    the incoming record only: with a zero create-time it sets the
    create-time to the clock's reading and leaves the update-time as
    supplied; otherwise it keeps the create-time and sets the update-time. *)
Theorem Migrate_spec c m w :
  healthy w →
  let out := clientMongoManager.Migrate c m w in
  let noID := bool_decide (ID m = "") in
  let id := if noID then uuidAt (env w) (tick w) else ID m in
  let now := clockAt (env w) (if noID then S (tick w) else tick w) in
  let r := if bool_decide (CreateTime m = 0)
           then with_CreateTime now (with_ID id m)
           else with_UpdateTime now (with_ID id m) in
  fst out = (r, None)
  ∧ stored id (snd out) = Some r
  ∧ (∀ k, k ≠ id → stored k (snd out) = stored k w)
  ∧ length (clients (snd out)) =
      match stored id w with
      | Some _ => length (clients w)
      | None => S (length (clients w))
      end.
Proof.
  intros Hh. unfold clientMongoManager.Migrate, bind, ret, uuid_New, time_Now.
  destruct (bool_decide (ID m = "")) eqn:EID;
    destruct (bool_decide (CreateTime m = 0)) eqn:ECT; simpl; rewrite ?ECT; simpl.
  all: rewrite ?with_ID_self.
  all: rewrite Upsert_id by (exact Hh || reflexivity); unfold stored; simpl.
  all: destruct (List.find _ (clients w)) eqn:Hst; simpl.
  all: split; [done|].
  all: try (match goal with
       | |- context [mgo.replace_first _ ?doc (clients ?w0)] =>
           destruct (stored_replaced _ doc w0
                       (set_clients (mgo.replace_first (mgo.has_key ID (ID doc)) doc (clients w0)) w0)
                       _ Hst eq_refl eq_refl) as [H1 H2]
       end; split; [exact H1|]; split; [exact H2|]; by rewrite length_replace_first).
  all: match goal with
       | |- context [(clients ?w0 ++ [?doc])%list] =>
           destruct (stored_appended doc w0 (set_clients (clients w0 ++ [doc]) w0)
                       Hst eq_refl) as [H1 H2]
       end; split; [exact H1|]; split; [exact H2|].
  all: rewrite length_app; simpl; lia.
Qed.

(** [AuthenticateMigration] on a healthy engine, path by path.  It runs the
    legacy function once, on entry, and decides on what it reported: (1) an
    empty record that did not authenticate is NotFound; (2) else a public
    record is returned with no error; (3) else a disabled record is
    AccessDenied; (4) else, when the legacy function did not authenticate,
    the outcome is that of comparing the presented secret with the record's
    stored hash; (5) else it hashes the presented secret, failing with the
    hasher's error if that fails, and passes the legacy function's record
    with that digest as its secret to [Update] under [clientID]: NotFound
    when no client with that ID is stored; otherwise the stored record is
    replaced by the legacy function's record with its ID set to [clientID],
    its update-time set to the clock's reading and, as its secret, the
    stored secret when the digest is blank or equal to it, and else a
    digest of the digest (or the hasher's error, with nothing stored); the
    record stored is the record returned.  Steps (1) to (4) leave the
    clients as the legacy function left them. *)
Theorem AuthenticateMigration_healthy c currentAuth k secret w client authenticated w1 :
  currentAuth
    (snd (emit (SpanStart clientMongoManager.manager "AuthenticateMigration" None) w))
    = ((client, authenticated), w1) →
  healthy w1 →
  let out := clientMongoManager.AuthenticateMigration c currentAuth k secret w in
  let h := clientMongoManager.hasher c in
  if IsEmpty client && negb authenticated then
    fst out = (zeroClient, Some fosite_ErrNotFound) ∧ clients (snd out) = clients w1
  else if Public client then
    fst out = (client, None) ∧ clients (snd out) = clients w1
  else if Disabled client then
    fst out = (zeroClient, Some fosite_ErrAccessDenied) ∧ clients (snd out) = clients w1
  else if negb authenticated then
    fst out = match Compare h (Secret client) secret with
              | Some e => (zeroClient, Some e)
              | None => (client, None)
              end
    ∧ clients (snd out) = clients w1
  else
    match Hash h (entropyAt (env w1) (tick w1)) secret with
    | Fail e => fst out = (zeroClient, Some e) ∧ clients (snd out) = clients w1
    | Ok newHash =>
        match stored k w1 with
        | None =>
            fst out = (zeroClient, Some fosite_ErrNotFound)
            ∧ clients (snd out) = clients w1
        | Some cur =>
            let stamped :=
              with_UpdateTime (clockAt (env w1) (S (S (tick w1)))) (with_ID k client) in
            let stores r :=
              fst out = (r, None) ∧ stored k (snd out) = Some r
              ∧ ∀ k', k' ≠ k → stored k' (snd out) = stored k' w1 in
            if bool_decide (Secret cur = newHash) || bool_decide (newHash = "") then
              stores (with_Secret (Secret cur) stamped)
            else
              match Hash h (entropyAt (env w1) (S (S (S (tick w1))))) newHash with
              | Fail e => fst out = (zeroClient, Some e) ∧ clients (snd out) = clients w1
              | Ok h2 => stores (with_Secret h2 stamped)
              end
        end
    end.
Proof.
  intros Hauth Hh. unfold clientMongoManager.AuthenticateMigration, bind.
  simpl in Hauth |- *. rewrite Hauth.
  destruct (IsEmpty client && negb authenticated); [done|].
  destruct (Public client); [done|].
  destruct (Disabled client); [done|].
  destruct (negb authenticated).
  { unfold GetHashedSecret. destruct (Compare _ _ _); done. }
  unfold hasher_Hash. simpl.
  destruct (Hash _ _ secret) as [newHash|e]; [|done].
  destruct (Update_healthy c k (with_Secret newHash client) (next_tick w1) Hh)
    as [_ Hup].
  change (stored k (next_tick w1)) with (stored k w1) in Hup.
  destruct (stored k w1) as [cur|]; [|exact Hup].
  cbv zeta in Hup. simpl in Hup. cbv zeta.
  destruct (bool_decide (Secret cur = newHash) || bool_decide (newHash = ""));
    [exact Hup|].
  destruct (Hash _ _ newHash) as [h2|e]; exact Hup.
Qed.

Lemma lookup_put b k v m k' :
  put b k v m !! k' = if b && bool_decide (k = k') then Some v else m !! k'.
Proof.
  unfold put. destruct b; simpl; [|done].
  rewrite lookup_insert. by destruct (decide (k = k')); 
   [rewrite bool_decide_eq_true_2|rewrite bool_decide_eq_false_2].
Qed.

Lemma List_query_put f :
  clientMongoManager.List_query f =
  put (f_Disabled f) "disabled" (QEq (VBool (f_Disabled f)))
  (put (f_Public f) "public" (QEq (VBool (f_Public f)))
  (put (bool_decide (f_Contact f ≠ "")) "contacts" (QEq (VString (f_Contact f)))
  (put (bool_decide (0 < length (f_ScopesUnion f))%nat) "scopes" (QIn (f_ScopesUnion f))
  (put (bool_decide (0 < length (f_ScopesIntersection f))%nat) "scopes" (QAll (f_ScopesIntersection f))
  (put (bool_decide (f_ResponseType f ≠ "")) "responseTypes" (QEq (VString (f_ResponseType f)))
  (put (bool_decide (f_GrantType f ≠ "")) "grantTypes" (QEq (VString (f_GrantType f)))
  (put (bool_decide (f_RedirectURI f ≠ "")) "redirectUris" (QEq (VString (f_RedirectURI f)))
  (put (bool_decide (f_AllowedTenantAccess f ≠ "")) "allowedTenantAccess" (QEq (VString (f_AllowedTenantAccess f)))
  ∅)))))))).
Proof. reflexivity. Qed.

Ltac key_case k v :=
  destruct (decide (k = v)) as [->|?];
  [ rewrite (bool_decide_eq_true_2 (v = v)) by done
  | rewrite (bool_decide_eq_false_2 (k = v)) by done ].

Ltac key_case_in H k v :=
  destruct (decide (k = v)) as [->|?];
  [ rewrite (bool_decide_eq_true_2 (v = v)) in H by done; simpl in H
  | rewrite (bool_decide_eq_false_2 (k = v)) in H by done ].

Lemma List_query_lookup f k :
  clientMongoManager.List_query f !! k =
    if bool_decide (k = "allowedTenantAccess") then
      if bool_decide (f_AllowedTenantAccess f ≠ "")
      then Some (QEq (VString (f_AllowedTenantAccess f))) else None
    else if bool_decide (k = "redirectUris") then
      if bool_decide (f_RedirectURI f ≠ "")
      then Some (QEq (VString (f_RedirectURI f))) else None
    else if bool_decide (k = "grantTypes") then
      if bool_decide (f_GrantType f ≠ "")
      then Some (QEq (VString (f_GrantType f))) else None
    else if bool_decide (k = "responseTypes") then
      if bool_decide (f_ResponseType f ≠ "")
      then Some (QEq (VString (f_ResponseType f))) else None
    else if bool_decide (k = "scopes") then
      if bool_decide (0 < length (f_ScopesUnion f))%nat
      then Some (QIn (f_ScopesUnion f))
      else if bool_decide (0 < length (f_ScopesIntersection f))%nat
      then Some (QAll (f_ScopesIntersection f))
      else None
    else if bool_decide (k = "contacts") then
      if bool_decide (f_Contact f ≠ "")
      then Some (QEq (VString (f_Contact f))) else None
    else if bool_decide (k = "public") then
      if f_Public f then Some (QEq (VBool true)) else None
    else if bool_decide (k = "disabled") then
      if f_Disabled f then Some (QEq (VBool true)) else None
    else None.
Proof.
  rewrite List_query_put, !lookup_put, lookup_empty.
  key_case k "allowedTenantAccess";
    [simpl; rewrite ?andb_false_r, ?andb_true_r; by destruct (f_Disabled f), (f_Public f)|].
  key_case k "redirectUris";
    [simpl; rewrite ?andb_false_r, ?andb_true_r; by destruct (f_Disabled f), (f_Public f)|].
  key_case k "grantTypes";
    [simpl; rewrite ?andb_false_r, ?andb_true_r; by destruct (f_Disabled f), (f_Public f)|].
  key_case k "responseTypes";
    [simpl; rewrite ?andb_false_r, ?andb_true_r; by destruct (f_Disabled f), (f_Public f)|].
  key_case k "scopes";
    [simpl; rewrite ?andb_false_r, ?andb_true_r; by destruct (f_Disabled f), (f_Public f)|].
  key_case k "contacts";
    [simpl; rewrite ?andb_false_r, ?andb_true_r; by destruct (f_Disabled f), (f_Public f)|].
  key_case k "public";
    [simpl; rewrite ?andb_false_r, ?andb_true_r; by destruct (f_Disabled f), (f_Public f)|].
  key_case k "disabled";
    [simpl; rewrite ?andb_false_r, ?andb_true_r; by destruct (f_Disabled f), (f_Public f)|].
  rewrite !(bool_decide_eq_false_2 (_ = k)) by congruence.
  by rewrite ?andb_false_r.
Qed.

Ltac by_guard Hk Hn :=
  revert Hk Hn;
  match goal with |- (if ?b then _ else _) = _ → _ => destruct b end;
  intros Hk Hn; [injection Hk as <-; by apply Hn | discriminate].

Lemma existsb_elem_swap (l l' : list string) :
  existsb (λ x, bool_decide (x ∈ l)) l' = existsb (λ s, bool_decide (s ∈ l')) l.
Proof.
  apply eq_true_iff_eq. rewrite !existsb_exists. split.
  - intros (x & Hin & Hx). apply bool_decide_eq_true in Hx. exists x. split.
    + by apply list_elem_of_In.
    + apply bool_decide_eq_true. by apply list_elem_of_In.
  - intros (x & Hin & Hx). apply bool_decide_eq_true in Hx. exists x. split.
    + by apply list_elem_of_In.
    + apply bool_decide_eq_true. by apply list_elem_of_In.
Qed.

Lemma guard_string (t : string) (b : bool) :
  (bool_decide (t ≠ "") = true → b = true) ↔ bool_decide (t = "") || b = true.
Proof.
  destruct (decide (t = "")) as [->|Hne].
  - rewrite (bool_decide_eq_true_2 ("" = "")) by done.
    rewrite (bool_decide_eq_false_2 ("" ≠ "")) by (intros H; by apply H). simpl.
    split; [done | discriminate].
  - rewrite (bool_decide_eq_false_2 (t = "")) by done.
    rewrite (bool_decide_eq_true_2 (t ≠ "")) by done. simpl.
    split; [intros H; by apply H | done].
Qed.

(** What the query [List] builds asks of a stored client. *)
Lemma List_query_Forall f (P : string → Cond → Prop) :
  map_Forall P (clientMongoManager.List_query f) ↔
    (bool_decide (f_AllowedTenantAccess f ≠ "") = true →
       P "allowedTenantAccess" (QEq (VString (f_AllowedTenantAccess f))))
    ∧ (bool_decide (f_RedirectURI f ≠ "") = true →
         P "redirectUris" (QEq (VString (f_RedirectURI f))))
    ∧ (bool_decide (f_GrantType f ≠ "") = true →
         P "grantTypes" (QEq (VString (f_GrantType f))))
    ∧ (bool_decide (f_ResponseType f ≠ "") = true →
         P "responseTypes" (QEq (VString (f_ResponseType f))))
    ∧ match f_ScopesUnion f, f_ScopesIntersection f with
      | _ :: _, _ => P "scopes" (QIn (f_ScopesUnion f))
      | [], _ :: _ => P "scopes" (QAll (f_ScopesIntersection f))
      | [], [] => True
      end
    ∧ (bool_decide (f_Contact f ≠ "") = true →
         P "contacts" (QEq (VString (f_Contact f))))
    ∧ (f_Public f = true → P "public" (QEq (VBool true)))
    ∧ (f_Disabled f = true → P "disabled" (QEq (VBool true))).
Proof.
  unfold map_Forall. split.
  - intros HF. repeat split.
    + intros Hb. apply HF. rewrite List_query_lookup. simpl. by rewrite Hb.
    + intros Hb. apply HF. rewrite List_query_lookup. simpl. by rewrite Hb.
    + intros Hb. apply HF. rewrite List_query_lookup. simpl. by rewrite Hb.
    + intros Hb. apply HF. rewrite List_query_lookup. simpl. by rewrite Hb.
    + destruct (f_ScopesUnion f) as [|u us] eqn:EU.
      * destruct (f_ScopesIntersection f) as [|i0 is0] eqn:EI; [done|].
        apply HF. rewrite List_query_lookup, EU, EI. simpl. done.
      * apply HF. rewrite List_query_lookup, EU. simpl. done.
    + intros Hb. apply HF. rewrite List_query_lookup. simpl. by rewrite Hb.
    + intros Hb. apply HF. rewrite List_query_lookup. simpl. by rewrite Hb.
    + intros Hb. apply HF. rewrite List_query_lookup. simpl. by rewrite Hb.
  - intros (H1 & H2 & H3 & H4 & H5 & H6 & H7 & H8) k c Hk.
    rewrite List_query_lookup in Hk.
    key_case_in Hk k "allowedTenantAccess".
    { by_guard Hk H1. }
    key_case_in Hk k "redirectUris".
    { by_guard Hk H2. }
    key_case_in Hk k "grantTypes".
    { by_guard Hk H3. }
    key_case_in Hk k "responseTypes".
    { by_guard Hk H4. }
    key_case_in Hk k "scopes".
    { destruct (f_ScopesUnion f) as [|u us]; simpl in Hk.
      - destruct (f_ScopesIntersection f) as [|i0 is0]; simpl in Hk; [discriminate|].
        by injection Hk as <-.
      - by injection Hk as <-. }
    key_case_in Hk k "contacts".
    { by_guard Hk H6. }
    key_case_in Hk k "public".
    { destruct (f_Public f); [injection Hk as <-; by apply H7 | discriminate]. }
    key_case_in Hk k "disabled".
    { destruct (f_Disabled f); [injection Hk as <-; by apply H8 | discriminate]. }
    discriminate.
Qed.

Lemma sel_List_query f cl :
  collection.sel (clientMongoManager.List_query f) cl = spec_matches f cl.
Proof.
  apply eq_true_iff_eq. unfold collection.sel, matches.
  rewrite bool_decide_eq_true, List_query_Forall.
  unfold spec_matches. rewrite !andb_true_iff, <- !guard_string.
  change (toBSON cl !! "allowedTenantAccess") with (Some (VArray (AllowedTenantAccess cl))).
  change (toBSON cl !! "redirectUris") with (Some (VArray (RedirectURIs cl))).
  change (toBSON cl !! "grantTypes") with (Some (VArray (GrantTypes cl))).
  change (toBSON cl !! "responseTypes") with (Some (VArray (ResponseTypes cl))).
  change (toBSON cl !! "scopes") with (Some (VArray (Scopes cl))).
  change (toBSON cl !! "contacts") with (Some (VArray (Contacts cl))).
  change (toBSON cl !! "public") with (Some (VBool (Public cl))).
  change (toBSON cl !! "disabled") with (Some (VBool (Disabled cl))).
  simpl sat. rewrite existsb_elem_swap.
  assert (Hflag : ∀ x b : bool,
             (x = true → bool_decide (VBool true = VBool b) = true)
             ↔ negb x || b = true).
  { intros [] []; simpl; split; intros H; try done.
    specialize (H eq_refl). vm_compute in H. done. }
  rewrite !Hflag.
  destruct (f_ScopesUnion f) as [|u us];
    [destruct (f_ScopesIntersection f) as [|i0 is0]|]; intuition auto.
Qed.

Lemma List_healthy c f w :
  healthy w →
  fst (clientMongoManager.List c f w)
  = (List.filter (spec_matches f) (clients w), None).
Proof.
  intros Hh. unfold clientMongoManager.List, bind, emit. simpl.
  rewrite Find_All_healthy by exact Hh. simpl.
  by rewrite (filter_pointwise _ _ _ (sel_List_query f)).
Qed.

(** C7.  The query [List] builds holds a condition for exactly the filter
    fields that are non-empty or true: equality for the tenant, redirect
    URI, grant type, response type, contact and the two flags, and under the
    one key for scopes either "all of the intersection" or, whenever the
    union is non-empty, "any of the union", which takes the place of the
    intersection's condition.  On a healthy engine [List] returns the stored
    clients that satisfy all of these conditions, in stored order. *)
Theorem List_spec c f w :
  healthy w →
  (∀ k, clientMongoManager.List_query f !! k =
     if bool_decide (k = "allowedTenantAccess") then
       if bool_decide (f_AllowedTenantAccess f ≠ "")
       then Some (QEq (VString (f_AllowedTenantAccess f))) else None
     else if bool_decide (k = "redirectUris") then
       if bool_decide (f_RedirectURI f ≠ "")
       then Some (QEq (VString (f_RedirectURI f))) else None
     else if bool_decide (k = "grantTypes") then
       if bool_decide (f_GrantType f ≠ "")
       then Some (QEq (VString (f_GrantType f))) else None
     else if bool_decide (k = "responseTypes") then
       if bool_decide (f_ResponseType f ≠ "")
       then Some (QEq (VString (f_ResponseType f))) else None
     else if bool_decide (k = "scopes") then
       if bool_decide (0 < length (f_ScopesUnion f))%nat
       then Some (QIn (f_ScopesUnion f))
       else if bool_decide (0 < length (f_ScopesIntersection f))%nat
       then Some (QAll (f_ScopesIntersection f))
       else None
     else if bool_decide (k = "contacts") then
       if bool_decide (f_Contact f ≠ "")
       then Some (QEq (VString (f_Contact f))) else None
     else if bool_decide (k = "public") then
       if f_Public f then Some (QEq (VBool true)) else None
     else if bool_decide (k = "disabled") then
       if f_Disabled f then Some (QEq (VBool true)) else None
     else None)
  ∧ (∀ cl, collection.sel (clientMongoManager.List_query f) cl = spec_matches f cl)
  ∧ fst (clientMongoManager.List c f w)
    = (List.filter (spec_matches f) (clients w), None).
Proof.
  intros Hh. split; [apply List_query_lookup|].
  split; [apply sel_List_query|]. by apply List_healthy.
Qed.

(** ** The session-request manager on a healthy engine *)

Lemma request_Create_healthy r entityName request w :
  healthy w →
  let out := requestMongoManager.Create r entityName request w in
  clients (snd out) = clients w
  ∧ match stored_request entityName (r_Signature request) w with
    | Some _ =>
        fst out = (requestMongoManager.zeroRequest, Some storage_ErrResourceExists)
        ∧ requests (snd out) = requests w
    | None =>
        fst out = (request, None)
        ∧ stored_request entityName (r_Signature request) (snd out) = Some request
    end.
Proof.
  intros Hh. unfold requestMongoManager.Create, bind, emit, roundtrip. simpl.
  rewrite (healthy_fault w Hh). unfold mgo.Insert, stored_request.
  unfold requestMongoManager.has_signature. simpl.
  destruct (List.find _ (requests w entityName)) as [old|] eqn:E.
  - apply find_has_key_Some in E as [Hk Hin].
    rewrite (proj2 (existsb_has_key r_Signature (r_Signature request) _)); [done|].
    rewrite <- Hk. by apply list_elem_of_fmap_2.
  - apply find_has_key_None in E.
    destruct (existsb _ (requests w entityName)) eqn:Ex.
    { by apply existsb_has_key in Ex. }
    simpl. split; [done|]. split; [done|].
    rewrite bool_decide_eq_true_2 by done. by apply find_app_fresh.
Qed.

(** C9.  On a healthy engine, creating a PKCE session or an OpenID Connect
    session under a signature that already has a record in that collection
    fails with Conflict ([storage.ErrResourceExists]) and leaves every
    stored record as it is; otherwise it succeeds and the record made from
    the request is the one stored under the signature. *)
Theorem Create_session_conflict r signature request w :
  healthy w →
  let pkce := requestMongoManager.CreatePKCERequestSession r signature request w in
  let oidc := requestMongoManager.CreateOpenIDConnectSession r signature request w in
  match stored_request EntityPKCESessions signature w with
  | Some _ =>
      fst pkce = Some storage_ErrResourceExists ∧ requests (snd pkce) = requests w
  | None =>
      fst pkce = None
      ∧ stored_request EntityPKCESessions signature (snd pkce)
        = Some (requestMongoManager.toMongo signature request)
  end
  ∧ match stored_request EntityOpenIDSessions signature w with
    | Some _ =>
        fst oidc = Some storage_ErrResourceExists ∧ requests (snd oidc) = requests w
    | None =>
        fst oidc = None
        ∧ stored_request EntityOpenIDSessions signature (snd oidc)
          = Some (requestMongoManager.toMongo signature request)
    end.
Proof.
  intros Hh. split.
  - unfold requestMongoManager.CreatePKCERequestSession, bind, emit. simpl.
    match goal with
    | |- context [requestMongoManager.Create ?r ?e ?q ?w0] =>
        destruct (request_Create_healthy r e q w0 Hh) as [_ Hc];
        destruct (requestMongoManager.Create r e q w0) as [[res err] w1]
    end.
    simpl in Hc.
    change (stored_request EntityPKCESessions signature (set_logs _ w))
      with (stored_request EntityPKCESessions signature w) in Hc.
    destruct (stored_request EntityPKCESessions signature w).
    + destruct Hc as [Hres Hreq]. injection Hres as -> ->. simpl. done.
    + destruct Hc as [Hres Hreq]. injection Hres as -> ->. simpl. done.
  - unfold requestMongoManager.CreateOpenIDConnectSession, bind, emit. simpl.
    match goal with
    | |- context [requestMongoManager.Create ?r ?e ?q ?w0] =>
        destruct (request_Create_healthy r e q w0 Hh) as [_ Hc];
        destruct (requestMongoManager.Create r e q w0) as [[res err] w1]
    end.
    simpl in Hc.
    change (stored_request EntityOpenIDSessions signature (set_logs _ w))
      with (stored_request EntityOpenIDSessions signature w) in Hc.
    destruct (stored_request EntityOpenIDSessions signature w).
    + destruct Hc as [Hres Hreq]. injection Hres as -> ->. simpl. done.
    + destruct Hc as [Hres Hreq]. injection Hres as -> ->. simpl. done.
Qed.

(** C10.  On a healthy engine, [GetOpenIDConnectSession] for a requester
    whose session is nil fails with NotFound, whether or not a record is
    stored for the authorization code, and leaves the stored records and
    clients as they are. *)
Theorem GetOpenIDConnectSession_nil_session r authorizeCode requester w :
  healthy w → GetSession requester = None →
  let out := requestMongoManager.GetOpenIDConnectSession r authorizeCode requester w in
  fst out = (None, Some fosite_ErrNotFound)
  ∧ requests (snd out) = requests w
  ∧ clients (snd out) = clients w.
Proof.
  intros Hh Hnil.
  unfold requestMongoManager.GetOpenIDConnectSession, requestMongoManager.GetBySignature,
    bind, emit, roundtrip, ret.
  simpl. rewrite (healthy_fault w Hh), Hnil. unfold mgo.One.
  destruct (List.find _ _); simpl; done.
Qed.

Lemma logged_documents_emit p w :
  logged_documents (snd (emit p w)) =
  (logged_documents w ++ match p with SpanLogQuery doc => [doc] | _ => [] end)%list.
Proof.
  unfold logged_documents, emit. simpl. rewrite omap_app. f_equal. by destruct p.
Qed.

(** [Create] redacts: a document it logs to the span carries ["REDACTED"] in
    place of the secret, on every path and whatever the engine does. *)
Ltac split_paths :=
  repeat (cbv [bind ret]; simpl;
    match goal with
    | |- context [bool_decide ?P] => destruct (bool_decide P)
    | |- context [Hash ?h ?s ?x] => destruct (Hash h s x)
    | |- context [faultAt ?e ?n] => destruct (faultAt e n) as [[?|?]|]
    | |- context [IsDup ?e] => destruct (IsDup e)
    | |- context [mgo.Insert ?k ?d ?l] => destruct (mgo.Insert k d l)
    end).

Lemma Create_redacts c C w doc :
  doc ∈ logged_documents (snd (clientMongoManager.Create c C w)) →
  doc ∈ logged_documents w ∨ Secret doc = "REDACTED".
Proof.
  unfold clientMongoManager.Create, bind, ret, uuid_New, time_Now, hasher_Hash,
    collection.Insert, collection.write, roundtrip, emit, logged_documents.
  split_paths; simpl; rewrite ?omap_app; simpl; rewrite ?app_nil_r; try (by left).
  all: rewrite elem_of_app, list_elem_of_singleton; intros [H| ->]; [by left | by right].
Qed.

(** ** The unique index is an invariant

    Whatever the engine's faults, the clock, the UUIDs and the hasher do, no
    operation of the client manager leaves two stored clients with one ID. *)

Section UniqueIndex.
Context {Doc : Type} (key : Doc → string).
Implicit Types (sel : Doc → bool) (d : Doc) (docs : list Doc).

Lemma Insert_NoDup d docs docs' :
  NoDup (key <$> docs) → mgo.Insert key d docs = Ok docs' → NoDup (key <$> docs').
Proof.
  unfold mgo.Insert. intros Hnd.
  destruct (existsb _ docs) eqn:Ex; [discriminate|]. intros [= <-].
  rewrite fmap_app. apply NoDup_app. split; [done|]. split.
  - intros k Hk Hin. apply list_elem_of_singleton in Hin as ->.
    apply existsb_has_key in Hk. congruence.
  - apply NoDup_singleton.
Qed.

Lemma keys_replace_first_elem sel d docs k :
  k ∈ key <$> mgo.replace_first sel d docs → k = key d ∨ k ∈ key <$> docs.
Proof.
  induction docs as [|x rest IH]; simpl; [by right|].
  destruct (sel x); simpl; rewrite !elem_of_cons; intuition.
Qed.

Lemma replace_first_NoDup sel d docs old :
  NoDup (key <$> docs) → List.find sel docs = Some old →
  key d = key old ∨ key d ∉ key <$> docs →
  NoDup (key <$> mgo.replace_first sel d docs).
Proof.
  induction docs as [|x rest IH]; simpl; [done|].
  intros Hnd Hfind Hkey. apply NoDup_cons in Hnd as [Hx Hrest].
  destruct (sel x) eqn:Hsel; simpl.
  - injection Hfind as <-. apply NoDup_cons. split; [|done].
    destruct Hkey as [-> | Hkey]; [done|].
    rewrite not_elem_of_cons in Hkey. by destruct Hkey.
  - apply NoDup_cons. split.
    + intros Hin. apply keys_replace_first_elem in Hin as [Heq | Hin]; [|done].
      destruct Hkey as [Hkey | Hkey].
      * apply List.find_some in Hfind as [Hin _]. apply Hx.
        rewrite Heq, Hkey. apply list_elem_of_fmap_2. by apply list_elem_of_In.
      * apply Hkey. rewrite Heq. apply list_elem_of_here.
    + apply IH; [done..|].
      destruct Hkey as [Hkey | Hkey]; [by left | right].
      rewrite not_elem_of_cons in Hkey. by destruct Hkey.
Qed.

Lemma Update_NoDup sel d docs docs' :
  NoDup (key <$> docs) → mgo.Update key sel d docs = Ok docs' → NoDup (key <$> docs').
Proof.
  unfold mgo.Update. intros Hnd.
  destruct (List.find sel docs) as [old|] eqn:Hfind; [|discriminate].
  destruct (negb _ && existsb _ docs) eqn:Hdup; [discriminate|]. intros [= <-].
  apply (replace_first_NoDup sel d docs old); [done..|].
  apply andb_false_iff in Hdup as [Hsame | Hfresh].
  - left. apply negb_false_iff, has_key_true in Hsame. done.
  - right. intros Hin. apply existsb_has_key in Hin. congruence.
Qed.

Lemma Upsert_NoDup sel d docs docs' :
  NoDup (key <$> docs) → mgo.Upsert key sel d docs = Ok docs' → NoDup (key <$> docs').
Proof.
  unfold mgo.Upsert. destruct (List.find sel docs).
  - apply Update_NoDup.
  - apply Insert_NoDup.
Qed.

Lemma Remove_NoDup sel docs docs' :
  NoDup (key <$> docs) → mgo.Remove sel docs = Ok docs' → NoDup (key <$> docs').
Proof.
  unfold mgo.Remove. intros Hnd. destruct (List.find sel docs); [|discriminate].
  intros [= <-]. eapply sublist_NoDup; [done | apply keys_remove_first_sublist].
Qed.
End UniqueIndex.

Lemma preserves_ret {A} P (a : A) : preserves P (ret a).
Proof. by intros w. Qed.

Lemma preserves_bind {A B} P (m : M A) (k : A → M B) :
  preserves P m → (∀ a, preserves P (k a)) → preserves P (bind m k).
Proof.
  intros Hm Hk w HP. unfold bind. specialize (Hm w HP).
  destruct (m w) as [a w']. by apply Hk.
Qed.

Lemma unique_emit p : preserves unique_ids (emit p).
Proof. by intros w. Qed.

Lemma unique_time_Now : preserves unique_ids time_Now.
Proof. by intros w. Qed.

Lemma unique_uuid_New : preserves unique_ids uuid_New.
Proof. by intros w. Qed.

Lemma unique_roundtrip : preserves unique_ids roundtrip.
Proof. by intros w. Qed.

Lemma unique_hasher_Hash h s : preserves unique_ids (hasher_Hash h s).
Proof. by intros w. Qed.

Lemma unique_read {A} (f : list Client → result A) :
  preserves unique_ids (collection.read f).
Proof.
  apply preserves_bind; [apply unique_roundtrip|].
  intros [e|]; [apply preserves_ret | by intros w].
Qed.

Lemma unique_write f :
  (∀ cs cs', NoDup (ID <$> cs) → f cs = Ok cs' → NoDup (ID <$> cs')) →
  preserves unique_ids (collection.write f).
Proof.
  intros Hf. apply preserves_bind; [apply unique_roundtrip|].
  intros [[e|e]|]; [apply preserves_ret| |]; intros w Hu.
  all: destruct (f (clients w)) as [cs|e'] eqn:E; simpl; [|done].
  all: by apply (Hf (clients w)).
Qed.

Ltac preserve_step :=
  first
    [ apply preserves_ret
    | apply unique_emit
    | apply unique_time_Now
    | apply unique_uuid_New
    | apply unique_hasher_Hash
    | apply unique_read
    | apply unique_write; first [ apply Insert_NoDup | apply Update_NoDup
                                | apply Upsert_NoDup | apply Remove_NoDup ]
    | apply preserves_bind; [|intros ?]
    | match goal with
      | |- preserves _ (match ?x with _ => _ end) => destruct x
      end ].

Ltac preserve := repeat preserve_step.

Lemma unique_getConcrete c k : preserves unique_ids (clientMongoManager.getConcrete c k).
Proof. unfold clientMongoManager.getConcrete, collection.Find_One. preserve. Qed.

Lemma unique_Create c C : preserves unique_ids (clientMongoManager.Create c C).
Proof. unfold clientMongoManager.Create, collection.Insert. preserve. Qed.

Lemma unique_Update c k u : preserves unique_ids (clientMongoManager.Update c k u).
Proof.
  unfold clientMongoManager.Update, collection.Update.
  apply preserves_bind; [apply unique_getConcrete|]. intros [cur err].
  cbv zeta. preserve.
Qed.

Lemma unique_Migrate c m : preserves unique_ids (clientMongoManager.Migrate c m).
Proof. unfold clientMongoManager.Migrate, collection.Upsert. preserve. Qed.

Lemma unique_Delete c k : preserves unique_ids (clientMongoManager.Delete c k).
Proof. unfold clientMongoManager.Delete, collection.Remove. preserve. Qed.

Lemma unique_AuthenticateMigration c currentAuth k secret :
  preserves unique_ids currentAuth →
  preserves unique_ids (clientMongoManager.AuthenticateMigration c currentAuth k secret).
Proof.
  intros Hauth. unfold clientMongoManager.AuthenticateMigration.
  apply preserves_bind; [apply unique_emit|]. intros _.
  apply preserves_bind; [exact Hauth|]. intros [client authenticated].
  repeat first [ apply unique_Update | preserve_step ].
Qed.

Lemma unique_empty e : unique_ids (Sample.empty e).
Proof. apply NoDup_nil_2. Qed.

(** ** The sample hasher keeps the hasher's contract *)

Lemma String_neq_tail a s : String a s ≠ s.
Proof.
  revert a. induction s as [|b s IH]; intros a; [discriminate|].
  intros [= _ H]. by apply (IH b).
Qed.

Global Instance prefixHasher_laws : HasherLaws Sample.prefixHasher.
Proof.
  split; simpl.
  - intros _ s d [= <-]. by rewrite bool_decide_eq_true_2.
  - intros _ s d s' [= <-]. case_bool_decide as E; [|discriminate].
    intros _. by injection E.
  - intros _ s d [= <-]. apply String_neq_tail.
Qed.

(** ** The properties at work on the sample database *)

Lemma Delete_then_Get_NotFound_witness :
  let c := Sample.manager in
  let w := Sample.with_clients [Sample.c1] Sample.quiet in
  let w' := snd (clientMongoManager.Delete c "c1" w) in
  healthy w ∧ unique_ids w
  ∧ fst (clientMongoManager.Delete c "c1" w) = None
  ∧ fst (clientMongoManager.Get c "c1" w') = (zeroClient, Some fosite_ErrNotFound)
  ∧ fst (clientMongoManager.Delete c "c1" w') = Some fosite_ErrNotFound.
Proof.
  intros c w w'.
  assert (Hh : healthy w) by (intros n; reflexivity).
  assert (Hu : unique_ids w) by apply NoDup_singleton.
  split; [exact Hh|]. split; [exact Hu|].
  exact (Delete_then_Get_NotFound c "c1" w Hh Hu).
Defined.

Lemma Authenticate_disabled_witness :
  let w := Sample.with_clients [Sample.c1; Sample.retired] Sample.quiet in
  healthy w ∧ stored "retired" w = Some Sample.retired ∧ Disabled Sample.retired = true
  ∧ fst (clientMongoManager.Authenticate Sample.manager "retired" "hunter2" w)
    = (zeroClient, Some fosite_ErrAccessDenied)
  ∧ clients (snd (clientMongoManager.Authenticate Sample.manager "retired" "hunter2" w))
    = clients w.
Proof.
  intros w.
  assert (Hh : healthy w) by (intros n; reflexivity).
  split; [exact Hh|]. split; [reflexivity|]. split; [reflexivity|].
  exact (Authenticate_disabled Sample.manager "retired" "hunter2" w Sample.retired
           Hh eq_refl eq_refl).
Defined.

(** C2 as stated fails: a stored client that is disabled and public is let
    in, whatever the secret. *)
Lemma Authenticate_disabled_public_counterexample :
  let w := Sample.with_clients [Sample.c1; Sample.kiosk] Sample.quiet in
  let out := clientMongoManager.Authenticate Sample.manager "kiosk" "anything" w in
  healthy w ∧ stored "kiosk" w = Some Sample.kiosk ∧ Disabled Sample.kiosk = true
  ∧ fst out = (Sample.kiosk, None)
  ∧ snd (fst out) ≠ Some fosite_ErrAccessDenied.
Proof.
  intros w out. split; [intros n; reflexivity|].
  repeat (split; [reflexivity|]). vm_compute. discriminate.
Qed.

Lemma Create_then_Get_witness :
  let c := Sample.manager in
  let C := with_Secret "s3cr3t" Sample.c1 in
  let w := Sample.empty Sample.quiet in
  let w1 := snd (clientMongoManager.Create c C w) in
  let r := Sample.c1 in
  healthy w
  ∧ clientMongoManager.Create c C w = ((r, None), w1)
  ∧ fst (clientMongoManager.Get c (ID r) w1) = (r, None)
  ∧ Secret r ≠ Secret C
  ∧ Compare (clientMongoManager.hasher c) (Secret r) (Secret C) = None
  ∧ with_Secret (Secret C) r = with_CreateTime (CreateTime r) (with_ID (ID r) C)
  ∧ (ID C ≠ "" → ID r = ID C)
  ∧ (CreateTime C ≠ 0 → CreateTime r = CreateTime C).
Proof.
  intros c C w w1 r.
  assert (Hh : healthy w) by (intros n; reflexivity).
  assert (Hc : clientMongoManager.Create c C w = ((r, None), w1)) by reflexivity.
  split; [exact Hh|]. split; [exact Hc|].
  exact (@Create_then_Get c prefixHasher_laws C w r w1 Hh Hc).
Defined.

Lemma Update_spec_witness :
  let c := Sample.manager in
  let w := Sample.with_clients [Sample.c1] Sample.quiet in
  let out := clientMongoManager.Update c "c1" (with_ID "c2" (with_Secret "n3w" Sample.c1)) w in
  let r := with_Secret "#n3w" (with_UpdateTime 1700000000 Sample.c1) in
  healthy w
  ∧ fst out = (r, None) ∧ stored "c1" (snd out) = Some r
  ∧ ID r = "c1"
  ∧ Compare (clientMongoManager.hasher c) (Secret r) "n3w" = None
  ∧ ∀ old, old ≠ "n3w" → Compare (clientMongoManager.hasher c) (Secret r) old ≠ None.
Proof.
  intros c w out r.
  assert (Hh : healthy w) by (intros n; reflexivity).
  split; [exact Hh|].
  exact (@Update_spec c prefixHasher_laws "c1"
           (with_ID "c2" (with_Secret "n3w" Sample.c1)) w Hh).
Defined.

Lemma Migrate_spec_witness :
  let c := Sample.manager in
  let w := Sample.with_clients [Sample.c1] Sample.quiet in
  let out := clientMongoManager.Migrate c Sample.legacy1 w in
  let r := with_UpdateTime 1700000000 Sample.legacy1 in
  healthy w
  ∧ fst out = (r, None)
  ∧ stored "c1" (snd out) = Some r
  ∧ (∀ k, k ≠ "c1" → stored k (snd out) = stored k w)
  ∧ length (clients (snd out)) = length (clients w).
Proof.
  intros c w out r.
  assert (Hh : healthy w) by (intros n; reflexivity).
  split; [exact Hh|].
  exact (Migrate_spec c Sample.legacy1 w Hh).
Defined.

(** C5 as stated fails: a record with the ID exists, yet [Migrate] of a
    record whose create-time is zero leaves the update-time as supplied and
    sets the create-time instead. *)
Lemma Migrate_existing_counterexample :
  let w := Sample.with_clients [Sample.c1] Sample.quiet in
  let m := with_CreateTime 0 Sample.c1 in
  let out := clientMongoManager.Migrate Sample.manager m w in
  healthy w ∧ stored "c1" w = Some Sample.c1
  ∧ UpdateTime m = 0
  ∧ snd (fst out) = None
  ∧ stored "c1" (snd out) = Some (fst (fst out))
  ∧ UpdateTime (fst (fst out)) = 0
  ∧ CreateTime (fst (fst out)) = 1700000000
  ∧ UpdateTime (fst (fst out)) ≠ clockAt (env w) 0.
Proof.
  intros w m out. split; [intros n; reflexivity|].
  repeat (split; [reflexivity|]). vm_compute. discriminate.
Qed.

Lemma AuthenticateMigration_healthy_witness :
  let c := Sample.manager in
  let w := Sample.with_clients [Sample.legacy1] Sample.quiet in
  let w1 := snd (emit (SpanStart clientMongoManager.manager "AuthenticateMigration" None) w) in
  let out := clientMongoManager.AuthenticateMigration c Sample.legacyAuth "c1" "s3cr3t" w in
  let r := with_Secret "##s3cr3t" (with_UpdateTime 1700000000 Sample.legacy1) in
  Sample.legacyAuth w1 = ((Sample.legacy1, true), w1)
  ∧ healthy w1
  ∧ fst out = (r, None)
  ∧ stored "c1" (snd out) = Some r
  ∧ ∀ k', k' ≠ "c1" → stored k' (snd out) = stored k' w1.
Proof.
  intros c w w1 out r.
  assert (Hauth : Sample.legacyAuth w1 = ((Sample.legacy1, true), w1)) by reflexivity.
  assert (Hh : healthy w1) by (intros n; reflexivity).
  split; [exact Hauth|]. split; [exact Hh|].
  exact (AuthenticateMigration_healthy c Sample.legacyAuth "c1" "s3cr3t" w
           Sample.legacy1 true w1 Hauth Hh).
Defined.

(** C1 fails on the code at step (5).  A client is stored with the digest
    of a legacy scheme, the legacy function authenticates it, and the
    current hasher's digest of the presented secret is ["#s3cr3t"], which
    verifies against that secret.  [AuthenticateMigration] sets that digest
    as the record's secret and passes the record to [Update], and [Update]
    hashes the secret it is handed: what is stored, and returned with no
    error, carries the digest of the digest.  The migrated client is
    refused when it presents the same secret again; what [Authenticate]
    accepts from then on is the digest itself. *)
Theorem AuthenticateMigration_stores_digest_of_digest :
  let c := Sample.manager in
  let w := Sample.with_clients [Sample.legacy1] Sample.quiet in
  let w1 := snd (emit (SpanStart clientMongoManager.manager "AuthenticateMigration" None) w) in
  let out := clientMongoManager.AuthenticateMigration c Sample.legacyAuth "c1" "s3cr3t" w in
  healthy w
  ∧ stored "c1" w = Some Sample.legacy1
  ∧ Sample.legacyAuth w1 = ((Sample.legacy1, true), w1)
  ∧ Public Sample.legacy1 = false
  ∧ Disabled Sample.legacy1 = false
  ∧ Hash (clientMongoManager.hasher c) (entropyAt (env w1) (tick w1)) "s3cr3t"
    = Ok "#s3cr3t"
  ∧ Compare (clientMongoManager.hasher c) "#s3cr3t" "s3cr3t" = None
  ∧ snd (fst out) = None
  ∧ stored "c1" (snd out) = Some (fst (fst out))
  ∧ Secret (fst (fst out)) = "##s3cr3t"
  ∧ Secret (fst (fst out)) ≠ "#s3cr3t"
  ∧ fst (clientMongoManager.Authenticate c "c1" "s3cr3t" (snd out))
    = (zeroClient,
       Some (hasher_Err "hashedPassword is not the hash of the given password"))
  ∧ snd (fst (clientMongoManager.Authenticate c "c1" "#s3cr3t" (snd out))) = None.
Proof.
  intros c w w1 out. split; [intros n; reflexivity|].
  repeat (split; [reflexivity|]). split; [vm_compute; discriminate|].
  split; reflexivity.
Qed.

(** Step (5) is no update of the secret field alone either: the record the
    legacy function reported replaces the stored one, with its update-time
    set to the clock's reading. *)
Example AuthenticateMigration_stamps_record :
  let w := Sample.with_clients [Sample.legacy1] Sample.quiet in
  let out := clientMongoManager.AuthenticateMigration Sample.manager
               Sample.legacyAuth "c1" "s3cr3t" w in
  UpdateTime Sample.legacy1 = 0
  ∧ UpdateTime <$> stored "c1" (snd out) = Some 1700000000
  ∧ ∀ h, stored "c1" (snd out) ≠ Some (with_Secret h Sample.legacy1).
Proof.
  intros w out. split; [reflexivity|]. split; [reflexivity|].
  intros h. vm_compute. intros [= _].
Qed.

(** C6 fails on the code.  The engine loses its connection on the write:
    [Update] and [Migrate] log the record to the span with its secret field
    as it is (the fresh digest, the secret the caller supplied), where
    [Create] on the same failure logs ["REDACTED"]. *)
Theorem Update_Migrate_log_secret :
  let c := Sample.manager in
  let down := mgo_ErrOther "no reachable servers" in
  let update :=
    clientMongoManager.Update c "c1" (with_Secret "n3w" Sample.c1)
      (Sample.with_clients [Sample.c1] (Sample.outage_at 3)) in
  let migrate :=
    clientMongoManager.Migrate c Sample.legacy1
      (Sample.with_clients [Sample.c1] (Sample.outage_at 1)) in
  let create :=
    clientMongoManager.Create c (with_Secret "s3cr3t" Sample.c1)
      (Sample.empty (Sample.outage_at 1)) in
  fst update = (zeroClient, Some down)
  ∧ Secret <$> logged_documents (snd update) = ["#n3w"]
  ∧ fst migrate = (zeroClient, Some down)
  ∧ Secret <$> logged_documents (snd migrate) = ["5ebe2294ecd0e0f08eab7690d2a6ee69"]
  ∧ fst create = (zeroClient, Some down)
  ∧ Secret <$> logged_documents (snd create) = ["REDACTED"].
Proof. intros c down update migrate create. repeat split; reflexivity. Qed.

Lemma List_spec_witness :
  let c := Sample.manager in
  let w := Sample.with_clients [Sample.c1; Sample.retired; Sample.kiosk] Sample.quiet in
  let f := Sample.scoped ["openid"; "reports"] ["openid"; "profile"] in
  healthy w
  ∧ clientMongoManager.List_query f !! "scopes" = Some (QIn ["openid"; "reports"])
  ∧ spec_matches f Sample.retired = true
  ∧ fst (clientMongoManager.List c f w)
    = ([Sample.c1; Sample.retired; Sample.kiosk], None).
Proof.
  intros c w f.
  assert (Hh : healthy w) by (intros n; reflexivity).
  split; [exact Hh|].
  destruct (List_spec c f w Hh) as (Hquery & Hsel & Hlist).
  split; [exact (Hquery "scopes")|]. split; [reflexivity|]. exact Hlist.
Defined.

Lemma Create_session_conflict_witness :
  let r := Sample.sessions in
  let w := Sample.with_session Sample.quiet in
  let pkce := requestMongoManager.CreatePKCERequestSession r "code-1" Sample.request1 w in
  let oidc := requestMongoManager.CreateOpenIDConnectSession r "code-1" Sample.request1 w in
  healthy w
  ∧ (fst pkce = None
     ∧ stored_request EntityPKCESessions "code-1" (snd pkce)
       = Some (requestMongoManager.toMongo "code-1" Sample.request1))
  ∧ (fst oidc = Some storage_ErrResourceExists ∧ requests (snd oidc) = requests w).
Proof.
  intros r w pkce oidc.
  assert (Hh : healthy w) by (intros n; reflexivity).
  split; [exact Hh|].
  exact (Create_session_conflict r "code-1" Sample.request1 w Hh).
Defined.

Lemma GetOpenIDConnectSession_nil_session_witness :
  let r := Sample.sessions in
  let w := Sample.with_session Sample.quiet in
  let out := requestMongoManager.GetOpenIDConnectSession r "code-1"
               Sample.request1_nil_session w in
  healthy w ∧ GetSession Sample.request1_nil_session = None
  ∧ is_Some (stored_request EntityOpenIDSessions "code-1" w)
  ∧ fst out = (None, Some fosite_ErrNotFound)
  ∧ requests (snd out) = requests w
  ∧ clients (snd out) = clients w.
Proof.
  intros r w out.
  assert (Hh : healthy w) by (intros n; reflexivity).
  split; [exact Hh|]. split; [reflexivity|]. split; [by eexists|].
  exact (GetOpenIDConnectSession_nil_session r "code-1"
           Sample.request1_nil_session w Hh eq_refl).
Defined.

(** ** Two runs through the managers *)

(** A client is created with a secret and authenticates with it and not
    with another; once it is updated to disabled, it is refused. *)
Example run_authenticate :
  let c := Sample.manager in
  let w0 := Sample.empty Sample.quiet in
  let w1 := snd (clientMongoManager.Create c (with_Secret "s3cr3t" Sample.c1) w0) in
  let disabled :=
    mkClient "c1" 1600000000 0 ["tenant-a"] ["authorization_code"] ["code"]
      ["openid"; "profile"] false true "app one" "" ["https://one.example/cb"]
      ["ops@one.example"] in
  let w2 := snd (clientMongoManager.Update c "c1" disabled w1) in
  snd (fst (clientMongoManager.Authenticate c "c1" "s3cr3t" w1)) = None
  ∧ snd (fst (clientMongoManager.Authenticate c "c1" "wrong" w1))
    = Some (hasher_Err "hashedPassword is not the hash of the given password")
  ∧ Secret <$> stored "c1" w2 = Some "#s3cr3t"
  ∧ snd (fst (clientMongoManager.Authenticate c "c1" "s3cr3t" w2))
    = Some fosite_ErrAccessDenied.
Proof. repeat split; reflexivity. Qed.

(** A PKCE session is created, read back with its client and scopes,
    deleted, and then no longer found. *)
Example run_pkce_session :
  let r := Sample.sessions in
  let w0 := Sample.with_clients [Sample.c1] Sample.quiet in
  let w1 := snd (requestMongoManager.CreatePKCERequestSession r "sig1" Sample.request1 w0) in
  let w2 := snd (requestMongoManager.DeletePKCERequestSession r "sig1" w1) in
  fst (requestMongoManager.CreatePKCERequestSession r "sig1" Sample.request1 w0) = None
  ∧ fst (requestMongoManager.GetPKCERequestSession r "sig1" (Some "") w1)
    = (Some Sample.request1, None)
  ∧ fst (requestMongoManager.DeletePKCERequestSession r "sig1" w1) = None
  ∧ fst (requestMongoManager.GetPKCERequestSession r "sig1" (Some "") w2)
    = (None, Some fosite_ErrNotFound)
  ∧ fst (requestMongoManager.DeletePKCERequestSession r "sig1" w2)
    = Some fosite_ErrNotFound.
Proof. repeat split; reflexivity. Qed.

(** * Further properties of the client manager *)

(** ** Outcomes with an error carry no record *)

Lemma returns_ret {A} (Q : A → Prop) (a : A) : Q a → returns Q (ret a).
Proof. by intros H w. Qed.

Lemma returns_bind {A B} (Q : B → Prop) (m : M A) (k : A → M B) :
  (∀ a, returns Q (k a)) → returns Q (bind m k).
Proof. intros Hk w. unfold bind. destruct (m w) as [a w']. apply Hk. Qed.

Ltac returning_step :=
  first
    [ apply returns_ret; simpl; done
    | apply returns_bind; intros ?
    | match goal with
      | |- returns _ (match ?x with _ => _ end) => destruct x
      end ].

Lemma returns_Update c k u :
  returns no_record_on_error (clientMongoManager.Update c k u).
Proof.
  unfold clientMongoManager.Update. apply returns_bind. intros [cur err].
  cbv zeta. repeat returning_step.
Qed.

(** Whatever the engine, the clock and the hasher do, an operation of the
    client manager that returns an error returns the zero record with it:
    no stored or half-built record, and no secret, leaves with an error. *)
Theorem errors_carry_no_record c :
  (∀ k, returns no_record_on_error (clientMongoManager.getConcrete c k))
  ∧ (∀ C, returns no_record_on_error (clientMongoManager.Create c C))
  ∧ (∀ k u, returns no_record_on_error (clientMongoManager.Update c k u))
  ∧ (∀ m, returns no_record_on_error (clientMongoManager.Migrate c m))
  ∧ (∀ k secret, returns no_record_on_error (clientMongoManager.Authenticate c k secret))
  ∧ (∀ currentAuth k secret,
       returns no_record_on_error
         (clientMongoManager.AuthenticateMigration c currentAuth k secret))
  ∧ (∀ grant k scopes, returns no_record_on_error (GrantScopes grant c k scopes))
  ∧ (∀ revoke k scopes, returns no_record_on_error (RemoveScopes revoke c k scopes)).
Proof.
  repeat split; intros.
  - unfold clientMongoManager.getConcrete. repeat returning_step.
  - unfold clientMongoManager.Create. repeat returning_step.
  - apply returns_Update.
  - unfold clientMongoManager.Migrate. repeat returning_step.
  - unfold clientMongoManager.Authenticate.
    apply returns_bind. intros _. apply returns_bind. intros [client err].
    repeat returning_step.
  - unfold clientMongoManager.AuthenticateMigration.
    apply returns_bind. intros _. apply returns_bind. intros [client authenticated].
    repeat first [ apply returns_Update | returning_step ].
  - unfold GrantScopes. apply returns_bind. intros _.
    apply returns_bind. intros [client err].
    repeat first [ apply returns_Update | returning_step ].
  - unfold RemoveScopes. apply returns_bind. intros _.
    apply returns_bind. intros [client err].
    repeat first [ apply returns_Update | returning_step ].
Qed.

(** ** Reading never writes *)

Lemma same_emit w0 p : preserves (same_database w0) (emit p).
Proof. by intros w. Qed.

Lemma same_roundtrip w0 : preserves (same_database w0) roundtrip.
Proof. by intros w. Qed.

Lemma same_read {A} w0 (f : list Client → result A) :
  preserves (same_database w0) (collection.read f).
Proof.
  apply preserves_bind; [apply same_roundtrip|].
  intros [e|]; [apply preserves_ret | by intros w].
Qed.

Ltac same_step :=
  first
    [ apply preserves_ret
    | apply same_emit
    | apply same_read
    | apply preserves_bind; [|intros ?]
    | match goal with
      | |- preserves _ (match ?x with _ => _ end) => destruct x
      end ].

Lemma same_getConcrete w0 c k :
  preserves (same_database w0) (clientMongoManager.getConcrete c k).
Proof. unfold clientMongoManager.getConcrete, collection.Find_One. repeat same_step. Qed.

Lemma same_GetClient w0 c k :
  preserves (same_database w0) (clientMongoManager.GetClient c k).
Proof.
  unfold clientMongoManager.GetClient.
  apply preserves_bind; [apply same_getConcrete|]. intros [client err].
  repeat same_step.
Qed.

Lemma same_List w0 c f :
  preserves (same_database w0) (clientMongoManager.List c f).
Proof. unfold clientMongoManager.List, collection.Find_All. repeat same_step. Qed.

Lemma same_Authenticate w0 c k secret :
  preserves (same_database w0) (clientMongoManager.Authenticate c k secret).
Proof.
  unfold clientMongoManager.Authenticate.
  apply preserves_bind; [apply same_emit|]. intros _.
  apply preserves_bind; [apply same_getConcrete|]. intros [client err].
  repeat same_step.
Qed.

(** Whatever the engine does, [Get], [GetClient], [List] and
    [Authenticate] leave the stored clients and session records exactly as
    they found them. *)
Theorem reads_never_write c w :
  (∀ k, same_database w (snd (clientMongoManager.Get c k w)))
  ∧ (∀ k, same_database w (snd (clientMongoManager.GetClient c k w)))
  ∧ (∀ f, same_database w (snd (clientMongoManager.List c f w)))
  ∧ (∀ k secret, same_database w (snd (clientMongoManager.Authenticate c k secret w))).
Proof.
  assert (H0 : same_database w w) by done.
  split; [|split; [|split]]; intros.
  - apply (same_getConcrete w c k w H0).
  - apply (same_GetClient w c k w H0).
  - apply (same_List w c f w H0).
  - apply (same_Authenticate w c k secret w H0).
Qed.

(** ** The unique index, for every writer *)

Lemma unique_GrantScopes grant c k scopes :
  preserves unique_ids (GrantScopes grant c k scopes).
Proof.
  unfold GrantScopes.
  apply preserves_bind; [apply unique_emit|]. intros _.
  apply preserves_bind; [apply unique_getConcrete|]. intros [client err].
  repeat first [ apply unique_Update | preserve_step ].
Qed.

Lemma unique_RemoveScopes revoke c k scopes :
  preserves unique_ids (RemoveScopes revoke c k scopes).
Proof.
  unfold RemoveScopes.
  apply preserves_bind; [apply unique_emit|]. intros _.
  apply preserves_bind; [apply unique_getConcrete|]. intros [client err].
  repeat first [ apply unique_Update | preserve_step ].
Qed.

(** No operation of the client manager ever leaves two stored clients with
    one ID, whatever the engine's faults, the UUIDs drawn and the hasher
    do: not [Create] (also with a generated ID that is taken), not
    [Update], [Migrate], [Delete], the scope grants, nor
    [AuthenticateMigration] around a legacy function that keeps the index. *)
Theorem unique_index_invariant c w :
  unique_ids w →
  (∀ C, unique_ids (snd (clientMongoManager.Create c C w)))
  ∧ (∀ k u, unique_ids (snd (clientMongoManager.Update c k u w)))
  ∧ (∀ m, unique_ids (snd (clientMongoManager.Migrate c m w)))
  ∧ (∀ k, unique_ids (snd (clientMongoManager.Delete c k w)))
  ∧ (∀ grant k scopes, unique_ids (snd (GrantScopes grant c k scopes w)))
  ∧ (∀ revoke k scopes, unique_ids (snd (RemoveScopes revoke c k scopes w)))
  ∧ (∀ currentAuth k secret,
       preserves unique_ids currentAuth →
       unique_ids (snd (clientMongoManager.AuthenticateMigration c currentAuth k secret w))).
Proof.
  intros Hu. repeat split; intros.
  - by apply unique_Create.
  - by apply unique_Update.
  - by apply unique_Migrate.
  - by apply unique_Delete.
  - by apply unique_GrantScopes.
  - by apply unique_RemoveScopes.
  - by apply unique_AuthenticateMigration.
Qed.

(** ** Faults of the engine *)

(** When the engine faults the call of [Get], [Delete] or [List], be the
    call refused or its reply lost, the fault's error is what the caller
    gets: [Get] and [Delete] report the engine's own not-found as
    [fosite.ErrNotFound] and any other error as it is, [List] passes every
    error on as it is.  [Get] comes with the zero record and [List] with no
    records. *)
Theorem engine_fault_reported c k f w fault :
  faultAt (env w) (tick w) = Some fault →
  let e := fault_error fault in
  let e' := if bool_decide (e = mgo_ErrNotFound) then fosite_ErrNotFound else e in
  fst (clientMongoManager.Get c k w) = (zeroClient, Some e')
  ∧ fst (clientMongoManager.Delete c k w) = Some e'
  ∧ fst (clientMongoManager.List c f w) = ([], Some e).
Proof.
  intros Hf.
  unfold clientMongoManager.Get, clientMongoManager.getConcrete, clientMongoManager.Delete,
    clientMongoManager.List, collection.Find_One, collection.Remove, collection.Find_All,
    collection.read, collection.write, bind, emit, roundtrip, ret.
  simpl. rewrite Hf.
  destruct fault as [e|e]; simpl.
  - destruct (bool_decide (e = mgo_ErrNotFound)); done.
  - destruct (mgo.Remove _ _); simpl;
      destruct (bool_decide (e = mgo_ErrNotFound)); done.
Qed.

(** ** Authentication against the stored record *)

Lemma Authenticate_healthy c k secret w :
  healthy w →
  fst (clientMongoManager.Authenticate c k secret w) =
    match stored k w with
    | None => (zeroClient, Some fosite_ErrNotFound)
    | Some cl =>
        if Public cl then (cl, None)
        else if Disabled cl then (zeroClient, Some fosite_ErrAccessDenied)
        else match Compare (clientMongoManager.hasher c) (Secret cl) secret with
             | Some e => (zeroClient, Some e)
             | None => (cl, None)
             end
    end.
Proof.
  intros Hh. unfold clientMongoManager.Authenticate, bind, emit. simpl.
  step_getConcrete Hh.
  change (stored k (set_logs _ w)) with (stored k w) in Hget.
  destruct (stored k w) as [cl|]; injection Hget as -> ->; simpl; [|done].
  destruct (Public cl); simpl; [done|].
  destruct (Disabled cl); simpl; [done|].
  unfold GetHashedSecret. destruct (Compare _ _ _); done.
Qed.

Lemma GrantScopes_absent grant c k scopes w :
  healthy w → stored k w = None →
  fst (GrantScopes grant c k scopes w) = (zeroClient, Some fosite_ErrNotFound)
  ∧ clients (snd (GrantScopes grant c k scopes w)) = clients w.
Proof.
  intros Hh Hst. unfold GrantScopes, bind, emit. simpl.
  step_getConcrete Hh.
  change (stored k (set_logs _ w)) with (stored k w) in Hget.
  rewrite Hst in Hget. injection Hget as -> ->. simpl. done.
Qed.

Lemma RemoveScopes_absent revoke c k scopes w :
  healthy w → stored k w = None →
  fst (RemoveScopes revoke c k scopes w) = (zeroClient, Some fosite_ErrNotFound)
  ∧ clients (snd (RemoveScopes revoke c k scopes w)) = clients w.
Proof.
  intros Hh Hst. unfold RemoveScopes, bind, emit. simpl.
  step_getConcrete Hh.
  change (stored k (set_logs _ w)) with (stored k w) in Hget.
  rewrite Hst in Hget. injection Hget as -> ->. simpl. done.
Qed.

(** On a healthy engine, an ID under which nothing is stored is NotFound
    for every operation that looks a client up: [Get], [GetClient],
    [Authenticate] (whatever the secret) and the two scope grants, none of
    which returns a record or stores anything. *)
Theorem absent_is_NotFound c k w :
  healthy w → stored k w = None →
  fst (clientMongoManager.Get c k w) = (zeroClient, Some fosite_ErrNotFound)
  ∧ fst (clientMongoManager.GetClient c k w) = (None, Some fosite_ErrNotFound)
  ∧ (∀ secret, fst (clientMongoManager.Authenticate c k secret w)
               = (zeroClient, Some fosite_ErrNotFound))
  ∧ (∀ grant scopes,
       fst (GrantScopes grant c k scopes w) = (zeroClient, Some fosite_ErrNotFound)
       ∧ clients (snd (GrantScopes grant c k scopes w)) = clients w)
  ∧ (∀ revoke scopes,
       fst (RemoveScopes revoke c k scopes w) = (zeroClient, Some fosite_ErrNotFound)
       ∧ clients (snd (RemoveScopes revoke c k scopes w)) = clients w).
Proof.
  intros Hh Hst.
  destruct (getConcrete_healthy c k w Hh) as (Hget & _). rewrite Hst in Hget.
  split; [exact Hget|]. split.
  { unfold clientMongoManager.GetClient, bind.
    destruct (clientMongoManager.getConcrete c k w) as [[cl err] w'].
    simpl in Hget. by injection Hget as -> ->. }
  split.
  { intros secret. by rewrite Authenticate_healthy, Hst. }
  split; intros.
  - by apply GrantScopes_absent.
  - by apply RemoveScopes_absent.
Qed.

(** ** A second client under a taken ID *)

(** On a healthy engine, [Create] with an ID under which a client is stored
    stores nothing and fails: with Conflict ([storage.ErrResourceExists])
    once the secret is hashed, or with the hasher's error.  The client
    stored first stays readable as it was. *)
Theorem Create_conflict c C w old :
  healthy w → ID C ≠ "" → stored (ID C) w = Some old →
  let out := clientMongoManager.Create c C w in
  (fst out = (zeroClient, Some storage_ErrResourceExists)
   ∨ ∃ salt e, Hash (clientMongoManager.hasher c) salt (Secret C) = Fail e
               ∧ fst out = (zeroClient, Some e))
  ∧ clients (snd out) = clients w
  ∧ fst (clientMongoManager.Get c (ID C) (snd out)) = (old, None).
Proof.
  intros Hh Hid Hst out.
  destruct (Create_healthy c C w Hh) as [Henv Hout]. fold out in Henv, Hout.
  cbv zeta in Hout. rewrite (bool_decide_eq_false_2 (ID C = "")) in Hout by done.
  assert (Hcl : clients (snd out) = clients w
                ∧ (fst out = (zeroClient, Some storage_ErrResourceExists)
                   ∨ ∃ salt e, Hash (clientMongoManager.hasher c) salt (Secret C) = Fail e
                               ∧ fst out = (zeroClient, Some e))).
  { destruct (Hash _ _ (Secret C)) as [h|e] eqn:Hhash.
    - rewrite Hst in Hout. destruct Hout as [Hres Hcl]. split; [done | by left].
    - destruct Hout as [Hres Hcl]. split; [done|]. right. by eexists _, _. }
  destruct Hcl as [Hcl Hres]. split; [exact Hres|]. split; [exact Hcl|].
  unfold clientMongoManager.Get.
  destruct (getConcrete_healthy c (ID C) (snd out) (healthy_env w _ Henv Hh)) as (Hget & _).
  by rewrite Hget, (stored_clients w _ _ Hcl), Hst.
Qed.

(** ** Secrets, from storing to verifying *)

(** On a healthy engine and with a hasher that keeps its contract, a
    client that [Create] stored authenticates as its flags say: a public
    one with any secret; a disabled one with none; any other with the
    plaintext secret it was created with and with no other secret. *)
Theorem Create_then_Authenticate c `{!HasherLaws (clientMongoManager.hasher c)} C w r w1 :
  healthy w →
  clientMongoManager.Create c C w = ((r, None), w1) →
  let auth secret := fst (clientMongoManager.Authenticate c (ID r) secret w1) in
  if Public C then ∀ secret, auth secret = (r, None)
  else if Disabled C then ∀ secret, auth secret = (zeroClient, Some fosite_ErrAccessDenied)
  else auth (Secret C) = (r, None)
       ∧ ∀ secret, secret ≠ Secret C → ∃ e, auth secret = (zeroClient, Some e).
Proof.
  intros Hh Hcreate auth.
  destruct (Create_healthy c C w Hh) as [Henv Hout]. cbv zeta in Hout.
  rewrite Hcreate in Henv, Hout. simpl in Henv, Hout.
  destruct (Hash _ _ (Secret C)) as [h|e] eqn:Hhash; [|by destruct Hout].
  set (id := if bool_decide (ID C = "") then _ else _) in Hout.
  set (created := if bool_decide (CreateTime C = 0) then _ else _) in Hout.
  destruct (stored id w) eqn:Hst; [by destruct Hout|].
  destruct Hout as [Hr Hcl]. injection Hr as ->.
  set (r := with_Secret h _) in *.
  assert (Hnew : stored id w1 = Some r) by apply (stored_appended r w w1 Hst Hcl).
  assert (Hauth : ∀ secret, auth secret =
            if Public C then (r, None)
            else if Disabled C then (zeroClient, Some fosite_ErrAccessDenied)
            else match Compare (clientMongoManager.hasher c) h secret with
                 | Some e => (zeroClient, Some e)
                 | None => (r, None)
                 end).
  { intros secret. unfold auth. change (ID r) with id.
    rewrite Authenticate_healthy by (by apply (healthy_env w)). by rewrite Hnew. }
  destruct (Public C); [intros; by rewrite Hauth|].
  destruct (Disabled C); [intros; by rewrite Hauth|].
  split.
  - rewrite Hauth. by rewrite (Compare_Hash _ _ _ Hhash).
  - intros secret Hne. rewrite Hauth.
    destruct (Compare _ h secret) as [e|] eqn:Hcmp; [by eexists|].
    exfalso. apply Hne. by eapply Compare_sound.
Qed.

(** On a healthy engine and with a hasher that keeps its contract, after
    [Update] stored a client that is neither public nor disabled: when the
    incoming secret was blank or the stored hash itself, exactly the
    secrets that verified against the stored hash before still
    authenticate; otherwise the incoming secret authenticates and no other
    secret does. *)
Theorem Update_then_Authenticate c `{!HasherLaws (clientMongoManager.hasher c)}
    k u w cur r w1 :
  healthy w → stored k w = Some cur →
  clientMongoManager.Update c k u w = ((r, None), w1) →
  Public u = false → Disabled u = false →
  let auth secret := fst (clientMongoManager.Authenticate c k secret w1) in
  if bool_decide (Secret cur = Secret u) || bool_decide (Secret u = "") then
    ∀ secret, auth secret =
      match Compare (clientMongoManager.hasher c) (Secret cur) secret with
      | Some e => (zeroClient, Some e)
      | None => (r, None)
      end
  else
    auth (Secret u) = (r, None)
    ∧ ∀ secret, secret ≠ Secret u → ∃ e, auth secret = (zeroClient, Some e).
Proof.
  intros Hh Hst Hupd Hpub Hdis auth.
  destruct (Update_healthy c k u w Hh) as [Henv Hup].
  rewrite Hupd in Henv, Hup. rewrite Hst in Hup. cbv zeta in Hup. simpl in Henv, Hup.
  assert (Hh1 : healthy w1) by (by apply (healthy_env w)).
  destruct (bool_decide (Secret cur = Secret u) || bool_decide (Secret u = "")).
  - destruct Hup as (Hr & Hnew & _). injection Hr as ->.
    intros secret. unfold auth. rewrite Authenticate_healthy, Hnew by done.
    simpl. by rewrite Hpub, Hdis.
  - destruct (Hash _ _ (Secret u)) as [h|e] eqn:Hhash; [|by destruct Hup].
    destruct Hup as (Hr & Hnew & _). injection Hr as ->.
    assert (Hauth : ∀ secret, auth secret =
              match Compare (clientMongoManager.hasher c) h secret with
              | Some e => (zeroClient, Some e)
              | None => (with_Secret h
                           (with_UpdateTime (clockAt (env w) (S (tick w))) (with_ID k u)),
                         None)
              end).
    { intros secret. unfold auth. rewrite Authenticate_healthy, Hnew by done.
      simpl. by rewrite Hpub, Hdis. }
    split.
    + by rewrite Hauth, (Compare_Hash _ _ _ Hhash).
    + intros secret Hne. rewrite Hauth.
      destruct (Compare _ h secret) as [e|] eqn:Hcmp; [by eexists|].
      exfalso. apply Hne. by eapply Compare_sound.
Qed.

(** ** Writes that fail *)

Ltac split_all_paths :=
  repeat (cbv [bind ret]; simpl;
    match goal with
    | |- context [faultAt ?e ?n] => destruct (faultAt e n) as [[?|?]|] eqn:?
    | |- context [Hash ?h ?s ?x] => destruct (Hash h s x)
    | |- context [mgo.Insert ?k ?d ?l] => destruct (mgo.Insert k d l)
    | |- context [mgo.Update ?k ?s ?d ?l] => destruct (mgo.Update k s d l)
    | |- context [mgo.Upsert ?k ?s ?d ?l] => destruct (mgo.Upsert k s d l)
    | |- context [mgo.Remove ?s ?l] => destruct (mgo.Remove s l)
    | |- context [mgo.One ?s ?l] => destruct (mgo.One s l)
    | |- context [IsDup ?e] => destruct (IsDup e)
    | |- context [bool_decide ?P] => destruct (bool_decide P)
    end).

Ltac reply_arrived :=
  match goal with
  | Hr : replies_arrive ?w, E : faultAt (env ?w) ?n = Some (ReplyLost ?e) |- _ =>
      destruct (Hr n e E)
  end.

(** As long as no reply of the engine is lost, a [Create], [Update],
    [Migrate] or [Delete] that returns an error has stored nothing,
    whatever calls the engine refuses and whatever the clock and the hasher
    do: the clients are as they were.  The managers write last and once, so
    an error met on the way is returned before anything is written. *)
Theorem failed_writes_store_nothing c w :
  replies_arrive w →
  (∀ C, let out := clientMongoManager.Create c C w in
        snd (fst out) ≠ None → clients (snd out) = clients w)
  ∧ (∀ k u, let out := clientMongoManager.Update c k u w in
            snd (fst out) ≠ None → clients (snd out) = clients w)
  ∧ (∀ m, let out := clientMongoManager.Migrate c m w in
          snd (fst out) ≠ None → clients (snd out) = clients w)
  ∧ (∀ k, let out := clientMongoManager.Delete c k w in
          fst out ≠ None → clients (snd out) = clients w).
Proof.
  intros Hr. split; [|split; [|split]].
  - intros C out. subst out.
    unfold clientMongoManager.Create, collection.Insert, collection.write,
      uuid_New, time_Now, hasher_Hash, roundtrip, emit.
    split_all_paths; simpl; intros Hne; try done; reply_arrived.
  - intros k u out. subst out.
    unfold clientMongoManager.Update, clientMongoManager.getConcrete,
      collection.Update, collection.Find_One, collection.read, collection.write,
      uuid_New, time_Now, hasher_Hash, roundtrip, emit.
    split_all_paths; simpl; intros Hne; try done; reply_arrived.
  - intros m out. subst out.
    unfold clientMongoManager.Migrate, collection.Upsert, collection.write,
      uuid_New, time_Now, hasher_Hash, roundtrip, emit.
    split_all_paths; simpl; intros Hne; try done; reply_arrived.
  - intros k out. subst out.
    unfold clientMongoManager.Delete, collection.Remove, collection.write,
      roundtrip, emit.
    split_all_paths; simpl; intros Hne; try done; reply_arrived.
Qed.

(** When the reply to the write is lost, the error says nothing on what is
    stored: [Create] returns the driver's error and no record, and the
    record is stored all the same; [Delete] returns the error, and the
    record is gone. *)
Example writes_reply_lost :
  let c := Sample.manager in
  let created :=
    clientMongoManager.Create c (with_Secret "s3cr3t" Sample.c1)
      (Sample.empty (Fixtures.reply_lost_at 1)) in
  let deleted :=
    clientMongoManager.Delete c "c1"
      (Sample.with_clients [Sample.c1] (Fixtures.reply_lost_at 0)) in
  fst created = (zeroClient, Some (mgo_ErrOther "EOF"))
  ∧ Secret <$> stored "c1" (snd created) = Some "#s3cr3t"
  ∧ fst deleted = Some (mgo_ErrOther "EOF")
  ∧ stored "c1" (snd deleted) = None.
Proof. repeat split; reflexivity. Qed.

(** ** What a write leaves alone *)

Section WriteFacts.
Context {Doc : Type} (key : Doc → string).
Implicit Types (sel : Doc → bool) (d : Doc) (docs : list Doc) (k : string).

Lemma Update_length sel d docs docs' :
  mgo.Update key sel d docs = Ok docs' → length docs' = length docs.
Proof.
  unfold mgo.Update. destruct (List.find sel docs); [|discriminate].
  destruct (negb _ && _); [discriminate|]. intros [= <-].
  apply length_replace_first.
Qed.

Lemma Insert_find k d docs docs' x :
  mgo.Insert key d docs = Ok docs' →
  List.find (mgo.has_key key k) docs = Some x →
  List.find (mgo.has_key key k) docs' = Some x.
Proof.
  unfold mgo.Insert. destruct (existsb _ docs); [discriminate|]. intros [= <-].
  induction docs as [|y rest IH]; simpl; [discriminate|].
  destruct (mgo.has_key key k y); [done | exact IH].
Qed.
End WriteFacts.

Lemma Update_id_find k k' d cs cs' :
  mgo.Update ID (collection.sel {["id" := QEq (VString k)]}) d cs = Ok cs' →
  ID d = k → k' ≠ k →
  List.find (mgo.has_key ID k') cs' = List.find (mgo.has_key ID k') cs.
Proof.
  unfold mgo.Update. destruct (List.find _ cs); [|discriminate].
  destruct (negb _ && _); [discriminate|]. intros [= <-] Hk Hne.
  rewrite (replace_first_pointwise _ _ _ _ (sel_id k)).
  by apply find_replace_first_other.
Qed.

Lemma Remove_id_find k k' cs cs' :
  mgo.Remove (collection.sel {["id" := QEq (VString k)]}) cs = Ok cs' →
  k' ≠ k →
  List.find (mgo.has_key ID k') cs' = List.find (mgo.has_key ID k') cs.
Proof.
  unfold mgo.Remove. destruct (List.find _ cs); [|discriminate]. intros [= <-] Hne.
  rewrite (remove_first_pointwise _ _ _ (sel_id k)).
  by apply find_remove_first_other.
Qed.

Lemma on_clients_emit Q p : preserves (on_clients Q) (emit p).
Proof. by intros w. Qed.

Lemma on_clients_time_Now Q : preserves (on_clients Q) time_Now.
Proof. by intros w. Qed.

Lemma on_clients_uuid_New Q : preserves (on_clients Q) uuid_New.
Proof. by intros w. Qed.

Lemma on_clients_roundtrip Q : preserves (on_clients Q) roundtrip.
Proof. by intros w. Qed.

Lemma on_clients_hasher_Hash Q h s : preserves (on_clients Q) (hasher_Hash h s).
Proof. by intros w. Qed.

Lemma on_clients_read {A} Q (f : list Client → result A) :
  preserves (on_clients Q) (collection.read f).
Proof.
  apply preserves_bind; [apply on_clients_roundtrip|].
  intros [e|]; [apply preserves_ret | by intros w].
Qed.

Lemma on_clients_write Q f :
  (∀ cs cs', Q cs → f cs = Ok cs' → Q cs') →
  preserves (on_clients Q) (collection.write f).
Proof.
  intros Hf. apply preserves_bind; [apply on_clients_roundtrip|].
  intros [[e|e]|]; [apply preserves_ret| |]; intros w HQ.
  all: destruct (f (clients w)) as [cs|e'] eqn:E; simpl; [|done].
  all: by apply (Hf (clients w)).
Qed.

Ltac on_clients_step :=
  first
    [ apply preserves_ret
    | apply on_clients_emit
    | apply on_clients_time_Now
    | apply on_clients_uuid_New
    | apply on_clients_hasher_Hash
    | apply on_clients_read
    | apply preserves_bind; [|intros ?]
    | match goal with
      | |- preserves _ (match ?x with _ => _ end) => destruct x
      end ].

Lemma on_clients_getConcrete Q c k :
  preserves (on_clients Q) (clientMongoManager.getConcrete c k).
Proof. unfold clientMongoManager.getConcrete, collection.Find_One. repeat on_clients_step. Qed.

Lemma on_clients_Update Q c k u :
  (∀ d cs cs', ID d = k → Q cs →
     mgo.Update ID (collection.sel {["id" := QEq (VString k)]}) d cs = Ok cs' → Q cs') →
  preserves (on_clients Q) (clientMongoManager.Update c k u).
Proof.
  intros HQ. unfold clientMongoManager.Update, collection.Update.
  apply preserves_bind; [apply on_clients_getConcrete|]. intros [cur err].
  cbv zeta.
  repeat first
    [ apply on_clients_write; intros cs cs' Hcs Hup;
      eapply HQ; [|exact Hcs|exact Hup]; reflexivity
    | on_clients_step ].
Qed.

Lemma on_clients_Delete Q c k :
  (∀ cs cs', Q cs →
     mgo.Remove (collection.sel {["id" := QEq (VString k)]}) cs = Ok cs' → Q cs') →
  preserves (on_clients Q) (clientMongoManager.Delete c k).
Proof.
  intros HQ. unfold clientMongoManager.Delete, collection.Remove.
  repeat first [ apply on_clients_write; exact HQ | on_clients_step ].
Qed.

Lemma on_clients_Create Q c C :
  (∀ d cs cs', Q cs → mgo.Insert ID d cs = Ok cs' → Q cs') →
  preserves (on_clients Q) (clientMongoManager.Create c C).
Proof.
  intros HQ. unfold clientMongoManager.Create, collection.Insert.
  repeat first [ apply on_clients_write; apply HQ | on_clients_step ].
Qed.

(** Whatever the engine, the clock and the hasher do: [Update] changes no
    client but the one stored under the ID it is given, and never the
    number of stored clients; [Delete] changes no client stored under
    another ID; [Create] changes no client that is stored. *)
Theorem writes_touch_one_client c w :
  (∀ k u k', k' ≠ k →
     stored k' (snd (clientMongoManager.Update c k u w)) = stored k' w)
  ∧ (∀ k u, length (clients (snd (clientMongoManager.Update c k u w)))
            = length (clients w))
  ∧ (∀ k k', k' ≠ k →
       stored k' (snd (clientMongoManager.Delete c k w)) = stored k' w)
  ∧ (∀ C k' cl, stored k' w = Some cl →
       stored k' (snd (clientMongoManager.Create c C w)) = Some cl).
Proof.
  split; [|split; [|split]].
  - intros k u k' Hne.
    apply (on_clients_Update (λ cs, List.find (mgo.has_key ID k') cs = stored k' w) c k u);
      [|done].
    intros d cs cs' Hd Hcs Hup. rewrite <- Hcs. by apply (Update_id_find k k' d).
  - intros k u.
    apply (on_clients_Update (λ cs, length cs = length (clients w)) c k u); [|done].
    intros d cs cs' _ Hcs Hup. rewrite <- Hcs. exact (Update_length ID _ d cs cs' Hup).
  - intros k k' Hne.
    apply (on_clients_Delete (λ cs, List.find (mgo.has_key ID k') cs = stored k' w) c k);
      [|done].
    intros cs cs' Hcs Hrm. rewrite <- Hcs. by apply (Remove_id_find k).
  - intros C k' cl Hst.
    apply (on_clients_Create (λ cs, List.find (mgo.has_key ID k') cs = Some cl) c C);
      [|exact Hst].
    intros d cs cs' Hcs Hin. exact (Insert_find ID k' d cs cs' cl Hin Hcs).
Qed.

(** ** Listing without a filter *)

Lemma filter_all {A} (f : A → bool) (l : list A) :
  (∀ x, f x = true) → List.filter f l = l.
Proof.
  intros Hf. induction l as [|x l IH]; simpl; [done|]. by rewrite Hf, IH.
Qed.

(** On a healthy engine, [List] with a filter whose fields are all empty
    or false returns every stored client, in stored order. *)
Theorem List_no_filter c w :
  healthy w →
  fst (clientMongoManager.List c (mkListClientsRequest "" "" "" "" [] [] "" false false) w)
  = (clients w, None).
Proof.
  intros Hh. rewrite List_healthy by done. by rewrite filter_all.
Qed.

(** ** Scope grants *)

Lemma edited_record (cur edited : Client) k t :
  ID edited = k → Secret edited = Secret cur →
  with_Secret (Secret cur) (with_UpdateTime t (with_ID k edited))
  = with_UpdateTime t edited.
Proof. destruct edited. simpl. by intros -> ->. Qed.

Lemma GrantScopes_healthy grant c k scopes w cur :
  healthy w → stored k w = Some cur →
  ID (grant scopes cur) = k → Secret (grant scopes cur) = Secret cur →
  let out := GrantScopes grant c k scopes w in
  let r := with_UpdateTime (clockAt (env w) (S (S (tick w)))) (grant scopes cur) in
  fst out = (r, None) ∧ stored k (snd out) = Some r.
Proof.
  intros Hh Hst Hid Hsec. unfold GrantScopes, bind, emit. simpl.
  step_getConcrete Hh.
  change (stored k (set_logs _ w)) with (stored k w) in Hget.
  rewrite Hst in Hget. injection Hget as -> ->. rewrite Hid.
  destruct (Update_healthy c k (grant scopes cur) w0 (healthy_env w w0 H1 Hh))
    as [_ Hup].
  rewrite (stored_clients w w0 k H), Hst in Hup. cbv zeta in Hup.
  rewrite Hsec, bool_decide_eq_true_2 in Hup by done. simpl in Hup.
  rewrite H1, H2, <- Hsec, (edited_record _ _ k) in Hup by done.
  destruct Hup as (Hres & Hnew & _). done.
Qed.

Lemma RemoveScopes_healthy revoke c k scopes w cur :
  healthy w → stored k w = Some cur →
  ID (revoke scopes cur) = k → Secret (revoke scopes cur) = Secret cur →
  let out := RemoveScopes revoke c k scopes w in
  let r := with_UpdateTime (clockAt (env w) (S (S (tick w)))) (revoke scopes cur) in
  fst out = (r, None) ∧ stored k (snd out) = Some r.
Proof.
  intros Hh Hst Hid Hsec. unfold RemoveScopes, bind, emit. simpl.
  step_getConcrete Hh.
  change (stored k (set_logs _ w)) with (stored k w) in Hget.
  rewrite Hst in Hget. injection Hget as -> ->. rewrite Hid.
  destruct (Update_healthy c k (revoke scopes cur) w0 (healthy_env w w0 H1 Hh))
    as [_ Hup].
  rewrite (stored_clients w w0 k H), Hst in Hup. cbv zeta in Hup.
  rewrite Hsec, bool_decide_eq_true_2 in Hup by done. simpl in Hup.
  rewrite H1, H2, <- Hsec, (edited_record _ _ k) in Hup by done.
  destruct Hup as (Hres & Hnew & _). done.
Qed.

(** On a healthy engine, with a scope edit that leaves the ID and the
    secret of the record alone: [GrantScopes] and [RemoveScopes] of a
    stored client store and return the edited record with its update-time
    set, and with the stored hash as it was.  The hasher is not asked: the
    stored hash is never hashed again. *)
Theorem scope_grants_keep_secret c k scopes w cur (edit : list string → Client → Client) :
  healthy w → stored k w = Some cur →
  ID (edit scopes cur) = k → Secret (edit scopes cur) = Secret cur →
  let r := with_UpdateTime (clockAt (env w) (S (S (tick w)))) (edit scopes cur) in
  Secret r = Secret cur
  ∧ (let out := GrantScopes edit c k scopes w in
     fst out = (r, None) ∧ stored k (snd out) = Some r)
  ∧ (let out := RemoveScopes edit c k scopes w in
     fst out = (r, None) ∧ stored k (snd out) = Some r).
Proof.
  intros Hh Hst Hid Hsec r. split; [exact Hsec|]. split.
  - by apply GrantScopes_healthy.
  - by apply RemoveScopes_healthy.
Qed.

(** ** The migrated secret *)

(** On a healthy engine: when the legacy function authenticates a stored
    client that is neither public nor disabled, and the digest [d] of the
    presented secret is not blank and not what is stored already, then what
    [AuthenticateMigration] stores as the secret is a digest of [d], not
    [d].  With a hasher that keeps its contract, [Authenticate] afterwards
    accepts [d] and no other secret: the secret that was presented is
    refused. *)
Theorem AuthenticateMigration_rehashes c `{!HasherLaws (clientMongoManager.hasher c)}
    currentAuth k secret w client w1 cur d d2 :
  currentAuth
    (snd (emit (SpanStart clientMongoManager.manager "AuthenticateMigration" None) w))
    = ((client, true), w1) →
  healthy w1 → stored k w1 = Some cur →
  Public client = false → Disabled client = false →
  Hash (clientMongoManager.hasher c) (entropyAt (env w1) (tick w1)) secret = Ok d →
  d ≠ "" → Secret cur ≠ d →
  Hash (clientMongoManager.hasher c) (entropyAt (env w1) (S (S (S (tick w1))))) d = Ok d2 →
  let out := clientMongoManager.AuthenticateMigration c currentAuth k secret w in
  let r := with_Secret d2
             (with_UpdateTime (clockAt (env w1) (S (S (tick w1)))) (with_ID k client)) in
  fst out = (r, None)
  ∧ stored k (snd out) = Some r
  ∧ fst (clientMongoManager.Authenticate c k d (snd out)) = (r, None)
  ∧ (∀ s, s ≠ d → ∃ e, fst (clientMongoManager.Authenticate c k s (snd out))
                       = (zeroClient, Some e))
  ∧ ∃ e, fst (clientMongoManager.Authenticate c k secret (snd out))
         = (zeroClient, Some e).
Proof.
  intros Hauth Hh Hst Hpub Hdis Hd Hblank Hne Hd2.
  unfold clientMongoManager.AuthenticateMigration, bind.
  simpl in Hauth |- *. rewrite Hauth. simpl.
  rewrite Hpub, Hdis, andb_false_r. simpl.
  unfold hasher_Hash. simpl. rewrite Hd.
  destruct (Update_healthy c k (with_Secret d client) (next_tick w1) Hh) as [Henv Hup].
  change (stored k (next_tick w1)) with (stored k w1) in Hup.
  rewrite Hst in Hup. cbv zeta in Hup. simpl in Hup, Henv.
  rewrite (bool_decide_eq_false_2 (Secret cur = d)) in Hup by done.
  rewrite (bool_decide_eq_false_2 (d = "")) in Hup by done. simpl in Hup.
  rewrite Hd2 in Hup. destruct Hup as (Hres & Hnew & _).
  split; [exact Hres|]. split; [exact Hnew|].
  assert (Hh' : healthy
            (snd (clientMongoManager.Update c k (with_Secret d client) (next_tick w1))))
    by (by apply (healthy_env w1)).
  split.
  - rewrite Authenticate_healthy, Hnew by done. simpl. rewrite Hpub, Hdis.
    by rewrite (Compare_Hash _ _ _ Hd2).
  - assert (Hrej : ∀ s, s ≠ d →
              ∃ e, fst (clientMongoManager.Authenticate c k s
                          (snd (clientMongoManager.Update c k (with_Secret d client)
                                  (next_tick w1))))
                   = (zeroClient, Some e)).
    { intros s Hs. rewrite Authenticate_healthy, Hnew by done. simpl.
      rewrite Hpub, Hdis.
      destruct (Compare _ d2 s) as [e|] eqn:Hcmp; [by eexists|].
      exfalso. apply Hs. by eapply Compare_sound. }
    split; [exact Hrej|]. apply Hrej.
    intros Heq. by apply (Hash_not_plain _ _ _ Hd).
Qed.

(** * Connection settings *)

Lemma range_assign_from body i n (arr : list string) :
  (i + n = length arr)%nat →
  config.range_assign body i n arr = (take i arr ++ (body <$> drop i arr))%list.
Proof.
  revert i arr. induction n as [|n IH]; intros i arr Hlen; simpl.
  - replace i with (length arr) by lia.
    by rewrite firstn_all, drop_all, app_nil_r.
  - destruct (arr !! i) as [x|] eqn:Hx.
    2:{ apply lookup_ge_None in Hx. lia. }
    rewrite IH by (rewrite length_insert; lia).
    rewrite (take_S_r (<[i:=body x]> arr) i (body x))
      by (apply list_lookup_insert_eq; lia).
    rewrite take_insert_ge by lia.
    rewrite (drop_S arr x i Hx). rewrite fmap_cons.
    rewrite drop_insert_lt by lia. by rewrite <- app_assoc.
Qed.

Lemma range_assign_all body (arr : list string) :
  config.range_assign body 0 (length arr) arr = body <$> arr.
Proof. by rewrite range_assign_from. Qed.

(** The host names [ConnectionInfo] works on: those of the configuration,
    or the package's default when it has none. *)
Lemma ConnectionInfo_hosts cfg h :
  let hosts := if bool_decide (config.len (config.Hostnames cfg) h = 0%nat)
               then config.defaultHosts else config.Hostnames cfg in
  let out := config.ConnectionInfo cfg h in
  config.Addrs (fst (fst out)) = hosts
  ∧ config.Hostnames (snd (fst out)) = hosts
  ∧ config.Port (snd (fst out)) = config.Port cfg
  ∧ config.elements hosts (snd out) =
      if bool_decide (0 < config.Port cfg)%N
      then (λ host, config.Sprintf_host_port host (config.Port cfg))
             <$> config.elements hosts h
      else config.elements hosts h.
Proof.
  intros hosts out. unfold out, config.ConnectionInfo. fold hosts. simpl.
  split; [done|]. split; [done|]. split; [done|].
  destruct (bool_decide (0 < config.Port cfg)%N); [|done].
  assert (Hsome : ∃ l, hosts = Some l).
  { unfold hosts. case_bool_decide as Hlen; [by eexists|].
    destruct (config.Hostnames cfg); [by eexists|]. done. }
  destruct Hsome as [l Hl]. rewrite Hl. simpl.
  rewrite lookup_insert_eq. simpl. unfold config.len. simpl.
  apply range_assign_all.
Qed.

(** [ConnectionInfo] gives every host the port: with a port above zero each
    address is the host name followed by a colon and the port in decimal,
    one address per host name and in their order; with port zero the
    addresses are the host names.  The host names are those of the
    configuration, or the package's default when it has none.  The
    addresses are the configuration's own host list, rewritten in place. *)
Theorem ConnectionInfo_addresses cfg h :
  let hosts := if bool_decide (config.len (config.Hostnames cfg) h = 0%nat)
               then config.defaultHosts else config.Hostnames cfg in
  let out := config.ConnectionInfo cfg h in
  let dialInfo := fst (fst out) in
  config.elements (config.Addrs dialInfo) (snd out) =
    (if bool_decide (0 < config.Port cfg)%N
     then (λ host, host +:+ ":" +:+ pretty (config.Port cfg)) <$> config.elements hosts h
     else config.elements hosts h)
  ∧ config.len (config.Addrs dialInfo) (snd out) = config.len hosts h
  ∧ config.Addrs dialInfo = config.Hostnames (snd (fst out)).
Proof.
  intros hosts out dialInfo.
  destruct (ConnectionInfo_hosts cfg h) as (Ha & Hc & _ & He).
  fold hosts out in Ha, Hc, He. unfold dialInfo. rewrite Ha, Hc.
  split; [exact He|]. split; [|done].
  unfold config.len. rewrite He.
  destruct (bool_decide (0 < config.Port cfg)%N); [by rewrite length_fmap | done].
Qed.

(** [ConnectionInfo] is not to be called twice on one configuration: the
    second call appends the port to addresses that carry it already.  And
    a configuration that works on the package's default host list (the
    default configuration, or one that names no host) shares that list
    with the package: after [ConnectionInfo] on it, the host list a later
    [DefaultConfig] starts from carries the port too. *)
Theorem ConnectionInfo_twice cfg h :
  (0 < config.Port cfg)%N →
  let hosts := if bool_decide (config.len (config.Hostnames cfg) h = 0%nat)
               then config.defaultHosts else config.Hostnames cfg in
  let first := config.ConnectionInfo cfg h in
  let second := config.ConnectionInfo (snd (fst first)) (snd first) in
  let port := pretty (config.Port cfg) in
  config.elements (config.Addrs (fst (fst second))) (snd second)
  = (λ host, (host +:+ ":" +:+ port) +:+ ":" +:+ port) <$> config.elements hosts h
  ∧ (hosts = config.defaultHosts →
     config.elements (config.Hostnames config.DefaultConfig) (snd first)
     = (λ host, host +:+ ":" +:+ port) <$> config.elements config.defaultHosts h).
Proof.
  intros Hport hosts first second port.
  destruct (ConnectionInfo_hosts cfg h) as (Ha & Hc & Hp & He).
  fold hosts first in Ha, Hc, Hp, He.
  rewrite (bool_decide_eq_true_2 _ Hport) in He.
  destruct (ConnectionInfo_hosts (snd (fst first)) (snd first)) as (Ha2 & _ & _ & He2).
  fold second in Ha2, He2. rewrite Hc in Ha2. rewrite Hp, Hc in He2.
  rewrite (bool_decide_eq_true_2 _ Hport) in He2.
  assert (Hsame : (if bool_decide (config.len hosts (snd first) = 0%nat)
                   then config.defaultHosts else hosts) = hosts).
  { case_bool_decide as Hlen; [|done].
    unfold config.len in Hlen. rewrite He, length_fmap in Hlen.
    unfold hosts in *. case_bool_decide as Hlen0; [done|].
    unfold config.len in Hlen0. done. }
  rewrite Hsame in Ha2, He2. split.
  - rewrite Ha2, He2, He. rewrite <- list_fmap_compose. done.
  - intros Hdefault. rewrite Hdefault in He. exact He.
Qed.

(** The dial settings [ConnectionInfo] fills in beside the addresses: the
    database is the configured one, or ["oauth2"] when none is configured,
    and never blank; the user name, password, authentication database and
    replica set are passed on; the TLS dialer is installed exactly when SSL
    is asked for. *)
Theorem ConnectionInfo_settings cfg h :
  let dialInfo := fst (fst (config.ConnectionInfo cfg h)) in
  config.Database dialInfo
    = (if bool_decide (config.DatabaseName cfg = "") then "oauth2"
       else config.DatabaseName cfg)
  ∧ config.Database dialInfo ≠ ""
  ∧ config.d_Username dialInfo = config.Username cfg
  ∧ config.d_Password dialInfo = config.Password cfg
  ∧ config.Source dialInfo = config.AuthDB cfg
  ∧ config.ReplicaSetName dialInfo = config.Replset cfg
  ∧ config.DialServer dialInfo = config.SSL cfg.
Proof.
  intros dialInfo. unfold dialInfo, config.ConnectionInfo. simpl.
  split; [done|]. split; [|done].
  case_bool_decide as Hdb; [discriminate | done].
Qed.

Lemma int64_wraps z :
  - 2 ^ 63 ≤ config.int64 z < 2 ^ 63 ∧ ∃ k, config.int64 z = z - 2 ^ 64 * k.
Proof.
  unfold config.int64. split.
  - pose proof (Z.mod_pos_bound (z + 2 ^ 63) (2 ^ 64)). lia.
  - exists ((z + 2 ^ 63) / 2 ^ 64). rewrite Z.mod_eq by lia. lia.
Qed.

(** The dial timeout is the configured number of seconds, ten when none is
    configured, times the nanoseconds of a second, in 64 bits: for every
    timeout an unsigned 64-bit integer holds, it is the signed 64-bit
    integer that differs from that product by a multiple of 2^64.  Up to
    9223372036 seconds it is the product itself and positive.  Beyond, it
    is never the product: from 9223372037 to 18446744073 seconds it is
    the product less 2^64 and negative, and past that it wraps further. *)
Theorem ConnectionInfo_timeout cfg h :
  0 ≤ config.Timeout cfg < 2 ^ 64 →
  let seconds := if bool_decide (config.Timeout cfg = 0) then 10
                 else config.Timeout cfg in
  let timeout := config.d_Timeout (fst (fst (config.ConnectionInfo cfg h))) in
  config.Timeout (snd (fst (config.ConnectionInfo cfg h))) = seconds
  ∧ - 2 ^ 63 ≤ timeout < 2 ^ 63
  ∧ (∃ k, timeout = 1000000000 * seconds - 2 ^ 64 * k)
  ∧ (seconds ≤ 9223372036 → timeout = 1000000000 * seconds ∧ 0 < timeout)
  ∧ (9223372036 < seconds → timeout ≠ 1000000000 * seconds)
  ∧ (9223372036 < seconds < 18446744074 →
     timeout = 1000000000 * seconds - 2 ^ 64 ∧ timeout < 0).
Proof.
  intros Hrange seconds timeout. split; [done|].
  assert (Hs : 0 < seconds < 2 ^ 64).
  { unfold seconds. case_bool_decide; lia. }
  assert (Ht : timeout = config.int64 (1000000000 * config.int64 seconds)) by done.
  destruct (int64_wraps seconds) as [Hb1 [k1 Hk1]].
  destruct (int64_wraps (1000000000 * config.int64 seconds)) as [Hb2 [k2 Hk2]].
  rewrite <- Ht in Hb2, Hk2. rewrite Hk1 in Hk2. clear Ht Hk1 Hb1.
  split; [exact Hb2|]. split; [exists (1000000000 * k1 + k2); lia|].
  assert (Hk : ∃ k, timeout = 1000000000 * seconds - 2 ^ 64 * k)
    by (exists (1000000000 * k1 + k2); lia).
  clear Hk2. destruct Hk as [k Hk].
  split; [|split]; intros Hcase; lia.
Qed.

(** The timeout where the product wraps: one second past the last exact
    one it is negative, at 2^63 seconds it is zero, and at 18446744074
    seconds it is positive again, under a third of a second. *)
Example ConnectionInfo_timeout_wrapped :
  let timeout seconds :=
    config.d_Timeout
      (fst (fst (config.ConnectionInfo (Fixtures.patient seconds) Fixtures.memory))) in
  timeout 9223372036 = 9223372036000000000
  ∧ timeout 9223372037 = -9223372036709551616
  ∧ timeout (2 ^ 63) = 0
  ∧ timeout 18446744074 = 290448384.
Proof. repeat split; reflexivity. Qed.

(** * Sessions of the request manager *)

Lemma GetBySignature_healthy r entityName signature w :
  healthy w →
  requestMongoManager.GetBySignature r entityName signature w =
    (match stored_request entityName signature w with
     | Some req => (req, None)
     | None => (requestMongoManager.zeroRequest, Some fosite_ErrNotFound)
     end,
     next_tick (set_logs (logs w ++ [SpanStart requestMongoManager.manager
                                       "GetBySignature" None]) w)).
Proof.
  intros Hh. unfold requestMongoManager.GetBySignature, bind, emit, roundtrip, ret.
  simpl. rewrite (healthy_fault w Hh). unfold mgo.One, stored_request. simpl.
  destruct (List.find _ _); done.
Qed.

Lemma DeleteBySignature_healthy r entityName signature w :
  healthy w →
  let out := requestMongoManager.DeleteBySignature r entityName signature w in
  env (snd out) = env w ∧ clients (snd out) = clients w
  ∧ match stored_request entityName signature w with
    | Some _ =>
        fst out = None
        ∧ requests (snd out) entityName
          = mgo.remove_first (requestMongoManager.has_signature signature)
              (requests w entityName)
    | None => fst out = Some fosite_ErrNotFound ∧ requests (snd out) = requests w
    end.
Proof.
  intros Hh. unfold requestMongoManager.DeleteBySignature, bind, emit, roundtrip, ret.
  simpl. rewrite (healthy_fault w Hh). unfold mgo.Remove, stored_request. simpl.
  destruct (List.find _ _); simpl; [|done].
  split; [done|]. split; [done|]. split; [done|].
  by rewrite bool_decide_eq_true_2.
Qed.

(** With the request store as the spec has it, on a healthy engine and
    with the unique index on signatures in place: deleting a stored PKCE or
    OpenID Connect session succeeds, after which the session is NotFound
    for [Get] and for a second [Delete]; deleting under a signature that
    has no session is NotFound.  No client is touched. *)
Theorem session_Delete_then_Get r signature session requester w :
  healthy w →
  NoDup (r_Signature <$> requests w EntityPKCESessions) →
  NoDup (r_Signature <$> requests w EntityOpenIDSessions) →
  let pkce := requestMongoManager.DeletePKCERequestSession r signature w in
  let oidc := requestMongoManager.DeleteOpenIDConnectSession r signature w in
  clients (snd pkce) = clients w ∧ clients (snd oidc) = clients w
  ∧ match stored_request EntityPKCESessions signature w with
    | Some _ =>
        fst pkce = None
        ∧ fst (requestMongoManager.GetPKCERequestSession r signature session (snd pkce))
          = (None, Some fosite_ErrNotFound)
        ∧ fst (requestMongoManager.DeletePKCERequestSession r signature (snd pkce))
          = Some fosite_ErrNotFound
    | None => fst pkce = Some fosite_ErrNotFound
    end
  ∧ match stored_request EntityOpenIDSessions signature w with
    | Some _ =>
        fst oidc = None
        ∧ fst (requestMongoManager.GetOpenIDConnectSession r signature requester (snd oidc))
          = (None, Some fosite_ErrNotFound)
        ∧ fst (requestMongoManager.DeleteOpenIDConnectSession r signature (snd oidc))
          = Some fosite_ErrNotFound
    | None => fst oidc = Some fosite_ErrNotFound
    end.
Proof.
  intros Hh Hup Huo pkce oidc.
  assert (Hpk : clients (snd pkce) = clients w
    ∧ match stored_request EntityPKCESessions signature w with
      | Some _ =>
          fst pkce = None ∧ healthy (snd pkce)
          ∧ stored_request EntityPKCESessions signature (snd pkce) = None
      | None => fst pkce = Some fosite_ErrNotFound
      end).
  { unfold pkce, requestMongoManager.DeletePKCERequestSession, bind, emit. simpl.
    match goal with
    | |- context [requestMongoManager.DeleteBySignature ?r ?e ?s ?w0] =>
        destruct (DeleteBySignature_healthy r e s w0 Hh) as (Henv & Hcl & Hd);
        destruct (requestMongoManager.DeleteBySignature r e s w0) as [err w1]
    end.
    simpl in Henv, Hcl, Hd.
    change (stored_request EntityPKCESessions signature (set_logs _ w))
      with (stored_request EntityPKCESessions signature w) in Hd.
    destruct (stored_request EntityPKCESessions signature w).
    - destruct Hd as [-> Hreq]. simpl. split; [done|]. split; [done|].
      split; [by apply (healthy_env w)|].
      unfold stored_request. rewrite Hreq. by apply find_remove_first_same.
    - destruct Hd as [-> Hreq]. simpl. done. }
  assert (Hoi : clients (snd oidc) = clients w
    ∧ match stored_request EntityOpenIDSessions signature w with
      | Some _ =>
          fst oidc = None ∧ healthy (snd oidc)
          ∧ stored_request EntityOpenIDSessions signature (snd oidc) = None
      | None => fst oidc = Some fosite_ErrNotFound
      end).
  { unfold oidc, requestMongoManager.DeleteOpenIDConnectSession, bind, emit. simpl.
    match goal with
    | |- context [requestMongoManager.DeleteBySignature ?r ?e ?s ?w0] =>
        destruct (DeleteBySignature_healthy r e s w0 Hh) as (Henv & Hcl & Hd);
        destruct (requestMongoManager.DeleteBySignature r e s w0) as [err w1]
    end.
    simpl in Henv, Hcl, Hd.
    change (stored_request EntityOpenIDSessions signature (set_logs _ w))
      with (stored_request EntityOpenIDSessions signature w) in Hd.
    destruct (stored_request EntityOpenIDSessions signature w).
    - destruct Hd as [-> Hreq]. simpl. split; [done|]. split; [done|].
      split; [by apply (healthy_env w)|].
      unfold stored_request. rewrite Hreq. by apply find_remove_first_same.
    - destruct Hd as [-> Hreq]. simpl. done. }
  destruct Hpk as [Hc1 Hpk]. destruct Hoi as [Hc2 Hoi].
  split; [exact Hc1|]. split; [exact Hc2|]. split.
  - destruct (stored_request EntityPKCESessions signature w); [|exact Hpk].
    destruct Hpk as (Hres & Hh1 & Hgone). split; [exact Hres|]. split.
    + unfold requestMongoManager.GetPKCERequestSession, bind, emit. simpl.
      rewrite GetBySignature_healthy by exact Hh1.
      change (stored_request EntityPKCESessions signature (set_logs _ (snd pkce)))
        with (stored_request EntityPKCESessions signature (snd pkce)).
      by rewrite Hgone.
    + unfold requestMongoManager.DeletePKCERequestSession, bind, emit. simpl.
      match goal with
      | |- context [requestMongoManager.DeleteBySignature ?r ?e ?s ?w0] =>
          destruct (DeleteBySignature_healthy r e s w0 Hh1) as (_ & _ & Hd);
          destruct (requestMongoManager.DeleteBySignature r e s w0) as [err w1]
      end.
      simpl in Hd.
      change (stored_request EntityPKCESessions signature (set_logs _ (snd pkce)))
        with (stored_request EntityPKCESessions signature (snd pkce)) in Hd.
      rewrite Hgone in Hd. destruct Hd as [-> _]. done.
  - destruct (stored_request EntityOpenIDSessions signature w); [|exact Hoi].
    destruct Hoi as (Hres & Hh1 & Hgone). split; [exact Hres|]. split.
    + unfold requestMongoManager.GetOpenIDConnectSession, bind, emit. simpl.
      rewrite GetBySignature_healthy by exact Hh1.
      change (stored_request EntityOpenIDSessions signature (set_logs _ (snd oidc)))
        with (stored_request EntityOpenIDSessions signature (snd oidc)).
      by rewrite Hgone.
    + unfold requestMongoManager.DeleteOpenIDConnectSession, bind, emit. simpl.
      match goal with
      | |- context [requestMongoManager.DeleteBySignature ?r ?e ?s ?w0] =>
          destruct (DeleteBySignature_healthy r e s w0 Hh1) as (_ & _ & Hd);
          destruct (requestMongoManager.DeleteBySignature r e s w0) as [err w1]
      end.
      simpl in Hd.
      change (stored_request EntityOpenIDSessions signature (set_logs _ (snd oidc)))
        with (stored_request EntityOpenIDSessions signature (snd oidc)) in Hd.
      rewrite Hgone in Hd. destruct Hd as [-> _]. done.
Qed.

(** * The further properties at work *)

Lemma unique_index_invariant_witness :
  let c := Sample.manager in
  let w := Sample.with_clients [Sample.c1] Sample.quiet in
  unique_ids w
  ∧ unique_ids (snd (clientMongoManager.Create c Sample.kiosk w))
  ∧ unique_ids (snd (clientMongoManager.Migrate c Sample.legacy1 w)).
Proof.
  intros c w.
  assert (Hu : unique_ids w) by apply NoDup_singleton.
  destruct (unique_index_invariant c w Hu) as (Hcreate & _ & Hmigrate & _).
  split; [exact Hu|]. split; [apply Hcreate | apply Hmigrate].
Defined.

Lemma engine_fault_reported_witness :
  let c := Sample.manager in
  let w := Sample.with_clients [Sample.c1] (Fixtures.reply_lost_at 0) in
  let eof := mgo_ErrOther "EOF" in
  faultAt (env w) (tick w) = Some (ReplyLost eof)
  ∧ fst (clientMongoManager.Get c "c1" w) = (zeroClient, Some eof)
  ∧ fst (clientMongoManager.Delete c "c1" w) = Some eof
  ∧ fst (clientMongoManager.List c (Sample.scoped [] []) w) = ([], Some eof).
Proof.
  intros c w eof.
  assert (Hf : faultAt (env w) (tick w) = Some (ReplyLost eof)) by reflexivity.
  split; [exact Hf|].
  exact (engine_fault_reported c "c1" (Sample.scoped [] []) w (ReplyLost eof) Hf).
Defined.

Lemma failed_writes_store_nothing_witness :
  let c := Sample.manager in
  let w := Sample.with_clients [Sample.c1] (Sample.outage_at 1) in
  let out := clientMongoManager.Create c (with_Secret "s3cr3t" Sample.legacy1) w in
  replies_arrive w
  ∧ snd (fst out) = Some (mgo_ErrOther "no reachable servers")
  ∧ clients (snd out) = clients w.
Proof.
  intros c w out.
  assert (Hr : replies_arrive w).
  { intros n err. simpl. destruct (bool_decide (n = 1%nat)); discriminate. }
  split; [exact Hr|]. split; [reflexivity|].
  destruct (failed_writes_store_nothing c w Hr) as [Hcreate _].
  apply Hcreate. discriminate.
Defined.

Lemma absent_is_NotFound_witness :
  let c := Sample.manager in
  let w := Sample.with_clients [Sample.c1] Sample.quiet in
  healthy w ∧ stored "c2" w = None
  ∧ fst (clientMongoManager.Get c "c2" w) = (zeroClient, Some fosite_ErrNotFound)
  ∧ fst (clientMongoManager.GetClient c "c2" w) = (None, Some fosite_ErrNotFound).
Proof.
  intros c w.
  assert (Hh : healthy w) by (intros n; reflexivity).
  destruct (absent_is_NotFound c "c2" w Hh eq_refl) as (Hget & Hclient & _).
  split; [exact Hh|]. split; [reflexivity|]. split; [exact Hget | exact Hclient].
Defined.

Lemma Create_conflict_witness :
  let c := Sample.manager in
  let w := Sample.with_clients [Sample.c1] Sample.quiet in
  let out := clientMongoManager.Create c Sample.legacy1 w in
  healthy w ∧ stored "c1" w = Some Sample.c1
  ∧ clients (snd out) = clients w
  ∧ fst (clientMongoManager.Get c "c1" (snd out)) = (Sample.c1, None).
Proof.
  intros c w out.
  assert (Hh : healthy w) by (intros n; reflexivity).
  assert (Hid : ID Sample.legacy1 ≠ "") by discriminate.
  destruct (Create_conflict c Sample.legacy1 w Sample.c1 Hh Hid eq_refl)
    as (_ & Hcl & Hget).
  split; [exact Hh|]. split; [reflexivity|]. split; [exact Hcl | exact Hget].
Defined.

Lemma Create_then_Authenticate_witness :
  let c := Sample.manager in
  let C := with_Secret "s3cr3t" Sample.c1 in
  let w := Sample.empty Sample.quiet in
  let w1 := snd (clientMongoManager.Create c C w) in
  healthy w
  ∧ fst (clientMongoManager.Authenticate c "c1" "s3cr3t" w1) = (Sample.c1, None)
  ∧ ∀ secret, secret ≠ "s3cr3t" →
      ∃ e, fst (clientMongoManager.Authenticate c "c1" secret w1) = (zeroClient, Some e).
Proof.
  intros c C w w1.
  assert (Hh : healthy w) by (intros n; reflexivity).
  assert (Hc : clientMongoManager.Create c C w = ((Sample.c1, None), w1)) by reflexivity.
  split; [exact Hh|].
  exact (@Create_then_Authenticate c prefixHasher_laws C w Sample.c1 w1 Hh Hc).
Defined.

Lemma Update_then_Authenticate_witness :
  let c := Sample.manager in
  let u := with_Secret "n3w" Sample.c1 in
  let w := Sample.with_clients [Sample.c1] Sample.quiet in
  let r := with_Secret "#n3w" (with_UpdateTime 1700000000 Sample.c1) in
  let w1 := snd (clientMongoManager.Update c "c1" u w) in
  healthy w
  ∧ fst (clientMongoManager.Authenticate c "c1" "n3w" w1) = (r, None)
  ∧ ∀ secret, secret ≠ "n3w" →
      ∃ e, fst (clientMongoManager.Authenticate c "c1" secret w1) = (zeroClient, Some e).
Proof.
  intros c u w r w1.
  assert (Hh : healthy w) by (intros n; reflexivity).
  assert (Hu : clientMongoManager.Update c "c1" u w = ((r, None), w1)) by reflexivity.
  split; [exact Hh|].
  exact (@Update_then_Authenticate c prefixHasher_laws "c1" u w Sample.c1 r w1
           Hh eq_refl Hu eq_refl eq_refl).
Defined.

Lemma List_no_filter_witness :
  let w := Sample.with_clients [Sample.c1; Sample.retired; Sample.kiosk] Sample.quiet in
  healthy w
  ∧ fst (clientMongoManager.List Sample.manager
           (mkListClientsRequest "" "" "" "" [] [] "" false false) w)
    = ([Sample.c1; Sample.retired; Sample.kiosk], None).
Proof.
  intros w.
  assert (Hh : healthy w) by (intros n; reflexivity).
  split; [exact Hh|]. exact (List_no_filter Sample.manager w Hh).
Defined.

Lemma scope_grants_keep_secret_witness :
  let c := Sample.manager in
  let w := Sample.with_clients [Sample.c1] Sample.quiet in
  let r := with_UpdateTime 1700000000 (Fixtures.appendScopes ["email"] Sample.c1) in
  let out := GrantScopes Fixtures.appendScopes c "c1" ["email"] w in
  healthy w
  ∧ Secret r = "#s3cr3t"
  ∧ Scopes r = ["openid"; "profile"; "email"]
  ∧ fst out = (r, None) ∧ stored "c1" (snd out) = Some r.
Proof.
  intros c w r out.
  assert (Hh : healthy w) by (intros n; reflexivity).
  destruct (scope_grants_keep_secret c "c1" ["email"] w Sample.c1 Fixtures.appendScopes
              Hh eq_refl eq_refl eq_refl) as (Hsec & Hgrant & _).
  split; [exact Hh|]. split; [exact Hsec|]. split; [reflexivity|]. exact Hgrant.
Defined.

Lemma AuthenticateMigration_rehashes_witness :
  let c := Sample.manager in
  let w := Sample.with_clients [Sample.legacy1] Sample.quiet in
  let w1 := snd (emit (SpanStart clientMongoManager.manager "AuthenticateMigration" None) w) in
  let out := clientMongoManager.AuthenticateMigration c Sample.legacyAuth "c1" "s3cr3t" w in
  let r := with_Secret "##s3cr3t" (with_UpdateTime 1700000000 Sample.legacy1) in
  healthy w1
  ∧ fst out = (r, None)
  ∧ stored "c1" (snd out) = Some r
  ∧ ∃ e, fst (clientMongoManager.Authenticate c "c1" "s3cr3t" (snd out))
         = (zeroClient, Some e).
Proof.
  intros c w w1 out r.
  assert (Hh : healthy w1) by (intros n; reflexivity).
  assert (Hblank : "#s3cr3t" ≠ "") by discriminate.
  assert (Hne : Secret Sample.legacy1 ≠ "#s3cr3t") by discriminate.
  destruct (@AuthenticateMigration_rehashes c prefixHasher_laws Sample.legacyAuth
              "c1" "s3cr3t" w Sample.legacy1 w1 Sample.legacy1 "#s3cr3t" "##s3cr3t"
              eq_refl Hh eq_refl eq_refl eq_refl eq_refl Hblank Hne eq_refl)
    as (Hres & Hst & _ & _ & Hrefused).
  split; [exact Hh|]. split; [exact Hres|]. split; [exact Hst | exact Hrefused].
Defined.

Lemma ConnectionInfo_twice_witness :
  let first := config.ConnectionInfo Fixtures.cluster Fixtures.memory in
  let second := config.ConnectionInfo (snd (fst first)) (snd first) in
  let again := config.ConnectionInfo config.DefaultConfig config.loaded in
  (0 < config.Port Fixtures.cluster)%N
  ∧ config.elements (config.Addrs (fst (fst second))) (snd second)
    = ["db1.example:27018:27018"; "db2.example:27018:27018"]
  ∧ config.elements (config.Hostnames config.DefaultConfig) (snd again)
    = ["localhost:27017"].
Proof.
  intros first second again.
  assert (Hp : (0 < config.Port Fixtures.cluster)%N) by reflexivity.
  assert (Hd : (0 < config.Port config.DefaultConfig)%N) by reflexivity.
  split; [exact Hp|]. split.
  - exact (proj1 (ConnectionInfo_twice Fixtures.cluster Fixtures.memory Hp)).
  - exact (proj2 (ConnectionInfo_twice config.DefaultConfig config.loaded Hd) eq_refl).
Defined.

Lemma ConnectionInfo_timeout_witness :
  let cfg := Fixtures.patient 18446744074 in
  let timeout := config.d_Timeout (fst (fst (config.ConnectionInfo cfg Fixtures.memory))) in
  0 ≤ config.Timeout cfg < 2 ^ 64
  ∧ - 2 ^ 63 ≤ timeout < 2 ^ 63
  ∧ (∃ k, timeout = 1000000000 * 18446744074 - 2 ^ 64 * k)
  ∧ timeout ≠ 1000000000 * 18446744074.
Proof.
  intros cfg timeout.
  assert (Hr : 0 ≤ config.Timeout cfg < 2 ^ 64) by (simpl; lia).
  split; [exact Hr|].
  destruct (ConnectionInfo_timeout cfg Fixtures.memory Hr)
    as (_ & Hbounds & Hwrap & _ & Hbeyond & _).
  split; [exact Hbounds|]. split; [exact Hwrap|].
  apply Hbeyond. simpl. lia.
Defined.

Lemma session_Delete_then_Get_witness :
  let r := Sample.sessions in
  let w := Fixtures.with_pkce Sample.quiet in
  let pkce := requestMongoManager.DeletePKCERequestSession r "sig-1" w in
  healthy w
  ∧ fst pkce = None
  ∧ fst (requestMongoManager.GetPKCERequestSession r "sig-1" (Some "") (snd pkce))
    = (None, Some fosite_ErrNotFound)
  ∧ fst (requestMongoManager.DeletePKCERequestSession r "sig-1" (snd pkce))
    = Some fosite_ErrNotFound
  ∧ fst (requestMongoManager.DeleteOpenIDConnectSession r "sig-1" w)
    = Some fosite_ErrNotFound.
Proof.
  intros r w pkce.
  assert (Hh : healthy w) by (intros n; reflexivity).
  assert (Hp : NoDup (r_Signature <$> requests w EntityPKCESessions))
    by apply NoDup_singleton.
  assert (Ho : NoDup (r_Signature <$> requests w EntityOpenIDSessions))
    by apply NoDup_nil_2.
  destruct (session_Delete_then_Get r "sig-1" (Some "") Sample.request1 w Hh Hp Ho)
    as (_ & _ & Hpkce & Hoidc).
  split; [exact Hh|]. destruct Hpkce as (H1 & H2 & H3).
  split; [exact H1|]. split; [exact H2|]. split; [exact H3 | exact Hoidc].
Defined.

Lemma Create_redacts_witness :
  let c := Sample.manager in
  let w := Sample.empty (Sample.outage_at 1) in
  let doc := with_Secret "REDACTED" Sample.c1 in
  let out := clientMongoManager.Create c (with_Secret "s3cr3t" Sample.c1) w in
  doc ∈ logged_documents (snd out)
  ∧ (doc ∈ logged_documents w ∨ Secret doc = "REDACTED").
Proof.
  intros c w doc out.
  assert (Hin : doc ∈ logged_documents (snd out)) by apply list_elem_of_here.
  split; [exact Hin|].
  exact (Create_redacts c (with_Secret "s3cr3t" Sample.c1) w doc Hin).
Defined.
